(** * Sigstore bundle verification (sigstore-js): a shallow embedding

    The development follows the TypeScript sources file by file:

    - [JS]            the fragment of JavaScript values the sources rely on
                      (UTF-16 strings, Buffers, completions);
    - [Base64]        RFC 4648 base64, the wire encoding of binary bundle fields;
    - [Dsse]          [dssePreAuthEncoding] (DSSE pre-authentication encoding);
    - [Checkpoint]    packages/verify/src/timestamp/checkpoint.ts;
    - [Client]        packages/client/src/verify.ts and
                      packages/client/src/tlog/verify/index.ts;
    - [BundleJSON]    the bundle wire format (serialization round trip);
    - [Orchestrator]  the verifier orchestrator.

    Cryptography, X.509 parsing and the other collaborators that live in
    other modules of the repository or in Node.js are Section variables:
    every theorem holds for all of their behaviours, and the closed examples
    instantiate them. *)

From Stdlib Require Import String Ascii DecimalString.
From Stdlib Require Import DecimalNat DecimalFacts Permutation.
From Stdlib.Strings Require Import Byte.
From Stdlib Require Import NArith ZArith Bool Lia List.
Import ListNotations.

(* ################################################################## *)
(** * Part I: the model *)
(* ################################################################## *)

(* ================================================================== *)
(** * JavaScript values *)
(* ================================================================== *)

Module JS.

(** A JavaScript string is a sequence of UTF-16 code units; [length] is the
    [.length] property. *)
Definition jsstring := list N.

(** A Node.js [Buffer] is a sequence of bytes. *)
Definition Buffer := list byte.

(** A string literal of the source (ASCII only). *)
Definition lit (s : string) : jsstring :=
  map N_of_ascii (list_ascii_of_string s).

(** [Buffer.from("...")] on an ASCII literal. *)
Definition bytes (s : string) : Buffer := list_byte_of_string s.

Definition byte_of_N (n : N) : byte :=
  match Byte.of_N (n mod 256) with
  | Some b => b
  | None => x00
  end.

(** [Buffer.from(s, 'ascii')]: Node writes the low byte of every code unit
    ('ascii' and 'latin1' share the encoder). *)
Definition Buffer_from_ascii (s : jsstring) : Buffer := map byte_of_N s.

(** Template-literal conversion [`${n}`] of a non-negative integer. *)
Definition Number_toString (n : nat) : jsstring :=
  lit (NilZero.string_of_uint (Nat.to_uint n)).

Fixpoint jsstring_eqb (s t : jsstring) : bool :=
  match s, t with
  | [], [] => true
  | c :: s', d :: t' => N.eqb c d && jsstring_eqb s' t'
  | _, _ => false
  end.

(** [crypto.bufferEqual(a, b)] of @sigstore/core: [timingSafeEqual], with
    [false] when the lengths differ. *)
Fixpoint bufferEqual (a b : Buffer) : bool :=
  match a, b with
  | [], [] => true
  | x :: a', y :: b' => Byte.eqb x y && bufferEqual a' b'
  | _, _ => false
  end.

(** [s.startsWith(p)]. *)
Fixpoint startsWith (p s : jsstring) : bool :=
  match p, s with
  | [], _ => true
  | c :: p', d :: s' => N.eqb c d && startsWith p' s'
  | _ :: _, [] => false
  end.

(** The first position at which [p] occurs in [s], if any. *)
Fixpoint search (p s : jsstring) : option nat :=
  if startsWith p s then Some 0
  else match s with
       | [] => None
       | _ :: s' => option_map S (search p s')
       end.

(** [s.indexOf(p)]: the first index at which [p] occurs, or -1. *)
Definition indexOf (p s : jsstring) : Z :=
  match search p s with
  | Some i => Z.of_nat i
  | None => (-1)%Z
  end.

(** [s.includes(p)]. *)
Definition includes (p s : jsstring) : bool :=
  match search p s with Some _ => true | None => false end.

(** An index argument of [slice]: negative indices count from the end, and
    the result is clamped to [0 .. length]. *)
Definition slice_index (len : nat) (i : Z) : nat :=
  if (i <? 0)%Z then Z.to_nat (Z.max 0 (Z.of_nat len + i))
  else Nat.min (Z.to_nat i) len.

(** [s.slice(i, j)] and [s.slice(i)]. *)
Definition slice (i j : Z) (s : jsstring) : jsstring :=
  let from := slice_index (length s) i in
  let to := slice_index (length s) j in
  firstn (to - from) (skipn from s).
Definition sliceFrom (i : Z) (s : jsstring) : jsstring :=
  skipn (slice_index (length s) i) s.

(** The outcome of a call: a value, or a thrown exception. *)
Inductive completion (E A : Type) : Type :=
| Return (a : A)
| Throw (e : E).
Arguments Return {E A} a.
Arguments Throw {E A} e.

Definition bind {E A B} (c : completion E A) (k : A -> completion E B)
  : completion E B :=
  match c with
  | Return a => k a
  | Throw e => Throw e
  end.

End JS.

Import JS.

Declare Scope js_scope.
Delimit Scope js_scope with js.
Notation "x <- c ;; k" := (bind c (fun x => k))
  (at level 61, c at next level, right associativity) : js_scope.

(* ================================================================== *)
(** * Base64 (RFC 4648), the encoding of binary fields on the wire *)
(* ================================================================== *)

Module Base64.

(** The character of a 6-bit value. *)
Definition b64char (n : N) : ascii :=
  ascii_of_N
    (if n <? 26 then 65 + n
     else if n <? 52 then 97 + (n - 26)
     else if n <? 62 then 48 + (n - 52)
     else if n =? 62 then 43 else 47)%N.

(** The 6-bit value of a character of the alphabet. *)
Definition b64val (c : ascii) : option N :=
  let k := N_of_ascii c in
  (if (65 <=? k) && (k <=? 90) then Some (k - 65)
   else if (97 <=? k) && (k <=? 122) then Some (k - 71)
   else if (48 <=? k) && (k <=? 57) then Some (k + 4)
   else if k =? 43 then Some 62
   else if k =? 47 then Some 63
   else None)%N.

Definition pad : ascii := "="%char.

Fixpoint encode_chars (bs : list byte) : list ascii :=
  match bs with
  | [] => []
  | [a] =>
      let a := Byte.to_N a in
      [b64char (a / 4); b64char ((a mod 4) * 16); pad; pad]%N
  | [a; b] =>
      let a := Byte.to_N a in
      let b := Byte.to_N b in
      [b64char (a / 4); b64char ((a mod 4) * 16 + b / 16);
       b64char ((b mod 16) * 4); pad]%N
  | a :: b :: c :: rest =>
      let a := Byte.to_N a in
      let b := Byte.to_N b in
      let c := Byte.to_N c in
      (b64char (a / 4) :: b64char ((a mod 4) * 16 + b / 16)
       :: b64char ((b mod 16) * 4 + c / 64) :: b64char (c mod 64)
       :: encode_chars rest)%N
  end.

(** [buf.toString('base64')]. *)
Definition encode (bs : list byte) : string :=
  string_of_list_ascii (encode_chars bs).

(** Strict decoding: groups of four characters, padding only in the last
    group; anything else is rejected. *)
Fixpoint decode_chars (cs : list ascii) : option (list byte) :=
  match cs with
  | [] => Some []
  | c0 :: c1 :: c2 :: c3 :: rest =>
      match b64val c0, b64val c1 with
      | Some s0, Some s1 =>
          let b0 := byte_of_N (s0 * 4 + s1 / 16) in
          if Ascii.eqb c3 pad then
            match rest with
            | [] =>
                if Ascii.eqb c2 pad then Some [b0]
                else match b64val c2 with
                     | Some s2 =>
                         Some [b0; byte_of_N ((s1 mod 16) * 16 + s2 / 4)]
                     | None => None
                     end
            | _ :: _ => None
            end
          else
            match b64val c2, b64val c3, decode_chars rest with
            | Some s2, Some s3, Some bs =>
                Some (b0 :: byte_of_N ((s1 mod 16) * 16 + s2 / 4)
                         :: byte_of_N ((s2 mod 4) * 64 + s3) :: bs)
            | _, _, _ => None
            end
      | _, _ => None
      end
  | _ => None
  end%N.

Definition decode (s : string) : option (list byte) :=
  decode_chars (list_ascii_of_string s).

End Base64.

(* ================================================================== *)
(** * DSSE pre-authentication encoding *)
(* ================================================================== *)

Module Dsse.

(** [dssePreAuthEncoding(payloadType, payload)]:
<<
  const prefix = Buffer.from(
    `DSSEv1 ${payloadType.length} ${payloadType} ${payload.length} `, 'ascii');
  return Buffer.concat([prefix, payload]);
>> *)
Definition dssePreAuthEncoding (payloadType : jsstring) (payload : Buffer)
  : Buffer :=
  let prefix :=
    Buffer_from_ascii
      (lit "DSSEv1 " ++ Number_toString (length payloadType) ++ lit " "
       ++ payloadType ++ lit " " ++ Number_toString (length payload)
       ++ lit " ") in
  prefix ++ payload.

(** The pre-authentication encoding as the specification defines it
    (section 4.3 and the glossary), to be compared with the function of the
    source:
<<
  PAE = ascii("DSSEv1 " + len(payloadType) + " " + payloadType + " "
              + len(payload) + " ") || payload
>>
    for a payload type of 8-bit text, the lengths being written in
    decimal. *)
Definition decimal (n : nat) : string :=
  NilZero.string_of_uint (Nat.to_uint n).

Definition PAE_spec (payloadType : string) (payload : list byte) : list byte :=
  list_byte_of_string
    ("DSSEv1 " ++ decimal (String.length payloadType) ++ " " ++ payloadType
     ++ " " ++ decimal (length payload) ++ " ")%string
  ++ payload.

(** A JavaScript string read as 8-bit text: the low byte of every code
    unit. For a string of 8-bit text it is the text itself. *)
Definition low_bytes (s : jsstring) : string :=
  string_of_list_ascii (map (fun c => ascii_of_N (c mod 256)%N) s).

(** Every code unit of the string is below 256: the strings that
    [Buffer.from(s, 'ascii')] writes without loss. *)
Definition latin1 (s : jsstring) : bool := forallb (fun c => c <? 256)%N s.

End Dsse.

(* ================================================================== *)
(** * The bundle data model (protobuf types of the Sigstore bundle) *)
(* ================================================================== *)

Module Types.

(** Optional message fields ([T | undefined]) are options; [oneof] fields
    (the [$case] discriminator) are sums. Integers that may exceed 2^53
    ([logIndex], [treeSize], [integratedTime]) are strings, as in the
    generated TypeScript types. *)

Record LogId := { keyId : Buffer }.

Record KindVersion := { kind : jsstring; version : jsstring }.

Record InclusionPromise := { signedEntryTimestamp : Buffer }.

Record Checkpoint := { envelope : jsstring }.

Record InclusionProof := {
  proofLogIndex : jsstring;
  rootHash : Buffer;
  treeSize : jsstring;
  hashes : list Buffer;
  checkpoint : option Checkpoint
}.

Record TransparencyLogEntry := {
  logIndex : jsstring;
  logId : option LogId;
  kindVersion : option KindVersion;
  integratedTime : jsstring;
  inclusionPromise : option InclusionPromise;
  inclusionProof : option InclusionProof;
  canonicalizedBody : Buffer
}.

Record X509Certificate := { rawBytes : Buffer }.

Record X509CertificateChain := { certificates : list X509Certificate }.

Record PublicKeyIdentifier := { hint : jsstring }.

Record RFC3161SignedTimestamp := { signedTimestamp : Buffer }.

Record TimestampVerificationData := {
  rfc3161Timestamps : list RFC3161SignedTimestamp
}.

Inductive VerificationMaterialContent :=
| x509CertificateChain (chain : X509CertificateChain)
| publicKey (id : PublicKeyIdentifier)
| certificate (cert : X509Certificate).

Record VerificationMaterial := {
  materialContent : option VerificationMaterialContent;
  tlogEntries : list TransparencyLogEntry;
  timestampVerificationData : option TimestampVerificationData
}.

Inductive HashAlgorithm :=
| HASH_ALGORITHM_UNSPECIFIED
| SHA2_256
| SHA2_384
| SHA2_512
| SHA3_256
| SHA3_384.

Record HashOutput := { algorithm : HashAlgorithm; digest : Buffer }.

Record MessageSignature := {
  messageDigest : option HashOutput;
  signature : Buffer
}.

Record Signature := { sig : Buffer; keyid : jsstring }.

Record Envelope := {
  payload : Buffer;
  payloadType : jsstring;
  signatures : list Signature
}.

Inductive BundleContent :=
| messageSignature (m : MessageSignature)
| dsseEnvelope (e : Envelope).

Record Bundle := {
  mediaType : jsstring;
  verificationMaterial : option VerificationMaterial;
  content : option BundleContent
}.

(** A JavaScript [Date]: its time value in milliseconds, [None] for an
    Invalid Date. *)
Definition Date := option Z.

(** A public key object, identified by its encoding. *)
Definition KeyObject := Buffer.

End Types.

(* ================================================================== *)
(** * packages/verify/src/timestamp/checkpoint.ts *)
(* ================================================================== *)

Module Checkpoint.
Import Types.

(** Error codes of the verify package's [VerificationError]. *)
Inductive VerificationErrorCode :=
| TLOG_INCLUSION_PROOF_ERROR
| TLOG_INCLUSION_PROMISE_ERROR
| TLOG_BODY_ERROR
| TIMESTAMP_ERROR
| CERTIFICATE_ERROR
| PUBLIC_KEY_ERROR
| SIGNATURE_ERROR.

(** What a call of this file can throw: [new VerificationError({code,
    message})], or the [SyntaxError] of [BigInt] on a malformed integer. *)
Inductive exn :=
| VerificationError (code : VerificationErrorCode) (message : string)
| SyntaxError.

Definition CHECKPOINT_SEPARATOR : jsstring := [10; 10]%N.

(** The class [\s] of an ECMAScript regular expression (WhiteSpace and
    LineTerminator code units); [\S] is its complement. [trimEnd] strips the
    same class. *)
Definition is_space (c : N) : bool :=
  ((9 <=? c) && (c <=? 13) || (c =? 32) || (c =? 160) || (c =? 5760)
   || (8192 <=? c) && (c <=? 8202) || (c =? 8232) || (c =? 8233)
   || (c =? 8239) || (c =? 8287) || (c =? 12288) || (c =? 65279))%N.

Definition EM_DASH : N := 8212%N.
Definition SPACE : N := 32%N.
Definition NEWLINE : N := 10%N.

(** [(\S+)]: the longest run of non-space code units at the head of [s],
    and what follows it. *)
Fixpoint span_nonspace (s : jsstring) : jsstring * jsstring :=
  match s with
  | [] => ([], [])
  | c :: s' =>
      if is_space c then ([], s)
      else let (run, rest) := span_nonspace s' in (c :: run, rest)
  end.

(** One attempt of [SIGNATURE_REGEX = /\u2014 (\S+) (\S+)\n/g] at the head
    of [s]: the two capture groups and the length of the match. Each [\S+]
    is followed by a space character of the pattern, so the greedy run is the
    only candidate: a shorter run would have to be followed by a space that
    lies inside the run. *)
Definition exec_here (s : jsstring) : option (jsstring * jsstring * nat) :=
  match s with
  | d :: sp :: s1 =>
      if ((d =? EM_DASH) && (sp =? SPACE))%N then
        match span_nonspace s1 with
        | ((_ :: _) as name, sp2 :: s2) =>
            if (sp2 =? SPACE)%N then
              match span_nonspace s2 with
              | ((_ :: _) as signature, nl :: _) =>
                  if (nl =? NEWLINE)%N
                  then Some (name, signature,
                             2 + length name + 1 + length signature + 1)
                  else None
              | _ => None
              end
            else None
        | _ => None
        end
      else None
  | _ => None
  end.

(** [data.matchAll(SIGNATURE_REGEX)]: the matches from left to right, the
    search resuming where the previous match ended. [skip] counts the code
    units of the previous match that are still to be stepped over. *)
Fixpoint matchAll_from (skip : nat) (s : jsstring)
  : list (jsstring * jsstring) :=
  match s with
  | [] => []
  | _ :: s' =>
      match skip with
      | S k => matchAll_from k s'
      | O =>
          match exec_here s with
          | Some (name, signature, len) =>
              (name, signature) :: matchAll_from (len - 1) s'
          | None => matchAll_from 0 s'
          end
      end
  end.

Definition matchAll (s : jsstring) : list (jsstring * jsstring) :=
  matchAll_from 0 s.

(** [Array.from(iterable, f)] with a callback that may throw: the elements
    are mapped from left to right and the first exception ends the call. *)
Fixpoint Array_from {E A B} (f : A -> completion E B) (l : list A)
  : completion E (list B) :=
  match l with
  | [] => Return []
  | a :: l' =>
      match f a with
      | Throw e => Throw e
      | Return b =>
          match Array_from f l' with
          | Throw e => Throw e
          | Return bs => Return (b :: bs)
          end
      end
  end.

(** [s.trimEnd()]. *)
Fixpoint trimEnd (s : jsstring) : jsstring :=
  match s with
  | [] => []
  | c :: s' =>
      match trimEnd s' with
      | [] => if is_space c then [] else [c]
      | t => c :: t
      end
  end.

(** [s.split('\n')]. *)
Fixpoint split_lines (s : jsstring) : list jsstring :=
  match s with
  | [] => [[]]
  | c :: s' =>
      if (c =? NEWLINE)%N then [] :: split_lines s'
      else match split_lines s' with
           | line :: lines => (c :: line) :: lines
           | [] => [[c]]
           end
  end.

Record TLogSignature := {
  name : jsstring;
  keyHint : Buffer;
  signature : Buffer
}.

Record SignedNote := { note : jsstring; signatures : list TLogSignature }.

Record LogCheckpoint := {
  origin : jsstring;
  logSize : Z;
  logHash : Buffer;
  rest : list jsstring
}.

(** [TLogAuthority] of the trust material: the fields this file reads. *)
Record TLogAuthority := { logID : Buffer; publicKey : KeyObject }.

(** [TLogEntryWithInclusionProof]: a transparency-log entry whose inclusion
    proof and checkpoint are present; the fields this file reads. *)
Record TLogEntryWithInclusionProof := {
  integratedTime : jsstring;
  proofRootHash : Buffer;
  checkpointEnvelope : jsstring
}.

Section Collaborators.

(** [Buffer.from(s, 'base64')] and [Buffer.from(s, 'utf-8')] of Node.js. *)
Variable Buffer_from_base64 : jsstring -> Buffer.
Variable Buffer_from_utf8 : jsstring -> Buffer.
(** [BigInt(s)]; [None] when it throws a SyntaxError. *)
Variable BigInt : jsstring -> option Z.
(** [crypto.verify(data, key, signature)] of @sigstore/core. *)
Variable crypto_verify : Buffer -> KeyObject -> Buffer -> bool.
(** [filterTLogAuthorities(tlogs, { targetDate })] of the trust module. *)
Variable filterTLogAuthorities : list TLogAuthority -> Date -> list TLogAuthority.
(** [new Date(Number(s) * 1000)]. *)
Variable Date_of_seconds : jsstring -> Date.

(** The callback of [Array.from(matches, ...)] in [SignedNote.fromString]. *)
Definition parseSignature (m : jsstring * jsstring)
  : completion exn TLogSignature :=
  let '(name, signature) := m in
  let sigBytes := Buffer_from_base64 signature in
  if length sigBytes <? 5 then
    Throw (VerificationError TLOG_INCLUSION_PROOF_ERROR
             "malformed checkpoint signature")
  else
    Return {| name := name;
              keyHint := firstn 4 sigBytes;
              signature := skipn 4 sigBytes |}.

(** [SignedNote.fromString(envelope)]. *)
Definition SignedNote_fromString (envelope : jsstring)
  : completion exn SignedNote :=
  if negb (includes CHECKPOINT_SEPARATOR envelope) then
    Throw (VerificationError TLOG_INCLUSION_PROOF_ERROR
             "missing checkpoint separator")
  else
    let split := indexOf CHECKPOINT_SEPARATOR envelope in
    let header := slice 0 (split + 1) envelope in
    let data := sliceFrom (split + Z.of_nat (length CHECKPOINT_SEPARATOR))
                          envelope in
    let matches := matchAll data in
    match Array_from parseSignature matches with
    | Throw e => Throw e
    | Return signatures =>
        if length signatures =? 0 then
          Throw (VerificationError TLOG_INCLUSION_PROOF_ERROR
                   "no signatures found in checkpoint")
        else Return {| note := header; signatures := signatures |}
    end.

(** [LogCheckpoint.fromString(note)]. *)
Definition LogCheckpoint_fromString (note : jsstring)
  : completion exn LogCheckpoint :=
  let lines := split_lines (trimEnd note) in
  if length lines <? 3 then
    Throw (VerificationError TLOG_INCLUSION_PROOF_ERROR
             "too few lines in checkpoint header")
  else
    let origin := nth 0 lines [] in
    match BigInt (nth 1 lines []) with
    | None => Throw SyntaxError
    | Some logSize =>
        let rootHash := Buffer_from_base64 (nth 2 lines []) in
        let rest := skipn 3 lines in
        Return {| origin := origin; logSize := logSize;
                  logHash := rootHash; rest := rest |}
    end.

(** The callback of [signedNote.signatures.every(...)]: the first log whose
    key hint matches is looked up, and the signature is checked with its key. *)
Definition signatureVerifies (data : Buffer) (tlogs : list TLogAuthority)
  (signature : TLogSignature) : bool :=
  match find (fun tlog =>
                bufferEqual (firstn 4 (logID tlog)) (keyHint signature))
             tlogs with
  | None => false
  | Some tlog =>
      crypto_verify data (publicKey tlog) (Checkpoint.signature signature)
  end.

(** [verifySignedNote(signedNote, tlogs)]. *)
Definition verifySignedNote (signedNote : SignedNote)
  (tlogs : list TLogAuthority) : bool :=
  let data := Buffer_from_utf8 (note signedNote) in
  forallb (signatureVerifies data tlogs) (signatures signedNote).

(** [verifyCheckpoint(entry, tlogs)]. *)
Definition verifyCheckpoint (entry : TLogEntryWithInclusionProof)
  (tlogs : list TLogAuthority) : completion exn unit :=
  let validTLogs :=
    filterTLogAuthorities tlogs (Date_of_seconds (integratedTime entry)) in
  match SignedNote_fromString (checkpointEnvelope entry) with
  | Throw e => Throw e
  | Return signedNote =>
      match LogCheckpoint_fromString (note signedNote) with
      | Throw e => Throw e
      | Return checkpoint =>
          if negb (verifySignedNote signedNote validTLogs) then
            Throw (VerificationError TLOG_INCLUSION_PROOF_ERROR
                     "invalid checkpoint signature")
          else if negb (bufferEqual (logHash checkpoint)
                                    (proofRootHash entry)) then
            Throw (VerificationError TLOG_INCLUSION_PROOF_ERROR
                     "root hash mismatch")
          else Return tt
      end
  end.

(** The signature [s] is backed by the logs [tlogs]: the first log whose
    4-byte log ID prefix equals the key hint exists, and the signature
    verifies over [data] with the key of that log. *)
Definition backed (data : Buffer) (tlogs : list TLogAuthority)
  (s : TLogSignature) : Prop :=
  exists tlog,
    find (fun tlog => bufferEqual (firstn 4 (logID tlog)) (keyHint s)) tlogs
    = Some tlog
    /\ crypto_verify data (publicKey tlog) (signature s) = true.

End Collaborators.

Definition nonspace (c : N) : bool := negb (is_space c).

(** A capture of [(\S+)]: one or more non-space code units. *)
Definition is_token (t : jsstring) : bool :=
  match t with
  | [] => false
  | _ :: _ => forallb nonspace t
  end.

(** The text of a signature line with the given captures. *)
Definition signature_line (name signature : jsstring) : jsstring :=
  EM_DASH :: SPACE :: name ++ SPACE :: signature ++ [NEWLINE].

(** No signature line occurs anywhere in [s]. *)
Definition no_signature_line (s : jsstring) : Prop :=
  forall pre name signature post,
    is_token name = true -> is_token signature = true ->
    s <> pre ++ signature_line name signature ++ post.

(** Deciding the absence of signature lines by running the matcher at every
    position. *)
Fixpoint no_match_anywhere (s : jsstring) : bool :=
  match exec_here s with
  | Some _ => false
  | None => match s with
            | [] => true
            | _ :: s' => no_match_anywhere s'
            end
  end.

(** The signature section of an envelope:
    [envelope.slice(split + CHECKPOINT_SEPARATOR.length)]. *)
Definition signatureSection (envelope : jsstring) : jsstring :=
  sliceFrom (indexOf CHECKPOINT_SEPARATOR envelope
             + Z.of_nat (length CHECKPOINT_SEPARATOR)) envelope.

(** ** A concrete checkpoint *)

Definition example_base64 (s : jsstring) : Buffer :=
  match Base64.decode (string_of_list_ascii (map ascii_of_N s)) with
  | Some b => b
  | None => []
  end.

Fixpoint decimal_value (acc : Z) (s : jsstring) : option Z :=
  match s with
  | [] => Some acc
  | c :: s' =>
      if ((48 <=? c) && (c <=? 57))%N
      then decimal_value (10 * acc + Z.of_N (c - 48)) s'
      else None
  end.

Definition example_BigInt (s : jsstring) : option Z := decimal_value 0 s.

(** A toy signature scheme: the signature of [data] under [key] is
    [key ++ data]. *)
Definition example_verify (data : Buffer) (key : KeyObject) (sig : Buffer)
  : bool := bufferEqual sig (key ++ data).

Definition example_filter (tlogs : list TLogAuthority) (_ : Date)
  : list TLogAuthority := tlogs.

Definition example_date (_ : jsstring) : Date := Some 0%Z.

Definition example_log : TLogAuthority :=
  {| logID := bytes "LOG1-identifier"; publicKey := bytes "log1-key" |}.

Definition example_note : jsstring :=
  lit "rekor.example" ++ [NEWLINE] ++ lit "1" ++ [NEWLINE]
  ++ lit "AAAA" ++ [NEWLINE].

Definition good_line : jsstring :=
  signature_line (lit "rekor.example")
    (lit (Base64.encode (bytes "LOG1" ++ bytes "log1-key"
                         ++ Buffer_from_ascii example_note))).

Definition stray_line : jsstring :=
  signature_line (lit "witness.example")
    (lit (Base64.encode (bytes "WXYZ" ++ bytes "unverifiable"))).

Definition entry_two_signatures : TLogEntryWithInclusionProof :=
  {| integratedTime := lit "1700000000";
     proofRootHash := [x00; x00; x00];
     checkpointEnvelope := example_note ++ [NEWLINE] ++ good_line ++ stray_line |}.

Definition entry_one_signature : TLogEntryWithInclusionProof :=
  {| integratedTime := lit "1700000000";
     proofRootHash := [x00; x00; x00];
     checkpointEnvelope := example_note ++ [NEWLINE] ++ good_line |}.

Definition example_verifyCheckpoint :=
  verifyCheckpoint example_base64 Buffer_from_ascii example_BigInt
    example_verify example_filter example_date.

Definition note_one_signature : SignedNote :=
  {| note := example_note;
     signatures :=
       [{| name := lit "rekor.example";
           keyHint := bytes "LOG1";
           signature := bytes "log1-key" ++ Buffer_from_ascii example_note |}] |}.

Definition example_checkpoint : LogCheckpoint :=
  {| origin := lit "rekor.example"; logSize := 1;
     logHash := [x00; x00; x00]; rest := [] |}.

Definition envelope_without_signature : jsstring :=
  example_note ++ [NEWLINE] ++ lit "- rekor.example c2lnbmF0dXJl" ++ [NEWLINE].

Definition envelope_short_signature : jsstring :=
  example_note ++ [NEWLINE] ++ signature_line (lit "rekor.example") (lit "AAAAAA==").

(** ** The text of a signed note *)

(** [lines.join('\n')]: the text of a list of lines. *)
Fixpoint join_lines (lines : list jsstring) : jsstring :=
  match lines with
  | [] => []
  | [line] => line
  | line :: rest => line ++ NEWLINE :: join_lines rest
  end.

(** The line holds no newline. *)
Definition newline_free (line : jsstring) : bool :=
  forallb (fun c => negb (c =? NEWLINE)%N) line.

(** The number of newlines of a text. *)
Definition count_newlines (s : jsstring) : nat :=
  length (filter (fun c => (c =? NEWLINE)%N) s).

(** The text of a list of signature lines, given by their captures. *)
Definition signature_lines (lines : list (jsstring * jsstring)) : jsstring :=
  concat (map (fun m => signature_line (fst m) (snd m)) lines).

(** The signature [SignedNote.fromString] builds from the captures of a
    matched line whose base64 token decodes to five bytes or more. *)
Definition signatureOf (Buffer_from_base64 : jsstring -> Buffer)
  (m : jsstring * jsstring) : TLogSignature :=
  {| name := fst m;
     keyHint := firstn 4 (Buffer_from_base64 (snd m));
     signature := skipn 4 (Buffer_from_base64 (snd m)) |}.

(** ** Further concrete checkpoints *)

Definition note_body : jsstring :=
  lit "rekor.example" ++ [NEWLINE] ++ lit "1" ++ [NEWLINE] ++ lit "AAAA".

Definition example_lines : list (jsstring * jsstring) :=
  [(lit "rekor.example",
    lit (Base64.encode (bytes "LOG1" ++ bytes "log1-key"
                        ++ Buffer_from_ascii example_note)))].

Definition one_signature : TLogSignature :=
  {| name := lit "rekor.example";
     keyHint := bytes "LOG1";
     signature := bytes "log1-key" ++ Buffer_from_ascii example_note |}.

Definition extension_line : jsstring := lit "Timestamp: 1689177396617352539".

Definition checkpoint_with_extension : LogCheckpoint :=
  {| origin := lit "rekor.example"; logSize := 1;
     logHash := [x00; x00; x00]; rest := [extension_line] |}.

(** A log with another key hint, and a second log with the key hint of
    [example_log]. *)
Definition other_log : TLogAuthority :=
  {| logID := bytes "WXYZ-identifier"; publicKey := bytes "other-key" |}.

Definition shadowed_log : TLogAuthority :=
  {| logID := bytes "LOG1-second"; publicKey := bytes "log1-second-key" |}.

(** An entry whose checkpoint names a size that is no integer. *)
Definition entry_bad_size : TLogEntryWithInclusionProof :=
  {| integratedTime := lit "1700000000";
     proofRootHash := [x00; x00; x00];
     checkpointEnvelope :=
       lit "rekor.example" ++ [NEWLINE] ++ lit "one" ++ [NEWLINE]
       ++ lit "AAAA" ++ [NEWLINE; NEWLINE] ++ good_line |}.

End Checkpoint.

(* ================================================================== *)
(** * packages/client/src/verify.ts and
      packages/client/src/tlog/verify/index.ts *)
(* ================================================================== *)

Module Client.
Import Types.

(** What a call can throw. The client's [VerificationError] is built from a
    message alone ([new VerificationError('...')]): it carries no error code.
    [TypeError] is the engine's error on reading a property of [undefined];
    [Error] stands for an exception raised inside a collaborator (Node's
    crypto, the X.509 parser). *)
Inductive exn :=
| VerificationError (message : string)
| TypeError
| Error (message : string).

(** The parsed signing certificate: its validity window, as time values. *)
Record x509Certificate := { notBefore : Z; notAfter : Z }.

(** A transparency-log instance of the trusted root; this code only hands
    the list of instances to the SET verifier. *)
Record TransparencyLogInstance := {
  baseUrl : jsstring;
  instanceLogId : option LogId;
  instancePublicKey : Buffer
}.

Record TrustedRoot := { tlogs : list TransparencyLogInstance }.

Record ArtifactVerificationOptions_TlogOptions := {
  threshold : Z;
  performOnlineVerification : bool;
  disable : bool
}.

Record ArtifactVerificationOptions_CtlogOptions := {
  ctlogThreshold : Z;
  detachedSct : bool;
  ctlogDisable : bool
}.

Inductive Signers :=
| certificateIdentities (identities : list jsstring)
| publicKeys (keys : list Buffer).

(** [RequiredArtifactVerificationOptions]: [tlogOptions] is present. *)
Record RequiredArtifactVerificationOptions := {
  ctlogOptions : option ArtifactVerificationOptions_CtlogOptions;
  signers : option Signers;
  tlogOptions : ArtifactVerificationOptions_TlogOptions
}.

(** [KeySelector = (hint: string) => string | Buffer | undefined]. The
    selector is a function of the caller: it answers with a key or with
    [undefined], or it throws. *)
Definition KeyInput := (jsstring + Buffer)%type.
Definition KeySelector := jsstring -> completion exn (option KeyInput).

(** The fields of the [Verifier] class. *)
Record Verifier := { trustedRoot : TrustedRoot; keySelector : KeySelector }.

(** Modelled from the spec: [x509Certificate.validForDate] is declared in
    x509/cert, which is not embedded here; the specification gives the
    validity window of the leaf as the half-open interval
    [NotBefore, NotAfter). An Invalid Date is in no window. *)
Definition validForDate (cert : x509Certificate) (date : Date) : bool :=
  match date with
  | Some t => (notBefore cert <=? t)%Z && (t <? notAfter cert)%Z
  | None => false
  end.

(** The certificate chain of a bundle whose verification material is of the
    [x509CertificateChain] case. *)
Definition certificateChain (bundle : Bundle) : option X509CertificateChain :=
  match verificationMaterial bundle with
  | Some vm =>
      match materialContent vm with
      | Some (x509CertificateChain chain) => Some chain
      | _ => None
      end
  | None => None
  end.

(** Modelled from the spec: the type guard [isBundleWithCertificateChain]
    is declared with the bundle types; it holds when the verification
    material is of the certificate-chain variant. *)
Definition isBundleWithCertificateChain (bundle : Bundle) : bool :=
  match certificateChain bundle with Some _ => true | None => false end.

(** [isCAVerificationOptions(options)], as its tests fix it: the CT-log
    options are present, and the signers are absent or certificate
    identities. *)
Definition isCAVerificationOptions
  (options : RequiredArtifactVerificationOptions) : bool :=
  match ctlogOptions options with
  | None => false
  | Some _ =>
      match signers options with
      | None | Some (certificateIdentities _) => true
      | Some (publicKeys _) => false
      end
  end.

(** [isTransparencyLogEntryWithInclusionPromise(entry)]. *)
Definition isTransparencyLogEntryWithInclusionPromise
  (entry : TransparencyLogEntry) : bool :=
  match inclusionPromise entry with Some _ => true | None => false end.

(** The bundle with its list of transparency-log entries replaced. *)
Definition with_tlogEntries (bundle : Bundle)
  (entries : list TransparencyLogEntry) : Bundle :=
  {| mediaType := mediaType bundle;
     verificationMaterial :=
       option_map
         (fun vm =>
            {| materialContent := materialContent vm;
               tlogEntries := entries;
               timestampVerificationData := timestampVerificationData vm |})
         (verificationMaterial bundle);
     content := content bundle |}.

(** [array.filter(f)] with a callback that may throw: the callback runs on
    the elements from left to right, and the first exception ends the
    call. *)
Fixpoint Array_filter {E A} (f : A -> completion E bool) (l : list A)
  : completion E (list A) :=
  match l with
  | [] => Return []
  | a :: l' =>
      match f a with
      | Throw e => Throw e
      | Return keep =>
          match Array_filter f l' with
          | Throw e => Throw e
          | Return kept => Return (if keep then a :: kept else kept)
          end
      end
  end.

(** The call returns (it does not throw). *)
Definition returns {E A} (c : completion E A) : bool :=
  match c with Return _ => true | Throw _ => false end.

(** The check passes: it returns [true]. *)
Definition passes {E} (c : completion E bool) : bool :=
  match c with Return b => b | Throw _ => false end.

Section Collaborators.

(** [verifyTLogBody(entry, bundleContent)] of ./body and
    [verifyTLogSET(entry, tlogs)] of ./set: each answers with a boolean, or
    throws (the body check parses the canonicalized body of the entry). *)
Variable verifyTLogBody :
  TransparencyLogEntry -> option BundleContent -> completion exn bool.
Variable verifyTLogSET :
  TransparencyLogEntry -> list TransparencyLogInstance -> completion exn bool.
(** [x509Certificate.parse(rawBytes)]. *)
Variable x509Certificate_parse : Buffer -> completion exn x509Certificate.
(** [new Date(Number(s) * 1000)]. *)
Variable Date_of_seconds : jsstring -> Date.
(** [pem.fromDER(rawBytes)]. *)
Variable pem_fromDER : Buffer -> jsstring.
(** [crypto.createPublicKey(key)]; it throws on a key it cannot read. *)
Variable createPublicKey : KeyInput -> completion exn KeyObject.
(** [crypto.hash(data)] and [crypto.verifyBlob(data, key, signature)]; the
    key handed over is [undefined] when the bundle names none. *)
Variable crypto_hash : Buffer -> Buffer.
Variable verifyBlob : Buffer -> option KeyObject -> Buffer -> bool.
(** [ca.verifySigningCertificate(bundle, trustedRoot, options)]. *)
Variable ca_verifySigningCertificate :
  Bundle -> TrustedRoot -> RequiredArtifactVerificationOptions ->
  completion exn unit.

(** ** tlog/verify/index.ts *)

(** [signingCertificate(bundle)]. *)
Definition signingCertificate (bundle : Bundle)
  : completion exn (option x509Certificate) :=
  match certificateChain bundle with
  | None => Return None
  | Some chain =>
      match certificates chain with
      | [] => Throw TypeError
      | signingCert :: _ =>
          match x509Certificate_parse (rawBytes signingCert) with
          | Throw e => Throw e
          | Return cert => Return (Some cert)
          end
      end
  end.

(** [verifyTLogEntryOffline(entry, bundleContent, tlogs, signingCert)]: the
    three checks are joined by [&&], so they run in this order, a check
    that answers [false] ends the call with [false], and what a check throws
    leaves the call. *)
Definition verifyTLogEntryOffline (entry : TransparencyLogEntry)
  (bundleContent : option BundleContent)
  (tlogs : list TransparencyLogInstance)
  (signingCert : option x509Certificate) : completion exn bool :=
  let verifyTLogIntegrationTime (_ : unit) :=
    match signingCert with
    | Some cert => validForDate cert (Date_of_seconds (integratedTime entry))
    | None => true
    end in
  let verifyTLogSignedEntryTimestamp (_ : unit) :=
    if isTransparencyLogEntryWithInclusionPromise entry
    then verifyTLogSET entry tlogs
    else Return false in
  match verifyTLogBody entry bundleContent with
  | Throw e => Throw e
  | Return false => Return false
  | Return true =>
      match verifyTLogSignedEntryTimestamp tt with
      | Throw e => Throw e
      | Return false => Return false
      | Return true => Return (verifyTLogIntegrationTime tt)
      end
  end.

(** [verifyTLogEntries(bundle, trustedRoot, options)]. *)
Definition verifyTLogEntries (bundle : Bundle) (trustedRoot : TrustedRoot)
  (options : ArtifactVerificationOptions_TlogOptions) : completion exn unit :=
  if performOnlineVerification options then
    Throw (VerificationError "Online verification not implemented")
  else
    match signingCertificate bundle with
    | Throw e => Throw e
    | Return signingCert =>
        match verificationMaterial bundle with
        | None => Throw TypeError
        | Some vm =>
            match Array_filter
                    (fun entry =>
                       verifyTLogEntryOffline entry (content bundle)
                         (tlogs trustedRoot) signingCert)
                    (tlogEntries vm) with
            | Throw e => Throw e
            | Return verifiedEntries =>
                if (Z.of_nat (length verifiedEntries) <? threshold options)%Z
                then Throw (VerificationError "tlog verification failed")
                else Return tt
            end
        end
    end.

(** ** verify.ts *)

(** [getPublicKeyFromCertificateChain(certificateChain)]. *)
Definition getPublicKeyFromCertificateChain (chain : X509CertificateChain)
  : completion exn KeyObject :=
  match certificates chain with
  | [] => Throw TypeError
  | first :: _ => createPublicKey (inl (pem_fromDER (rawBytes first)))
  end.

(** [getPublicKeyFromHint(publicKeyID, keySelector)]; the selector is called
    outside the [try] block, so what it throws leaves the call; [!key]
    holds for [undefined] and for the empty string. *)
Definition getPublicKeyFromHint (publicKeyID : PublicKeyIdentifier)
  (keySelector : KeySelector) : completion exn KeyObject :=
  match keySelector (hint publicKeyID) with
  | Throw e => Throw e
  | Return None | Return (Some (inl [])) =>
      Throw (VerificationError
               "no public key found for signature verification")
  | Return (Some key) =>
      match createPublicKey key with
      | Return k => Return k
      | Throw _ => Throw (VerificationError "invalid public key")
      end
  end.

(** [Verifier#getPublicKey(bundle)]; the [switch] has no default, so the call
    returns [undefined] when neither case applies. *)
Definition getPublicKey (this : Verifier) (bundle : Bundle)
  : completion exn (option KeyObject) :=
  match verificationMaterial bundle with
  | Some vm =>
      match materialContent vm with
      | Some (x509CertificateChain chain) =>
          match getPublicKeyFromCertificateChain chain with
          | Throw e => Throw e
          | Return k => Return (Some k)
          end
      | Some (publicKey id) =>
          match getPublicKeyFromHint id (keySelector this) with
          | Throw e => Throw e
          | Return k => Return (Some k)
          end
      | _ => Return None
      end
  | None => Return None
  end.

(** [verifyMessageSignature(data, messageSignature, publicKey)]. *)
Definition verifyMessageSignature (data : Buffer)
  (messageSignature : MessageSignature) (publicKey : option KeyObject)
  : completion exn unit :=
  match messageDigest messageSignature with
  | None => Throw TypeError
  | Some messageDigest =>
      let calculatedDigest := crypto_hash data in
      if negb (bufferEqual calculatedDigest (digest messageDigest)) then
        Throw (VerificationError "message digest verification failed")
      else if negb (verifyBlob data publicKey (signature messageSignature))
      then Throw (VerificationError "artifact signature verification failed")
      else Return tt
  end.

(** [verifyDSSESignature(envelope, publicKey)]; [dsse.preAuthEncoding] is
    [dssePreAuthEncoding] above. *)
Definition verifyDSSESignature (envelope : Envelope)
  (publicKey : option KeyObject) : completion exn unit :=
  let data :=
    Dsse.dssePreAuthEncoding (payloadType envelope) (payload envelope) in
  match signatures envelope with
  | [] => Throw TypeError
  | first :: _ =>
      if negb (verifyBlob data publicKey (sig first)) then
        Throw (VerificationError "artifact signature verification failed")
      else Return tt
  end.

(** [Verifier#verifyArtifactSignature(bundle, data)]. *)
Definition verifyArtifactSignature (this : Verifier) (bundle : Bundle)
  (data : option Buffer) : completion exn unit :=
  match getPublicKey this bundle with
  | Throw e => Throw e
  | Return key =>
      match content bundle with
      | Some (messageSignature m) =>
          match data with
          | None =>
              Throw (VerificationError
                       "no data provided for message signature verification")
          | Some data => verifyMessageSignature data m key
          end
      | Some (dsseEnvelope e) => verifyDSSESignature e key
      | None => Return tt
      end
  end.

(** [Verifier#verifySigningCertificate(bundle, options)]. *)
Definition verifySigningCertificate (this : Verifier) (bundle : Bundle)
  (options : RequiredArtifactVerificationOptions) : completion exn unit :=
  if negb (isCAVerificationOptions options) then
    Throw (VerificationError
             "no trusted certificates provided for verification")
  else ca_verifySigningCertificate bundle (trustedRoot this) options.

(** [Verifier#verify(bundle, options, data)]. *)
Definition verify (this : Verifier) (bundle : Bundle)
  (options : RequiredArtifactVerificationOptions) (data : option Buffer)
  : completion exn unit :=
  match verifyArtifactSignature this bundle data with
  | Throw e => Throw e
  | Return _ =>
      match (if isBundleWithCertificateChain bundle
             then verifySigningCertificate this bundle options
             else Return tt) with
      | Throw e => Throw e
      | Return _ =>
          if negb (disable (tlogOptions options))
          then verifyTLogEntries bundle (trustedRoot this)
                 (tlogOptions options)
          else Return tt
      end
  end.


End Collaborators.

(** ** Concrete bundles *)

Definition example_body (_ : TransparencyLogEntry) (_ : option BundleContent)
  : completion exn bool := Return true.

Definition example_SET (_ : TransparencyLogEntry)
  (_ : list TransparencyLogInstance) : completion exn bool := Return true.

(** A body check that parses the canonicalized body first, as [JSON.parse]
    does: it throws on a body that does not open with a brace. *)
Definition parsing_body (entry : TransparencyLogEntry)
  (_ : option BundleContent) : completion exn bool :=
  match canonicalizedBody entry with
  | x7b :: _ => Return true
  | _ => Throw (Error "Unexpected token b in JSON at position 0")
  end.

(** Every leaf parses to a certificate valid from second 1000 (included) to
    second 2000 (excluded). *)
Definition example_window : x509Certificate :=
  {| notBefore := 1000000; notAfter := 2000000 |}.

Definition example_parse (_ : Buffer) : completion exn x509Certificate :=
  Return example_window.

(** Decimal seconds to a time value in milliseconds. *)
Definition example_seconds (s : jsstring) : Date :=
  option_map (Z.mul 1000) (Checkpoint.decimal_value 0 s).

Definition example_pem (der : Buffer) : jsstring :=
  lit "-----BEGIN CERTIFICATE-----" ++ [10%N] ++ lit (Base64.encode der)
  ++ [10%N] ++ lit "-----END CERTIFICATE-----" ++ [10%N].

Definition leaf_der : Buffer := bytes "leaf-certificate".

(** A key reader that reads one certificate, [leaf_der], and nothing else. *)
Definition example_createPublicKey (key : KeyInput)
  : completion exn KeyObject :=
  match key with
  | inl pem =>
      if jsstring_eqb pem (example_pem leaf_der) then Return leaf_der
      else Throw (Error "unsupported")
  | inr der =>
      if bufferEqual der leaf_der then Return leaf_der
      else Throw (Error "unsupported")
  end.

Definition example_hash (data : Buffer) : Buffer := rev data.

(** A toy signature scheme: the signature of [data] under [key] is
    [key ++ data]. *)
Definition example_verifyBlob (data : Buffer) (key : option KeyObject)
  (signature : Buffer) : bool :=
  match key with
  | Some k => bufferEqual signature (k ++ data)
  | None => false
  end.

Definition example_ca (_ : Bundle) (_ : TrustedRoot)
  (_ : RequiredArtifactVerificationOptions) : completion exn unit :=
  Return tt.

Definition example_verify :=
  verify example_body example_SET example_parse example_seconds example_pem
    example_createPublicKey example_hash example_verifyBlob example_ca.

Definition example_verifyTLogEntries :=
  verifyTLogEntries example_body example_SET example_parse example_seconds.

Definition artifact : Buffer := bytes "hello, world!".

Definition example_entry (index seconds : string) : TransparencyLogEntry :=
  {| logIndex := lit index;
     logId := Some {| keyId := bytes "rekor" |};
     kindVersion :=
       Some {| kind := lit "hashedrekord"; version := lit "0.0.1" |};
     integratedTime := lit seconds;
     inclusionPromise := Some {| signedEntryTimestamp := bytes "set" |};
     inclusionProof := None;
     canonicalizedBody := bytes "body" |}.

Definition entry_in_window : TransparencyLogEntry := example_entry "1" "1500".
Definition entry_late : TransparencyLogEntry := example_entry "2" "2500".

Definition example_signature : BundleContent :=
  messageSignature
    {| messageDigest :=
         Some {| algorithm := SHA2_256; digest := example_hash artifact |};
       signature := leaf_der ++ artifact |}.

Definition example_media : jsstring :=
  lit "application/vnd.dev.sigstore.bundle+json;version=0.1".

Definition chain_material (leaf : Buffer)
  (entries : list TransparencyLogEntry) : VerificationMaterial :=
  {| materialContent :=
       Some (x509CertificateChain
               {| certificates := [{| rawBytes := leaf |}] |});
     tlogEntries := entries;
     timestampVerificationData := None |}.

Definition bundle_with (leaf : Buffer) (entries : list TransparencyLogEntry)
  : Bundle :=
  {| mediaType := example_media;
     verificationMaterial := Some (chain_material leaf entries);
     content := Some example_signature |}.


Definition bundle_one_entry : Bundle :=
  bundle_with leaf_der [entry_in_window].

Definition bundle_unreadable_leaf : Bundle :=
  bundle_with (bytes "FOO") [entry_in_window].

Definition bundle_unknown_hint : Bundle :=
  {| mediaType := example_media;
     verificationMaterial :=
       Some {| materialContent := Some (publicKey {| hint := lit "unknown" |});
               tlogEntries := [entry_in_window];
               timestampVerificationData := None |};
     content := Some example_signature |}.

Definition example_root : TrustedRoot :=
  {| tlogs := [{| baseUrl := lit "https://rekor.example";
                  instanceLogId := Some {| keyId := bytes "rekor" |};
                  instancePublicKey := bytes "rekor-key" |}] |}.

Definition example_verifier : Verifier :=
  {| trustedRoot := example_root; keySelector := fun _ => Return None |}.

Definition tlog_options (threshold : Z) (online : bool)
  : ArtifactVerificationOptions_TlogOptions :=
  {| threshold := threshold; performOnlineVerification := online;
     disable := false |}.

Definition example_options (threshold : Z)
  : RequiredArtifactVerificationOptions :=
  {| ctlogOptions :=
       Some {| ctlogThreshold := 1; detachedSct := false;
               ctlogDisable := false |};
     signers := None;
     tlogOptions := tlog_options threshold false |}.

(** ** The constructor of [Verifier]
<<
  constructor(trustedRoot, keySelector?) {
    this.trustedRoot = trustedRoot;
    this.keySelector = keySelector || (() => undefined);
  }
>> *)
Definition Verifier_new (trustedRoot : TrustedRoot)
  (keySelector : option KeySelector) : Verifier :=
  {| trustedRoot := trustedRoot;
     keySelector := match keySelector with
                    | Some selector => selector
                    | None => fun _ => Return None
                    end |}.

(** ** Further concrete bundles *)

(** An entry with an inclusion proof and no inclusion promise. *)
Definition entry_proof_only : TransparencyLogEntry :=
  {| logIndex := lit "3";
     logId := Some {| keyId := bytes "rekor" |};
     kindVersion :=
       Some {| kind := lit "hashedrekord"; version := lit "0.0.1" |};
     integratedTime := lit "1500";
     inclusionPromise := None;
     inclusionProof :=
       Some {| proofLogIndex := lit "3"; rootHash := bytes "root";
               treeSize := lit "4"; hashes := [];
               checkpoint := Some {| envelope := lit "checkpoint" |} |};
     canonicalizedBody := bytes "body" |}.

Definition bundle_proof_only : Bundle :=
  bundle_with leaf_der [entry_proof_only].

(** An entry whose canonicalized body opens with a brace. *)
Definition entry_braced : TransparencyLogEntry :=
  {| logIndex := lit "4";
     logId := Some {| keyId := bytes "rekor" |};
     kindVersion :=
       Some {| kind := lit "hashedrekord"; version := lit "0.0.1" |};
     integratedTime := lit "1500";
     inclusionPromise := Some {| signedEntryTimestamp := bytes "set" |};
     inclusionProof := None;
     canonicalizedBody := bytes "{}" |}.

Definition bundle_braced : Bundle := bundle_with leaf_der [entry_braced].

Definition example_envelope (signatures : list Signature) : Envelope :=
  {| payload := bytes "payload";
     payloadType := lit "application/vnd.in-toto+json";
     signatures := signatures |}.

Definition envelope_signature : Signature :=
  {| sig := leaf_der
            ++ Dsse.dssePreAuthEncoding (lit "application/vnd.in-toto+json")
                 (bytes "payload");
     keyid := [] |}.

Definition bundle_dsse (signatures : list Signature) : Bundle :=
  {| mediaType := example_media;
     verificationMaterial := Some (chain_material leaf_der [entry_in_window]);
     content := Some (dsseEnvelope (example_envelope signatures)) |}.

Definition bundle_empty_chain : Bundle :=
  {| mediaType := example_media;
     verificationMaterial :=
       Some {| materialContent :=
                 Some (x509CertificateChain {| certificates := [] |});
               tlogEntries := [entry_in_window];
               timestampVerificationData := None |};
     content := Some example_signature |}.

(** Options that name no CT log: not CA verification options. *)
Definition options_without_ca : RequiredArtifactVerificationOptions :=
  {| ctlogOptions := None; signers := None;
     tlogOptions := tlog_options 1 false |}.

End Client.

(* ================================================================== *)
(** * The bundle wire format *)
(* ================================================================== *)

Module BundleJSON.
Import Types.

(** Modelled from the spec: [bundleToJSON] and [bundleFromJSON] of
    @sigstore/bundle (serialized.ts) are not embedded here: the repository
    files at hand hold their tests and the [SerializedBundle] type, not their
    bodies. The serialized form follows section
    6.1 and the [SerializedBundle] type: every binary field is base64 text,
    the wide integers stay strings, a [oneof] becomes optional keys of which
    exactly one is set, the digest algorithm is its enumerator name. Reading
    enforces the invariants of section 3: a versioned media type, exactly one
    variant of the verification material and of the content, a certificate
    chain for v0.1 and v0.2 and a single certificate for v0.3, the signed
    entry timestamp on every entry of a v0.1 bundle and the inclusion proof
    with its checkpoint on every entry of a later one, and at least one
    signature on a DSSE envelope. *)

Inductive error := ValidationError (field : string).

Record SerializedLogId := { s_keyId : string }.

Record SerializedInclusionPromise := { s_signedEntryTimestamp : string }.

Record SerializedInclusionProof := {
  s_proofLogIndex : jsstring;
  s_rootHash : string;
  s_treeSize : jsstring;
  s_hashes : list string;
  s_checkpoint : option Checkpoint
}.

Record SerializedTLogEntry := {
  s_logIndex : jsstring;
  s_logId : option SerializedLogId;
  s_kindVersion : option KindVersion;
  s_integratedTime : jsstring;
  s_inclusionPromise : option SerializedInclusionPromise;
  s_inclusionProof : option SerializedInclusionProof;
  s_canonicalizedBody : string
}.

Record SerializedCertificate := { s_rawBytes : string }.

Record SerializedTimestamp := { s_signedTimestamp : string }.

Record SerializedTimestampVerificationData := {
  s_rfc3161Timestamps : list SerializedTimestamp
}.

Record SerializedVerificationMaterial := {
  s_x509CertificateChain : option (list SerializedCertificate);
  s_publicKey : option PublicKeyIdentifier;
  s_certificate : option SerializedCertificate;
  s_tlogEntries : list SerializedTLogEntry;
  s_timestampVerificationData : option SerializedTimestampVerificationData
}.

Record SerializedHashOutput := { s_algorithm : string; s_digest : string }.

Record SerializedMessageSignature := {
  s_messageDigest : option SerializedHashOutput;
  s_signature : string
}.

Record SerializedSignature := { s_sig : string; s_keyid : jsstring }.

Record SerializedEnvelope := {
  s_payload : string;
  s_payloadType : jsstring;
  s_signatures : list SerializedSignature
}.

Record SerializedBundle := {
  s_mediaType : jsstring;
  s_verificationMaterial : option SerializedVerificationMaterial;
  s_dsseEnvelope : option SerializedEnvelope;
  s_messageSignature : option SerializedMessageSignature
}.

(** Schema versions. *)
Inductive Version := V01 | V02 | V03.

Definition BUNDLE_V01 : jsstring :=
  lit "application/vnd.dev.sigstore.bundle+json;version=0.1".
Definition BUNDLE_V02 : jsstring :=
  lit "application/vnd.dev.sigstore.bundle+json;version=0.2".
Definition BUNDLE_V03 : jsstring :=
  lit "application/vnd.dev.sigstore.bundle+json;version=0.3".

Definition versionOf (mediaType : jsstring) : option Version :=
  if jsstring_eqb mediaType BUNDLE_V01 then Some V01
  else if jsstring_eqb mediaType BUNDLE_V02 then Some V02
  else if jsstring_eqb mediaType BUNDLE_V03 then Some V03
  else None.

(** ** Writing *)

Definition hashAlgorithmToJSON (a : HashAlgorithm) : string :=
  match a with
  | HASH_ALGORITHM_UNSPECIFIED => "HASH_ALGORITHM_UNSPECIFIED"
  | SHA2_256 => "SHA2_256"
  | SHA2_384 => "SHA2_384"
  | SHA2_512 => "SHA2_512"
  | SHA3_256 => "SHA3_256"
  | SHA3_384 => "SHA3_384"
  end.

Definition inclusionProofToJSON (p : InclusionProof)
  : SerializedInclusionProof :=
  {| s_proofLogIndex := proofLogIndex p;
     s_rootHash := Base64.encode (rootHash p);
     s_treeSize := treeSize p;
     s_hashes := map Base64.encode (hashes p);
     s_checkpoint := checkpoint p |}.

Definition tlogEntryToJSON (e : TransparencyLogEntry) : SerializedTLogEntry :=
  {| s_logIndex := logIndex e;
     s_logId :=
       option_map (fun l => {| s_keyId := Base64.encode (keyId l) |})
         (logId e);
     s_kindVersion := kindVersion e;
     s_integratedTime := integratedTime e;
     s_inclusionPromise :=
       option_map
         (fun p => {| s_signedEntryTimestamp :=
                        Base64.encode (signedEntryTimestamp p) |})
         (inclusionPromise e);
     s_inclusionProof := option_map inclusionProofToJSON (inclusionProof e);
     s_canonicalizedBody := Base64.encode (canonicalizedBody e) |}.

Definition certificateToJSON (c : X509Certificate) : SerializedCertificate :=
  {| s_rawBytes := Base64.encode (rawBytes c) |}.

Definition timestampsToJSON (t : TimestampVerificationData)
  : SerializedTimestampVerificationData :=
  {| s_rfc3161Timestamps :=
       map (fun ts => {| s_signedTimestamp :=
                           Base64.encode (signedTimestamp ts) |})
           (rfc3161Timestamps t) |}.

Definition materialToJSON (vm : VerificationMaterial)
  : SerializedVerificationMaterial :=
  {| s_x509CertificateChain :=
       match materialContent vm with
       | Some (x509CertificateChain chain) =>
           Some (map certificateToJSON (certificates chain))
       | _ => None
       end;
     s_publicKey :=
       match materialContent vm with
       | Some (publicKey id) => Some id
       | _ => None
       end;
     s_certificate :=
       match materialContent vm with
       | Some (certificate c) => Some (certificateToJSON c)
       | _ => None
       end;
     s_tlogEntries := map tlogEntryToJSON (tlogEntries vm);
     s_timestampVerificationData :=
       option_map timestampsToJSON (timestampVerificationData vm) |}.

Definition messageSignatureToJSON (m : MessageSignature)
  : SerializedMessageSignature :=
  {| s_messageDigest :=
       option_map
         (fun h => {| s_algorithm := hashAlgorithmToJSON (algorithm h);
                      s_digest := Base64.encode (digest h) |})
         (messageDigest m);
     s_signature := Base64.encode (signature m) |}.

(** Modelled from the spec: [envelopeToJSON]. *)
Definition envelopeToJSON (e : Envelope) : SerializedEnvelope :=
  {| s_payload := Base64.encode (payload e);
     s_payloadType := payloadType e;
     s_signatures :=
       map (fun s => {| s_sig := Base64.encode (sig s);
                        s_keyid := keyid s |})
           (signatures e) |}.

(** Modelled from the spec: [bundleToJSON] (serialized.ts, not embedded
    here); section 6.1 gives the wire form. *)
Definition bundleToJSON (b : Bundle) : SerializedBundle :=
  {| s_mediaType := mediaType b;
     s_verificationMaterial := option_map materialToJSON (verificationMaterial b);
     s_dsseEnvelope :=
       match content b with
       | Some (dsseEnvelope e) => Some (envelopeToJSON e)
       | _ => None
       end;
     s_messageSignature :=
       match content b with
       | Some (messageSignature m) => Some (messageSignatureToJSON m)
       | _ => None
       end |}.

(** ** Reading *)

Definition result (A : Type) := completion error A.

Definition bytesFromJSON (field : string) (s : string) : result Buffer :=
  match Base64.decode s with
  | Some b => Return b
  | None => Throw (ValidationError field)
  end.

Definition required {A} (field : string) (o : option A) : result A :=
  match o with
  | Some a => Return a
  | None => Throw (ValidationError field)
  end.

(** Reading every element of a list, from left to right. *)
Fixpoint traverse {A B} (f : A -> result B) (l : list A) : result (list B) :=
  match l with
  | [] => Return []
  | a :: l' =>
      (b <- f a ;; bs <- traverse f l' ;; Return (b :: bs))%js
  end.

(** Reading an optional field. *)
Definition optionally {A B} (f : A -> result B) (o : option A)
  : result (option B) :=
  match o with
  | None => Return None
  | Some a => (b <- f a ;; Return (Some b))%js
  end.

Definition hashAlgorithmFromJSON (s : string) : result HashAlgorithm :=
  if String.eqb s "HASH_ALGORITHM_UNSPECIFIED"
  then Return HASH_ALGORITHM_UNSPECIFIED
  else if String.eqb s "SHA2_256" then Return SHA2_256
  else if String.eqb s "SHA2_384" then Return SHA2_384
  else if String.eqb s "SHA2_512" then Return SHA2_512
  else if String.eqb s "SHA3_256" then Return SHA3_256
  else if String.eqb s "SHA3_384" then Return SHA3_384
  else Throw (ValidationError "messageDigest.algorithm").

Definition inclusionProofFromJSON (p : SerializedInclusionProof)
  : result InclusionProof :=
  (root <- bytesFromJSON "inclusionProof.rootHash" (s_rootHash p) ;;
   hs <- traverse (bytesFromJSON "inclusionProof.hashes") (s_hashes p) ;;
   Return {| proofLogIndex := s_proofLogIndex p;
             rootHash := root;
             treeSize := s_treeSize p;
             hashes := hs;
             checkpoint := s_checkpoint p |})%js.

Definition tlogEntryFromJSON (e : SerializedTLogEntry)
  : result TransparencyLogEntry :=
  (id <- optionally
           (fun l => k <- bytesFromJSON "logId.keyId" (s_keyId l) ;;
                     Return {| keyId := k |})
           (s_logId e) ;;
   promise <- optionally
                (fun p =>
                   t <- bytesFromJSON "inclusionPromise.signedEntryTimestamp"
                          (s_signedEntryTimestamp p) ;;
                   Return {| signedEntryTimestamp := t |})
                (s_inclusionPromise e) ;;
   proof <- optionally inclusionProofFromJSON (s_inclusionProof e) ;;
   body <- bytesFromJSON "canonicalizedBody" (s_canonicalizedBody e) ;;
   Return {| logIndex := s_logIndex e;
             logId := id;
             kindVersion := s_kindVersion e;
             integratedTime := s_integratedTime e;
             inclusionPromise := promise;
             inclusionProof := proof;
             canonicalizedBody := body |})%js.

Definition certificateFromJSON (c : SerializedCertificate)
  : result X509Certificate :=
  (raw <- bytesFromJSON "certificate.rawBytes" (s_rawBytes c) ;;
   Return {| rawBytes := raw |})%js.

Definition timestampsFromJSON (t : SerializedTimestampVerificationData)
  : result TimestampVerificationData :=
  (ts <- traverse
           (fun x => b <- bytesFromJSON "rfc3161Timestamps.signedTimestamp"
                           (s_signedTimestamp x) ;;
                     Return {| signedTimestamp := b |})
           (s_rfc3161Timestamps t) ;;
   Return {| rfc3161Timestamps := ts |})%js.

(** Exactly one variant of the verification material. *)
Definition materialContentFromJSON (vm : SerializedVerificationMaterial)
  : result VerificationMaterialContent :=
  match s_x509CertificateChain vm, s_publicKey vm, s_certificate vm with
  | Some chain, None, None =>
      (cs <- traverse certificateFromJSON chain ;;
       Return (x509CertificateChain {| certificates := cs |}))%js
  | None, Some id, None => Return (publicKey id)
  | None, None, Some c =>
      (c' <- certificateFromJSON c ;; Return (certificate c'))%js
  | _, _, _ => Throw (ValidationError "verificationMaterial.content")
  end.

Definition materialFromJSON (vm : SerializedVerificationMaterial)
  : result VerificationMaterial :=
  (c <- materialContentFromJSON vm ;;
   entries <- traverse tlogEntryFromJSON (s_tlogEntries vm) ;;
   ts <- optionally timestampsFromJSON (s_timestampVerificationData vm) ;;
   Return {| materialContent := Some c;
             tlogEntries := entries;
             timestampVerificationData := ts |})%js.

Definition messageSignatureFromJSON (m : SerializedMessageSignature)
  : result MessageSignature :=
  (d <- optionally
          (fun h => a <- hashAlgorithmFromJSON (s_algorithm h) ;;
                    b <- bytesFromJSON "messageDigest.digest" (s_digest h) ;;
                    Return {| algorithm := a; digest := b |})
          (s_messageDigest m) ;;
   s <- bytesFromJSON "messageSignature.signature" (s_signature m) ;;
   Return {| messageDigest := d; signature := s |})%js.

(** Modelled from the spec: [envelopeFromJSON]. *)
Definition envelopeFromJSON (e : SerializedEnvelope) : result Envelope :=
  (p <- bytesFromJSON "dsseEnvelope.payload" (s_payload e) ;;
   ss <- traverse
           (fun s => b <- bytesFromJSON "dsseEnvelope.signatures.sig"
                           (s_sig s) ;;
                     Return {| sig := b; keyid := s_keyid s |})
           (s_signatures e) ;;
   Return {| payload := p; payloadType := s_payloadType e;
             signatures := ss |})%js.

(** Exactly one variant of the content. *)
Definition contentFromJSON (b : SerializedBundle) : result BundleContent :=
  match s_dsseEnvelope b, s_messageSignature b with
  | Some e, None => (e' <- envelopeFromJSON e ;; Return (dsseEnvelope e'))%js
  | None, Some m =>
      (m' <- messageSignatureFromJSON m ;; Return (messageSignature m'))%js
  | _, _ => Throw (ValidationError "content")
  end.

(** The invariants of an entry under a schema version. *)
Definition entryValid (v : Version) (e : TransparencyLogEntry) : bool :=
  match v with
  | V01 => match inclusionPromise e with Some _ => true | None => false end
  | V02 | V03 =>
      match inclusionProof e with
      | Some p => match checkpoint p with Some _ => true | None => false end
      | None => false
      end
  end.

(** The variant of the verification material a schema version admits. *)
Definition materialValid (v : Version) (c : VerificationMaterialContent)
  : bool :=
  match v, c with
  | (V01 | V02), (x509CertificateChain _ | publicKey _) => true
  | V03, (certificate _ | publicKey _) => true
  | _, _ => false
  end.

Definition contentValid (c : BundleContent) : bool :=
  match c with
  | dsseEnvelope e => negb (length (signatures e) =? 0)
  | messageSignature _ => true
  end.

(** The invariants of a bundle (section 3 of the specification). *)
Definition wellFormed (b : Bundle) : bool :=
  match versionOf (mediaType b), verificationMaterial b, content b with
  | Some v, Some vm, Some c =>
      match materialContent vm with
      | Some mc =>
          materialValid v mc && forallb (entryValid v) (tlogEntries vm)
          && contentValid c
      | None => false
      end
  | _, _, _ => false
  end.

(** Modelled from the spec: [bundleFromJSON] (serialized.ts, not embedded
    here); the bundle is read from the wire form of section 6.1, then checked
    against the invariants of section 3. *)
Definition bundleFromJSON (j : SerializedBundle) : result Bundle :=
  (vm <- required "verificationMaterial" (s_verificationMaterial j) ;;
   vm' <- materialFromJSON vm ;;
   c <- contentFromJSON j ;;
   let b := {| mediaType := s_mediaType j;
               verificationMaterial := Some vm';
               content := Some c |} in
   if wellFormed b then Return b else Throw (ValidationError "bundle"))%js.

(** The bundles of the round-trip tests (v0.1, v0.2 and v0.3). *)
Definition test_envelope : Envelope :=
  {| payload := bytes "ABC"; payloadType := lit "application/json";
     signatures := [{| sig := bytes "BAR"; keyid := [] |}] |}.

Definition test_entry (promise : option InclusionPromise)
  (proof : option InclusionProof) : TransparencyLogEntry :=
  {| logIndex := lit "123";
     logId := Some {| keyId := bytes "123" |};
     kindVersion := Some {| kind := lit "intoto"; version := lit "0.1.0" |};
     integratedTime := lit "0";
     inclusionPromise := promise;
     inclusionProof := proof;
     canonicalizedBody := [] |}.

Definition test_proof : InclusionProof :=
  {| proofLogIndex := []; rootHash := []; treeSize := []; hashes := [];
     checkpoint := Some {| envelope := [] |} |}.

Definition test_bundle (media : jsstring) (c : VerificationMaterialContent)
  (entry : TransparencyLogEntry) : Bundle :=
  {| mediaType := media;
     verificationMaterial :=
       Some {| materialContent := Some c;
               tlogEntries := [entry];
               timestampVerificationData := None |};
     content := Some (dsseEnvelope test_envelope) |}.

Definition test_chain : VerificationMaterialContent :=
  x509CertificateChain {| certificates := [{| rawBytes := bytes "FOO" |}] |}.

Definition bundle_v01 : Bundle :=
  test_bundle BUNDLE_V01 test_chain
    (test_entry (Some {| signedEntryTimestamp := [] |}) None).

Definition bundle_v02 : Bundle :=
  test_bundle BUNDLE_V02 test_chain (test_entry None (Some test_proof)).

Definition bundle_v03 : Bundle :=
  test_bundle BUNDLE_V03 (certificate {| rawBytes := bytes "FOO" |})
    (test_entry None (Some test_proof)).

End BundleJSON.

(* ================================================================== *)
(** * The verifier orchestrator *)
(* ================================================================== *)

Module Orchestrator.
Import Types.

(** Modelled from the spec: the [Verifier] of packages/verify (verifier.ts)
    is not embedded here: the repository files at hand hold its tests
    (verifier.test.ts), not its body. This is the orchestrator of section
    4.9, whose algorithm short-circuits on the first failure:
    - step 1 normalizes the bundle into a signed entity;
    - step 2 verifies the signature over the signature content
      (SIGNATURE_ERROR);
    - step 3 collects the timestamps (for each transparency-log entry the
      signed entry timestamp and the inclusion proof are verified when
      present, and each RFC 3161 token is verified; the invalid ones are
      discarded and the kind of each is remembered) and rejects duplicate
      log entries, those with the same log ID and log index;
    - step 4 compares the number of valid timestamps of each kind with its
      threshold; every failure of steps 3 and 4 is a TIMESTAMP_ERROR;
    - step 5 establishes trust in the key (CERTIFICATE_ERROR,
      PUBLIC_KEY_ERROR);
    - step 6 matches the body of every log entry whose timestamp was
      accepted (TLOG_BODY_ERROR);
    - step 7 applies the policy (UNTRUSTED_SIGNER_ERROR).
    When an entry carries both a signed entry timestamp and an inclusion
    proof, both must verify (the reading section 9 prefers). *)

(** The errors of section 7: a verification error with its code, or a policy
    error. *)
Inductive failure :=
| VerificationError (code : Checkpoint.VerificationErrorCode)
    (message : string)
| PolicyError (message : string).

Record Config := {
  tlog_threshold : nat;
  ctlog_threshold : nat;
  tsa_threshold : nat
}.


Inductive Key :=
| key_certificate (cert : X509Certificate)
| key_public_key (hint : jsstring).

Record SignedEntity := {
  key : Key;
  entity_signature : Buffer;
  sig_content : Buffer;
  tlog_entries : list TransparencyLogEntry;
  rfc3161_timestamps : list RFC3161SignedTimestamp
}.

(** What normalization computes from the verification material, the content
    and the artifact: the key, the signature and the signed bytes. *)
Record SignatureMaterial := {
  material_key : Key;
  material_signature : Buffer;
  material_sig_content : Buffer
}.

(** The transparency-log entries and the RFC 3161 tokens of a bundle. *)
Definition bundle_tlog_entries (bundle : Bundle)
  : list TransparencyLogEntry :=
  match verificationMaterial bundle with
  | Some vm => tlogEntries vm
  | None => []
  end.

Definition bundle_rfc3161_timestamps (bundle : Bundle)
  : list RFC3161SignedTimestamp :=
  match verificationMaterial bundle with
  | Some vm =>
      match timestampVerificationData vm with
      | Some data => rfc3161Timestamps data
      | None => []
      end
  | None => []
  end.

(** A timestamp with its source. *)
Inductive Timestamp :=
| timestamp_authority (token : RFC3161SignedTimestamp)
| transparency_log (entry : TransparencyLogEntry).

Definition timestamps (entity : SignedEntity) : list Timestamp :=
  map timestamp_authority (rfc3161_timestamps entity)
  ++ map transparency_log (tlog_entries entity).

Definition same_log_id (a b : option LogId) : bool :=
  match a, b with
  | Some x, Some y => bufferEqual (keyId x) (keyId y)
  | None, None => true
  | _, _ => false
  end.

(** Modelled from the spec: duplicate log entries are entries with the same
    log ID and log index (section 4.9, step 3). *)
Definition same_log_entry (a b : TransparencyLogEntry) : bool :=
  same_log_id (logId a) (logId b) && jsstring_eqb (logIndex a) (logIndex b).

Fixpoint containsDupes (entries : list TransparencyLogEntry) : bool :=
  match entries with
  | [] => false
  | e :: rest => existsb (same_log_entry e) rest || containsDupes rest
  end.

Section Collaborators.

(** Step 1, for the part that depends on the content and the artifact; it
    fails on a bundle it cannot normalize. *)
Variable normalize :
  Bundle -> option Buffer -> completion failure SignatureMaterial.
(** Step 2: the signature of the entity verifies over its signature content
    with its key. *)
Variable verifySignature : SignedEntity -> bool.
(** The verifiers of sections 4.5, 4.6 and 4.7. *)
Variable verifySET : TransparencyLogEntry -> bool.
Variable verifyInclusionProof : TransparencyLogEntry -> bool.
Variable verifyRFC3161 : RFC3161SignedTimestamp -> Buffer -> bool.
(** Step 5, with the valid timestamps; step 6 for one entry (section 4.4);
    step 7. *)
Variable verifyKeyTrust :
  Config -> SignedEntity -> list Timestamp -> completion failure unit.
Variable verifyLogBody : SignedEntity -> TransparencyLogEntry -> bool.
Variable verifyPolicy : SignedEntity -> completion failure unit.

(** Modelled from the spec: step 1 of section 4.9. The signed entity carries
    the transparency-log entries and the timestamp tokens of the bundle
    (section 3). *)
Definition toSignedEntity (bundle : Bundle) (artifact : option Buffer)
  : completion failure SignedEntity :=
  match normalize bundle artifact with
  | Throw e => Throw e
  | Return m =>
      Return {| key := material_key m;
                entity_signature := material_signature m;
                sig_content := material_sig_content m;
                tlog_entries := bundle_tlog_entries bundle;
                rfc3161_timestamps := bundle_rfc3161_timestamps bundle |}
  end.

Definition tlogTimestampValid (entry : TransparencyLogEntry) : bool :=
  match inclusionPromise entry, inclusionProof entry with
  | Some _, Some _ => verifySET entry && verifyInclusionProof entry
  | Some _, None => verifySET entry
  | None, Some _ => verifyInclusionProof entry
  | None, None => false
  end.

Definition timestampValid (signature : Buffer) (t : Timestamp) : bool :=
  match t with
  | timestamp_authority token => verifyRFC3161 token signature
  | transparency_log entry => tlogTimestampValid entry
  end.

Definition isTLog (t : Timestamp) : bool :=
  match t with transparency_log _ => true | timestamp_authority _ => false end.

(** Modelled from the spec: steps 3 and 4 of section 4.9; the result is the
    list of the valid timestamps. *)
Definition verifyTimestamps (config : Config) (entity : SignedEntity)
  : completion failure (list Timestamp) :=
  let valid :=
    filter (timestampValid (entity_signature entity)) (timestamps entity) in
  if containsDupes (tlog_entries entity) then
    Throw (VerificationError Checkpoint.TIMESTAMP_ERROR
             "duplicate log entries")
  else if length (filter isTLog valid) <? tlog_threshold config then
    Throw (VerificationError Checkpoint.TIMESTAMP_ERROR
             "tlog threshold not met")
  else if length (filter (fun t => negb (isTLog t)) valid)
          <? tsa_threshold config then
    Throw (VerificationError Checkpoint.TIMESTAMP_ERROR
             "tsa threshold not met")
  else Return valid.

(** Modelled from the spec: the algorithm of section 4.9, steps 1 to 7 in
    their order, ending at the first failure. *)
Definition verify (config : Config) (bundle : Bundle)
  (artifact : option Buffer) : completion failure unit :=
  match toSignedEntity bundle artifact with
  | Throw e => Throw e
  | Return entity =>
      if negb (verifySignature entity) then
        Throw (VerificationError Checkpoint.SIGNATURE_ERROR
                 "signature verification failed")
      else
        match verifyTimestamps config entity with
        | Throw e => Throw e
        | Return valid =>
            match verifyKeyTrust config entity valid with
            | Throw e => Throw e
            | Return _ =>
                if negb (forallb (verifyLogBody entity)
                           (filter tlogTimestampValid (tlog_entries entity)))
                then Throw (VerificationError Checkpoint.TLOG_BODY_ERROR
                              "log body does not match the bundle")
                else verifyPolicy entity
            end
        end
  end.

End Collaborators.



(** Collaborators that accept everything, and a signature check that accepts
    one artifact only. *)
Definition example_normalize (bundle : Bundle) (artifact : option Buffer)
  : completion failure SignatureMaterial :=
  match artifact with
  | Some data =>
      Return {| material_key := key_public_key (lit "hint");
                material_signature := bytes "signature";
                material_sig_content := data |}
  | None =>
      Throw (VerificationError Checkpoint.SIGNATURE_ERROR
               "no data for message signature")
  end.

Definition example_signature_check (entity : SignedEntity) : bool :=
  bufferEqual (sig_content entity) (bytes "hello, world!").

Definition accept_entry (_ : TransparencyLogEntry) : bool := true.
Definition accept_token (_ : RFC3161SignedTimestamp) (_ : Buffer) : bool :=
  true.
Definition accept_key (_ : Config) (_ : SignedEntity) (_ : list Timestamp)
  : completion failure unit := Return tt.
Definition accept_body (_ : SignedEntity) (_ : TransparencyLogEntry) : bool :=
  true.
Definition accept_policy (_ : SignedEntity) : completion failure unit :=
  Return tt.

Definition example_verify :=
  verify example_normalize example_signature_check accept_entry accept_entry
    accept_token accept_key accept_body accept_policy.

End Orchestrator.

(* ################################################################## *)
(** * Part II: theorems *)
(* ################################################################## *)

(* ================================================================== *)
(** * JavaScript values *)
(* ================================================================== *)

Lemma byte_of_N_to_N (b : byte) : byte_of_N (Byte.to_N b) = b.
Proof.
  unfold byte_of_N.
  rewrite N.mod_small by (pose proof (Byte.to_N_bounded b); lia).
  now rewrite Byte.of_to_N.
Qed.

Lemma bufferEqual_spec (a b : Buffer) : bufferEqual a b = true <-> a = b.
Proof.
  revert b; induction a as [|x a IH]; intros [|y b]; simpl;
    try (split; [discriminate | discriminate]); try tauto.
  rewrite andb_true_iff, IH. split.
  - intros [Hxy ->]. apply Byte.byte_dec_bl in Hxy. now subst.
  - intros [= -> ->]. split; [now apply Byte.byte_dec_lb | reflexivity].
Qed.

Lemma bufferEqual_refl (a : Buffer) : bufferEqual a a = true.
Proof. now apply bufferEqual_spec. Qed.

(* ================================================================== *)
(** * Base64 *)
(* ================================================================== *)

(** ** Round trip of the codec *)

Section Base64_facts.
Import Base64.

Lemma list_ind3 {A} (P : list A -> Prop) :
  P [] -> (forall a, P [a]) -> (forall a b, P [a; b]) ->
  (forall a b c l, P l -> P (a :: b :: c :: l)) ->
  forall l, P l.
Proof.
  intros H0 H1 H2 H3. fix IH 1.
  intros [|a [|b [|c l]]];
    [apply H0 | apply H1 | apply H2 | apply H3, IH].
Qed.

Lemma sextet_cases (n : N) :
  (n < 64)%N -> In n (map N.of_nat (seq 0 64)).
Proof.
  intros Hn. apply in_map_iff. exists (N.to_nat n). split.
  - apply N2Nat.id.
  - apply in_seq. lia.
Qed.

Lemma b64val_b64char (n : N) :
  (n < 64)%N -> b64val (b64char n) = Some n /\ Ascii.eqb (b64char n) pad = false.
Proof.
  intros Hn.
  assert (H : forallb
                (fun k => match b64val (b64char k) with
                          | Some k' => N.eqb k' k
                          | None => false
                          end && negb (Ascii.eqb (b64char k) pad))
                (map N.of_nat (seq 0 64)) = true) by (vm_compute; reflexivity).
  rewrite forallb_forall in H. specialize (H n (sextet_cases n Hn)).
  apply andb_true_iff in H. destruct H as [Hv Hp].
  split.
  - destruct (b64val (b64char n)) as [k|]; [|discriminate].
    apply N.eqb_eq in Hv. now subst.
  - now apply negb_true_iff.
Qed.

Ltac divmod_lia := zify; Z.to_euclidean_division_equations; lia.

Lemma byte_of_N_eq (n : N) (b : byte) : n = Byte.to_N b -> byte_of_N n = b.
Proof. intros ->. apply byte_of_N_to_N. Qed.

Lemma decode_encode_chars (bs : list byte) :
  decode_chars (encode_chars bs) = Some bs.
Proof.
  induction bs as [|a|a b|a b c rest IH] using list_ind3.
  - reflexivity.
  - pose proof (Byte.to_N_bounded a).
    cbn [encode_chars decode_chars].
    destruct (b64val_b64char (Byte.to_N a / 4)) as [-> _]; [divmod_lia|].
    destruct (b64val_b64char (Byte.to_N a mod 4 * 16)) as [-> _]; [divmod_lia|].
    replace (Ascii.eqb pad pad) with true by reflexivity.
    do 2 f_equal. apply byte_of_N_eq. divmod_lia.
  - pose proof (Byte.to_N_bounded a). pose proof (Byte.to_N_bounded b).
    cbn [encode_chars decode_chars].
    destruct (b64val_b64char (Byte.to_N a / 4)) as [-> _]; [divmod_lia|].
    destruct (b64val_b64char (Byte.to_N a mod 4 * 16 + Byte.to_N b / 16))
      as [-> _]; [divmod_lia|].
    destruct (b64val_b64char (Byte.to_N b mod 16 * 4)) as [-> ->];
      [divmod_lia|].
    replace (Ascii.eqb pad pad) with true by reflexivity.
    f_equal. f_equal; [|f_equal]; apply byte_of_N_eq; divmod_lia.
  - pose proof (Byte.to_N_bounded a). pose proof (Byte.to_N_bounded b).
    pose proof (Byte.to_N_bounded c).
    cbn [encode_chars decode_chars]. rewrite IH.
    destruct (b64val_b64char (Byte.to_N a / 4)) as [-> _]; [divmod_lia|].
    destruct (b64val_b64char (Byte.to_N a mod 4 * 16 + Byte.to_N b / 16))
      as [-> _]; [divmod_lia|].
    destruct (b64val_b64char (Byte.to_N b mod 16 * 4 + Byte.to_N c / 64))
      as [-> _]; [divmod_lia|].
    destruct (b64val_b64char (Byte.to_N c mod 64)) as [-> ->]; [divmod_lia|].
    f_equal. f_equal; [|f_equal; [|f_equal]]; apply byte_of_N_eq; divmod_lia.
Qed.

(** Decoding the base64 text of a buffer gives the buffer back. *)
Lemma decode_encode (bs : list byte) : decode (encode bs) = Some bs.
Proof.
  unfold decode, encode.
  rewrite list_ascii_of_string_of_list_ascii. apply decode_encode_chars.
Qed.

End Base64_facts.

(* ================================================================== *)
(** * DSSE pre-authentication encoding *)
(* ================================================================== *)

Section Dsse_facts.
Import Dsse.

Lemma list_ascii_of_string_app (s t : string) :
  list_ascii_of_string (s ++ t) = list_ascii_of_string s ++ list_ascii_of_string t.
Proof. induction s as [|a s IH]; [reflexivity|]. cbn. now rewrite IH. Qed.

Lemma list_byte_of_string_app (s t : string) :
  list_byte_of_string (s ++ t) = list_byte_of_string s ++ list_byte_of_string t.
Proof.
  unfold list_byte_of_string. now rewrite list_ascii_of_string_app, map_app.
Qed.

Lemma length_string_of_list_ascii (l : list ascii) :
  String.length (string_of_list_ascii l) = length l.
Proof. induction l as [|a l IH]; [reflexivity|]. cbn. now rewrite IH. Qed.

Lemma byte_of_N_of_ascii (a : ascii) : byte_of_N (N_of_ascii a) = byte_of_ascii a.
Proof.
  unfold byte_of_N.
  rewrite N.mod_small by apply N_ascii_bounded.
  now rewrite <- byte_of_ascii_via_N.
Qed.

Lemma byte_of_N_low (c : N) :
  byte_of_ascii (ascii_of_N (c mod 256)) = byte_of_N c.
Proof.
  rewrite <- byte_of_N_of_ascii.
  rewrite N_ascii_embedding by (apply N.mod_upper_bound; discriminate).
  unfold byte_of_N. now rewrite N.Div0.mod_mod.
Qed.

(** The bytes ['ascii'] writes for a literal are the bytes of the literal,
    and the bytes it writes for any string are those of its low bytes. *)
Lemma Buffer_from_ascii_lit (s : string) :
  Buffer_from_ascii (lit s) = list_byte_of_string s.
Proof.
  unfold Buffer_from_ascii, lit, list_byte_of_string. rewrite map_map.
  apply map_ext. exact byte_of_N_of_ascii.
Qed.

Lemma Buffer_from_ascii_low_bytes (s : jsstring) :
  Buffer_from_ascii s = list_byte_of_string (low_bytes s).
Proof.
  unfold Buffer_from_ascii, low_bytes, list_byte_of_string.
  rewrite list_ascii_of_string_of_list_ascii, map_map.
  apply map_ext. intros c. symmetry. apply byte_of_N_low.
Qed.

Lemma low_bytes_lit (text : string) : low_bytes (lit text) = text.
Proof.
  unfold low_bytes, lit. rewrite map_map.
  rewrite <- (string_of_list_ascii_of_string text) at 2. f_equal.
  rewrite <- (map_id (list_ascii_of_string text)) at 2.
  apply map_ext. intros a.
  rewrite N.mod_small by apply N_ascii_bounded. apply ascii_N_embedding.
Qed.

(** The function of the source computes the encoding of the
    specification. *)
Lemma dssePreAuthEncoding_PAE (payloadType : jsstring) (payload : Buffer) :
  dssePreAuthEncoding payloadType payload
  = PAE_spec (low_bytes payloadType) payload.
Proof.
  unfold dssePreAuthEncoding, PAE_spec, Number_toString, decimal.
  f_equal. unfold Buffer_from_ascii at 1. rewrite !map_app.
  fold (Buffer_from_ascii payloadType).
  repeat match goal with
         | |- context [map byte_of_N (lit ?s)] =>
             change (map byte_of_N (lit s)) with (Buffer_from_ascii (lit s));
             rewrite (Buffer_from_ascii_lit s)
         end.
  rewrite !list_byte_of_string_app.
  unfold low_bytes at 1. rewrite length_string_of_list_ascii, length_map.
  rewrite <- Buffer_from_ascii_low_bytes. reflexivity.
Qed.

(** The payload is the tail of the encoding, untouched. *)
Lemma dssePreAuthEncoding_payload (payloadType : jsstring) (payload : Buffer) :
  skipn (length (dssePreAuthEncoding payloadType payload) - length payload)
        (dssePreAuthEncoding payloadType payload) = payload.
Proof.
  unfold dssePreAuthEncoding.
  rewrite length_app, Nat.add_sub, skipn_app, skipn_all, Nat.sub_diag.
  reflexivity.
Qed.

(** C3, as the specification words it: the encoding of
    ("application/vnd.in-toto+json", "payload") is NOT the byte string
    "DSSEv1 32 application/vnd.in-toto+json 7 payload": the payload type has
    28 code units, so the length field reads 28 and the byte at index 7 of
    the encoding is the character 2 followed by 8, not 3 followed by 2. *)
Lemma pae_length_field_is_not_32 :
  dssePreAuthEncoding (lit "application/vnd.in-toto+json") (bytes "payload")
  <> bytes "DSSEv1 32 application/vnd.in-toto+json 7 payload".
Proof.
  intros H.
  apply (f_equal (fun b => nth 7 b x00)) in H.
  vm_compute in H. discriminate H.
Qed.

(** C3 (amended): the payload type "application/vnd.in-toto+json" has length
    28, and the pre-authentication encoding of that type with the payload
    bytes "payload" is the ASCII byte string
    "DSSEv1 28 application/vnd.in-toto+json 7 payload". *)
Theorem pae_intoto_payload :
  length (lit "application/vnd.in-toto+json") = 28
  /\ dssePreAuthEncoding (lit "application/vnd.in-toto+json") (bytes "payload")
     = bytes "DSSEv1 28 application/vnd.in-toto+json 7 payload".
Proof.
  split.
  - reflexivity.
  - unfold dssePreAuthEncoding.
    replace (length (lit "application/vnd.in-toto+json")) with 28
      by reflexivity.
    replace (length (bytes "payload")) with 7 by reflexivity.
    vm_compute. reflexivity.
Qed.

End Dsse_facts.

(* ================================================================== *)
(** * Checkpoint parsing and verification *)
(* ================================================================== *)

Section Checkpoint_theorems.
Import Types Checkpoint.

Lemma span_nonspace_sound (s run rest : jsstring) :
  span_nonspace s = (run, rest) ->
  s = run ++ rest /\ forallb nonspace run = true.
Proof.
  revert run rest. induction s as [|c s IH]; intros run rest; simpl.
  - intros [= <- <-]. now split.
  - destruct (is_space c) eqn:Hc.
    + intros [= <- <-]. now split.
    + destruct (span_nonspace s) as [run' rest'] eqn:Hs.
      intros [= <- <-]. destruct (IH _ _ eq_refl) as [-> Hrun].
      split; [reflexivity|]. simpl. unfold nonspace at 1. now rewrite Hc.
Qed.

Lemma span_nonspace_complete (t : jsstring) (c : N) (rest : jsstring) :
  forallb nonspace t = true -> is_space c = true ->
  span_nonspace (t ++ c :: rest) = (t, c :: rest).
Proof.
  intros Ht Hc. induction t as [|d t IH]; simpl.
  - now rewrite Hc.
  - simpl in Ht. apply andb_true_iff in Ht. destruct Ht as [Hd Ht].
    unfold nonspace in Hd. apply negb_true_iff in Hd. rewrite Hd.
    now rewrite (IH Ht).
Qed.

Lemma is_token_cons (t : jsstring) :
  is_token t = true -> exists c t', t = c :: t' /\ forallb nonspace t = true.
Proof. destruct t as [|c t']; [discriminate|]. intros H. now exists c, t'. Qed.

Lemma exec_here_sound (s name signature : jsstring) (len : nat) :
  exec_here s = Some (name, signature, len) ->
  is_token name = true /\ is_token signature = true
  /\ len = length (signature_line name signature)
  /\ exists rest, s = signature_line name signature ++ rest.
Proof.
  unfold exec_here.
  destruct s as [|d [|sp s1]]; try discriminate.
  destruct ((d =? EM_DASH) && (sp =? SPACE))%N eqn:Hhead; [|discriminate].
  apply andb_true_iff in Hhead. destruct Hhead as [Hd Hsp].
  apply N.eqb_eq in Hd, Hsp. subst d sp.
  destruct (span_nonspace s1) as [run1 rest1] eqn:H1.
  destruct run1 as [|c1 run1]; [discriminate|].
  destruct rest1 as [|sp2 s2]; [discriminate|].
  destruct (sp2 =? SPACE)%N eqn:Hsp2; [|discriminate].
  apply N.eqb_eq in Hsp2. subst sp2.
  destruct (span_nonspace s2) as [run2 rest2] eqn:H2.
  destruct run2 as [|c2 run2]; [discriminate|].
  destruct rest2 as [|nl rest]; [discriminate|].
  destruct (nl =? NEWLINE)%N eqn:Hnl; [|discriminate].
  apply N.eqb_eq in Hnl. subst nl.
  intros [= <- <- <-].
  apply span_nonspace_sound in H1, H2.
  destruct H1 as [-> Hrun1], H2 as [-> Hrun2].
  repeat split; try assumption.
  - unfold signature_line. cbn [length]. rewrite !length_app.
    cbn [length]. rewrite ?length_app. cbn [length]. lia.
  - exists rest. unfold signature_line. cbn [app].
    rewrite <- !app_assoc. cbn [app]. rewrite <- !app_assoc. reflexivity.
Qed.

Lemma signature_line_app (name signature rest : jsstring) :
  signature_line name signature ++ rest
  = EM_DASH :: SPACE :: name ++ SPACE :: signature ++ NEWLINE :: rest.
Proof.
  unfold signature_line. cbn [app].
  rewrite <- app_assoc. cbn [app]. rewrite <- app_assoc. reflexivity.
Qed.

Lemma exec_here_complete (name signature rest : jsstring) :
  is_token name = true -> is_token signature = true ->
  exec_here (signature_line name signature ++ rest)
  = Some (name, signature, length (signature_line name signature)).
Proof.
  intros Hn Hs.
  destruct (is_token_cons _ Hn) as (c1 & t1 & En & Hrun1).
  destruct (is_token_cons _ Hs) as (c2 & t2 & Es & Hrun2).
  rewrite signature_line_app. unfold exec_here.
  rewrite !N.eqb_refl. cbn [andb].
  rewrite (span_nonspace_complete name SPACE _ Hrun1 eq_refl).
  rewrite En at 1. rewrite N.eqb_refl.
  rewrite (span_nonspace_complete signature NEWLINE _ Hrun2 eq_refl).
  rewrite Es at 1. rewrite N.eqb_refl.
  do 2 f_equal. unfold signature_line. cbn [length].
  rewrite !length_app. cbn [length]. rewrite ?length_app. cbn [length]. lia.
Qed.

Lemma no_signature_line_tail (c : N) (s : jsstring) :
  no_signature_line (c :: s) -> no_signature_line s.
Proof.
  intros H pre name signature post Hn Hs ->.
  now apply (H (c :: pre) name signature post Hn Hs).
Qed.

Lemma no_signature_line_exec (s : jsstring) :
  no_signature_line s -> exec_here s = None.
Proof.
  intros H. destruct (exec_here s) as [[[name signature] len]|] eqn:E;
    [|reflexivity].
  apply exec_here_sound in E. destruct E as (Hn & Hs & _ & rest & ->).
  now destruct (H [] name signature rest Hn Hs).
Qed.

Lemma matchAll_from_no_signature_line (s : jsstring) (skip : nat) :
  no_signature_line s -> matchAll_from skip s = [].
Proof.
  revert skip. induction s as [|c s IH]; intros skip H; [reflexivity|].
  cbn [matchAll_from]. destruct skip as [|k].
  - rewrite (no_signature_line_exec _ H).
    apply IH. now apply no_signature_line_tail in H.
  - apply IH. now apply no_signature_line_tail in H.
Qed.

Lemma no_match_anywhere_sound (s : jsstring) :
  no_match_anywhere s = true -> no_signature_line s.
Proof.
  induction s as [|c s IH]; intros H pre name signature post Hn Hs E.
  - destruct pre; discriminate E.
  - cbn [no_match_anywhere] in H.
    destruct (exec_here (c :: s)) eqn:Hx; [discriminate|].
    destruct pre as [|d pre].
    + cbn [app] in E. rewrite E in Hx.
      rewrite (exec_here_complete name signature post Hn Hs) in Hx.
      discriminate.
    + injection E as _ E. exact (IH H pre name signature post Hn Hs E).
Qed.

Lemma Array_from_throws {E A B} (f : A -> completion E B) (l : list A) (e : E) :
  (forall a, In a l -> (exists b, f a = Return b) \/ f a = Throw e) ->
  (exists a, In a l /\ f a = Throw e) ->
  Array_from f l = Throw e.
Proof.
  induction l as [|a l IH]; intros Hall [x [Hin Hx]]; [destruct Hin|].
  cbn [Array_from].
  destruct (Hall a (or_introl eq_refl)) as [[b Hb]|Ha].
  - rewrite Hb. destruct Hin as [->|Hin]; [congruence|].
    rewrite IH; [reflexivity| |now exists x].
    intros a' Ha'. apply Hall. now right.
  - now rewrite Ha.
Qed.

Lemma startsWith_app (p s : jsstring) :
  startsWith p s = true -> s = p ++ skipn (length p) s.
Proof.
  revert s. induction p as [|c p IH]; intros [|d s]; cbn; try discriminate;
    try reflexivity.
  intros H. apply andb_true_iff in H. destruct H as [Hc Hp].
  apply N.eqb_eq in Hc. subst d. f_equal. now apply IH.
Qed.

Lemma search_Some (p s : jsstring) (i : nat) :
  search p s = Some i ->
  i <= length s /\ s = firstn i s ++ p ++ skipn (i + length p) s.
Proof.
  revert i. induction s as [|c s IH]; intros i; cbn [search].
  - destruct (startsWith p []) eqn:Hp; [|discriminate].
    intros [= <-]. split; [cbn; lia|]. now apply startsWith_app in Hp.
  - destruct (startsWith p (c :: s)) eqn:Hp.
    + intros [= <-]. split; [cbn; lia|]. now apply startsWith_app in Hp.
    + destruct (search p s) as [j|] eqn:Hj; [|discriminate].
      intros [= <-]. destruct (IH j eq_refl) as [Hle Hs].
      split; [cbn; lia|]. cbn [firstn app Nat.add skipn]. now f_equal.
Qed.

Lemma signatureSection_split (envelope : jsstring) :
  includes CHECKPOINT_SEPARATOR envelope = true ->
  exists header,
    envelope = header ++ CHECKPOINT_SEPARATOR ++ signatureSection envelope.
Proof.
  unfold includes, signatureSection, indexOf, sliceFrom, slice_index.
  destruct (search CHECKPOINT_SEPARATOR envelope) as [i|] eqn:Hi;
    [|discriminate].
  intros _. destruct (search_Some _ _ _ Hi) as [Hle Hs].
  exists (firstn i envelope).
  replace (Z.of_nat i + Z.of_nat (length CHECKPOINT_SEPARATOR) <? 0)%Z
    with false by (symmetry; apply Z.ltb_ge; lia).
  rewrite <- Nat2Z.inj_add, Nat2Z.id.
  destruct (Nat.le_gt_cases (i + length CHECKPOINT_SEPARATOR) (length envelope))
    as [Hfit|Hover].
  - rewrite Nat.min_l by exact Hfit. exact Hs.
  - apply (f_equal (@length _)) in Hs.
    rewrite !length_app, length_firstn, Nat.min_l in Hs by exact Hle. lia.
Qed.

Section Parsing.
Variable Buffer_from_base64 : jsstring -> Buffer.

Lemma parseSignature_cases (m : jsstring * jsstring) :
  (exists t, parseSignature Buffer_from_base64 m = Return t)
  \/ parseSignature Buffer_from_base64 m
     = Throw (VerificationError TLOG_INCLUSION_PROOF_ERROR
                "malformed checkpoint signature").
Proof.
  destruct m as [name signature]. unfold parseSignature.
  destruct (length (Buffer_from_base64 signature) <? 5);
    [now right | left; eauto].
Qed.

Lemma SignedNote_fromString_data (envelope : jsstring) :
  includes CHECKPOINT_SEPARATOR envelope = true ->
  SignedNote_fromString Buffer_from_base64 envelope
  = match Array_from (parseSignature Buffer_from_base64)
            (matchAll (signatureSection envelope)) with
    | Throw e => Throw e
    | Return signatures =>
        if length signatures =? 0 then
          Throw (VerificationError TLOG_INCLUSION_PROOF_ERROR
                   "no signatures found in checkpoint")
        else Return {| note := slice 0 (indexOf CHECKPOINT_SEPARATOR envelope + 1)
                                     envelope;
                       signatures := signatures |}
    end.
Proof.
  intros H. unfold SignedNote_fromString. rewrite H. reflexivity.
Qed.

(** An envelope without the separator is rejected. *)
Lemma fromString_missing_separator (envelope : jsstring) :
  includes CHECKPOINT_SEPARATOR envelope = false ->
  SignedNote_fromString Buffer_from_base64 envelope
  = Throw (VerificationError TLOG_INCLUSION_PROOF_ERROR
             "missing checkpoint separator").
Proof. intros H. unfold SignedNote_fromString. now rewrite H. Qed.

(** C10: an envelope that contains the separator but whose signature section
    (the text after the first separator) holds no line of the form
    em-dash, space, token, space, token, newline is rejected with
    TLOG_INCLUSION_PROOF_ERROR (no signatures found in checkpoint); and when
    the base64 token of some matched line decodes to fewer than five bytes,
    the envelope is rejected with the same code (malformed checkpoint
    signature). *)
Theorem fromString_rejects_missing_or_short_signatures (envelope : jsstring) :
  includes CHECKPOINT_SEPARATOR envelope = true ->
  (exists header,
     envelope = header ++ CHECKPOINT_SEPARATOR ++ signatureSection envelope)
  /\ (no_signature_line (signatureSection envelope) ->
      SignedNote_fromString Buffer_from_base64 envelope
      = Throw (VerificationError TLOG_INCLUSION_PROOF_ERROR
                 "no signatures found in checkpoint"))
  /\ (forall name signature,
        In (name, signature) (matchAll (signatureSection envelope)) ->
        length (Buffer_from_base64 signature) < 5 ->
        SignedNote_fromString Buffer_from_base64 envelope
        = Throw (VerificationError TLOG_INCLUSION_PROOF_ERROR
                   "malformed checkpoint signature")).
Proof.
  intros Hsep. split; [now apply signatureSection_split|].
  rewrite (SignedNote_fromString_data _ Hsep). split.
  - intros Hnone. unfold matchAll.
    now rewrite (matchAll_from_no_signature_line _ 0 Hnone).
  - intros name signature Hin Hshort.
    rewrite (Array_from_throws (parseSignature Buffer_from_base64) _
               (VerificationError TLOG_INCLUSION_PROOF_ERROR
                  "malformed checkpoint signature")); [reflexivity| |].
    + intros m _. apply parseSignature_cases.
    + exists (name, signature). split; [exact Hin|].
      unfold parseSignature. apply Nat.ltb_lt in Hshort. now rewrite Hshort.
Qed.

End Parsing.

Section Signatures.
Variable Buffer_from_base64 : jsstring -> Buffer.
Variable Buffer_from_utf8 : jsstring -> Buffer.
Variable BigInt : jsstring -> option Z.
Variable crypto_verify : Buffer -> KeyObject -> Buffer -> bool.
Variable filterTLogAuthorities : list TLogAuthority -> Date -> list TLogAuthority.
Variable Date_of_seconds : jsstring -> Date.

Lemma signatureVerifies_backed data tlogs s :
  signatureVerifies crypto_verify data tlogs s = true
  <-> backed crypto_verify data tlogs s.
Proof.
  unfold signatureVerifies, backed.
  destruct (find _ tlogs) as [tlog|].
  - split; [intros H; now exists tlog | intros [t [[= <-] H]]; exact H].
  - split; [discriminate | intros [t [[=] _]]].
Qed.

Lemma verifySignedNote_every signedNote tlogs :
  verifySignedNote Buffer_from_utf8 crypto_verify signedNote tlogs = true
  <-> forall s, In s (signatures signedNote) ->
                backed crypto_verify (Buffer_from_utf8 (note signedNote)) tlogs s.
Proof.
  unfold verifySignedNote. rewrite forallb_forall.
  split; intros H s Hs; apply signatureVerifies_backed, H, Hs.
Qed.

(** C1 (amended): when the envelope and the note parse, checkpoint
    verification does not raise the invalid-checkpoint-signature error exactly
    when EVERY parsed signature line is backed crypto_verify by a trusted log that is valid
    at the integrated time: its key hint equals the first four bytes of the
    log ID of such a log, and the signature verifies over the note bytes with
    the key of the first log with that prefix. *)
Theorem checkpoint_signature_step_needs_every_signature
  (entry : TLogEntryWithInclusionProof) (tlogs : list TLogAuthority)
  (signedNote : SignedNote) (checkpoint : LogCheckpoint) :
  SignedNote_fromString Buffer_from_base64 (checkpointEnvelope entry)
  = Return signedNote ->
  LogCheckpoint_fromString Buffer_from_base64 BigInt (note signedNote)
  = Return checkpoint ->
  verifyCheckpoint Buffer_from_base64 Buffer_from_utf8 BigInt crypto_verify
    filterTLogAuthorities Date_of_seconds entry tlogs
  <> Throw (VerificationError TLOG_INCLUSION_PROOF_ERROR
              "invalid checkpoint signature")
  <-> (forall s, In s (signatures signedNote) ->
       backed crypto_verify (Buffer_from_utf8 (note signedNote))
         (filterTLogAuthorities tlogs (Date_of_seconds (integratedTime entry)))
         s).
Proof.
  intros Hnote Hcp. unfold verifyCheckpoint. rewrite Hnote, Hcp.
  rewrite <- verifySignedNote_every.
  destruct (verifySignedNote _ _ signedNote _); cbn [negb].
  - split; [reflexivity|]. intros _.
    destruct (negb (bufferEqual _ _)); discriminate.
  - split; [intros H; now destruct H | discriminate].
Qed.

End Signatures.

(** C1, as the specification words it, fails: the envelope of
    [entry_two_signatures] carries a signature line whose key hint is the
    prefix of the trusted log's ID and whose signature verifies over the note
    with that log's key, and a second line that matches no trusted log; its
    verification raises the invalid-checkpoint-signature error. *)
Lemma one_backed_signature_is_not_enough :
  exists signedNote s,
    SignedNote_fromString example_base64
      (checkpointEnvelope entry_two_signatures) = Return signedNote
    /\ In s (signatures signedNote)
    /\ backed example_verify (Buffer_from_ascii (note signedNote))
         (example_filter [example_log]
            (example_date (integratedTime entry_two_signatures))) s
    /\ example_verifyCheckpoint entry_two_signatures [example_log]
       = Throw (VerificationError TLOG_INCLUSION_PROOF_ERROR
                  "invalid checkpoint signature").
Proof.
  eexists. eexists. split; [vm_compute; reflexivity|].
  split; [left; reflexivity|].
  split; [|vm_compute; reflexivity].
  exists example_log. split; vm_compute; reflexivity.
Qed.

Lemma checkpoint_signature_step_witness :
  example_verifyCheckpoint entry_one_signature [example_log]
  <> Throw (VerificationError TLOG_INCLUSION_PROOF_ERROR
              "invalid checkpoint signature").
Proof.
  apply (proj2 (checkpoint_signature_step_needs_every_signature
                  example_base64 Buffer_from_ascii example_BigInt
                  example_verify example_filter example_date
                  entry_one_signature [example_log]
                  note_one_signature example_checkpoint
                  ltac:(vm_compute; reflexivity)
                  ltac:(vm_compute; reflexivity))).
  intros s [<-|[]]. exists example_log. split; vm_compute; reflexivity.
Defined.

Lemma fromString_rejects_witness :
  SignedNote_fromString example_base64 envelope_without_signature
  = Throw (VerificationError TLOG_INCLUSION_PROOF_ERROR
             "no signatures found in checkpoint")
  /\ SignedNote_fromString example_base64 envelope_short_signature
     = Throw (VerificationError TLOG_INCLUSION_PROOF_ERROR
                "malformed checkpoint signature").
Proof.
  split.
  - apply (fromString_rejects_missing_or_short_signatures example_base64
             envelope_without_signature); [reflexivity|].
    apply no_match_anywhere_sound. vm_compute. reflexivity.
  - apply (proj2 (proj2 (fromString_rejects_missing_or_short_signatures
              example_base64 envelope_short_signature eq_refl))
              (lit "rekor.example") (lit "AAAAAA==")).
    + vm_compute. left. reflexivity.
    + vm_compute. lia.
Defined.

End Checkpoint_theorems.

(* ================================================================== *)
(** * The client verifier *)
(* ================================================================== *)

Section Client_theorems.
Import Types Client.

(** ** [filter] with a callback that may throw *)

Lemma Array_filter_returns {E A} (f : A -> completion E bool) (l : list A) :
  (forall a, In a l -> returns (f a) = true) ->
  Array_filter f l = Return (filter (fun a => passes (f a)) l).
Proof.
  induction l as [|a l IH]; intros Hall; [reflexivity|].
  cbn [Array_filter filter].
  pose proof (Hall a (or_introl eq_refl)) as Ha.
  destruct (f a) as [keep|e]; [|discriminate Ha].
  rewrite IH by (intros x Hx; apply Hall; now right).
  cbn [passes]. now destruct keep.
Qed.

Lemma Array_filter_throws {E A} (f : A -> completion E bool)
  (before after : list A) (a : A) (e : E) :
  (forall x, In x before -> returns (f x) = true) ->
  f a = Throw e ->
  Array_filter f (before ++ a :: after) = Throw e.
Proof.
  intros Hbefore Ha. induction before as [|x before IH]; cbn [app Array_filter].
  - now rewrite Ha.
  - pose proof (Hbefore x (or_introl eq_refl)) as Hx.
    destruct (f x) as [keep|e']; [|discriminate Hx].
    rewrite IH by (intros y Hy; apply Hbefore; now right). reflexivity.
Qed.

Lemma Array_filter_Return {E A} (f : A -> completion E bool) (l kept : list A) :
  Array_filter f l = Return kept ->
  (forall a, In a l -> returns (f a) = true)
  /\ kept = filter (fun a => passes (f a)) l.
Proof.
  revert kept. induction l as [|a l IH]; intros kept; cbn [Array_filter filter].
  - intros [= <-]. split; [intros a []|reflexivity].
  - destruct (f a) as [keep|e] eqn:Ha; [|discriminate].
    destruct (Array_filter f l) as [kept'|e]; [|discriminate].
    intros [= <-]. destruct (IH kept' eq_refl) as [Hall ->].
    split.
    + intros x [<-|Hx]; [now rewrite Ha | now apply Hall].
    + cbn [passes]. now destruct keep.
Qed.


Section TLog_facts.
Variable verifyTLogBody :
  TransparencyLogEntry -> option BundleContent -> completion exn bool.
Variable verifyTLogSET :
  TransparencyLogEntry -> list TransparencyLogInstance -> completion exn bool.
Variable x509Certificate_parse : Buffer -> completion exn x509Certificate.
Variable Date_of_seconds : jsstring -> Date.

Lemma validForDate_window (cert : x509Certificate) (t : Z) :
  validForDate cert (Some t) = true
  <-> (notBefore cert <= t < notAfter cert)%Z.
Proof. unfold validForDate. rewrite andb_true_iff. lia. Qed.


Lemma signingCertificate_with_tlogEntries bundle entries :
  signingCertificate x509Certificate_parse (with_tlogEntries bundle entries)
  = signingCertificate x509Certificate_parse bundle.
Proof.
  unfold signingCertificate, certificateChain, with_tlogEntries.
  cbn [verificationMaterial]. now destruct (verificationMaterial bundle).
Qed.

(** The outcome of [verifyTLogEntries] when online verification is off and
    the signing certificate, if any, parses. *)
Lemma verifyTLogEntries_count bundle vm root options cert :
  performOnlineVerification options = false ->
  verificationMaterial bundle = Some vm ->
  signingCertificate x509Certificate_parse bundle = Return cert ->
  verifyTLogEntries verifyTLogBody verifyTLogSET x509Certificate_parse
    Date_of_seconds bundle root options
  = match Array_filter
            (fun entry =>
               verifyTLogEntryOffline verifyTLogBody verifyTLogSET
                 Date_of_seconds entry (content bundle) (tlogs root) cert)
            (tlogEntries vm) with
    | Throw e => Throw e
    | Return verifiedEntries =>
        if (Z.of_nat (length verifiedEntries) <? threshold options)%Z
        then Throw (VerificationError "tlog verification failed")
        else Return tt
    end.
Proof.
  intros Hon Hvm Hcert. unfold verifyTLogEntries.
  now rewrite Hon, Hcert, Hvm.
Qed.

(** What the check of an entry throws, when the checks of the entries before
    it return, is what [verifyTLogEntries] throws. *)
Lemma verifyTLogEntries_throws bundle vm root options cert before entry after e :
  performOnlineVerification options = false ->
  verificationMaterial bundle = Some vm ->
  signingCertificate x509Certificate_parse bundle = Return cert ->
  tlogEntries vm = before ++ entry :: after ->
  (forall x, In x before ->
     returns (verifyTLogEntryOffline verifyTLogBody verifyTLogSET
                Date_of_seconds x (content bundle) (tlogs root) cert) = true) ->
  verifyTLogEntryOffline verifyTLogBody verifyTLogSET Date_of_seconds entry
    (content bundle) (tlogs root) cert = Throw e ->
  verifyTLogEntries verifyTLogBody verifyTLogSET x509Certificate_parse
    Date_of_seconds bundle root options = Throw e.
Proof.
  intros Hon Hvm Hcert Hentries Hbefore Hentry.
  rewrite (verifyTLogEntries_count bundle vm root options cert Hon Hvm Hcert).
  rewrite Hentries.
  now rewrite (Array_filter_throws _ before after entry e Hbefore Hentry).
Qed.



End TLog_facts.

Section Verify_facts.
Variable verifyTLogBody :
  TransparencyLogEntry -> option BundleContent -> completion exn bool.
Variable verifyTLogSET :
  TransparencyLogEntry -> list TransparencyLogInstance -> completion exn bool.
Variable x509Certificate_parse : Buffer -> completion exn x509Certificate.
Variable Date_of_seconds : jsstring -> Date.
Variable pem_fromDER : Buffer -> jsstring.
Variable createPublicKey : KeyInput -> completion exn KeyObject.
Variable crypto_hash : Buffer -> Buffer.
Variable verifyBlob : Buffer -> option KeyObject -> Buffer -> bool.
Variable ca_verifySigningCertificate :
  Bundle -> TrustedRoot -> RequiredArtifactVerificationOptions ->
  completion exn unit.

(** C6: the DSSE signature step computes the pre-authentication encoding of
    the payload type and the payload and checks the first signature of the
    envelope, and only that one, with the selected key. The bytes handed to
    the signature check are those the specification defines,
    "DSSEv1", the decimal length of the type, the type, the decimal length
    of the payload and the payload, separated by single spaces, the type
    being written with the low byte of each of its code units (for a type
    of 8-bit text, the type itself); the outcome of [verifyDSSESignature] is
    fixed by that check, the outcome of [verifyArtifactSignature] on a DSSE
    bundle is that check made with the key [getPublicKey] selects, and
    replacing the signatures after the first changes neither. *)
Theorem dsse_first_signature_only
  (payload : Buffer) (payloadType : jsstring) (first : Signature)
  (others others' : list Signature) (key : option KeyObject)
  (this : Verifier) (mediaType : jsstring)
  (material : option VerificationMaterial) (data : option Buffer) :
  let envelope others :=
    {| payload := payload; payloadType := payloadType;
       signatures := first :: others |} in
  let bundle others :=
    {| mediaType := mediaType; verificationMaterial := material;
       content := Some (dsseEnvelope (envelope others)) |} in
  let firstSignatureCheck key :=
    if verifyBlob (Dsse.PAE_spec (Dsse.low_bytes payloadType) payload) key
         (sig first)
    then Return tt
    else Throw (VerificationError "artifact signature verification failed") in
  verifyDSSESignature verifyBlob (envelope others) key
  = firstSignatureCheck key
  /\ verifyArtifactSignature pem_fromDER createPublicKey crypto_hash verifyBlob
       this (bundle others) data
     = match getPublicKey pem_fromDER createPublicKey this (bundle others) with
       | Throw e => Throw e
       | Return selected => firstSignatureCheck selected
       end
  /\ (forall text, payloadType = lit text ->
      Dsse.low_bytes payloadType = text)
  /\ verifyDSSESignature verifyBlob (envelope others') key
     = verifyDSSESignature verifyBlob (envelope others) key
  /\ verifyArtifactSignature pem_fromDER createPublicKey crypto_hash verifyBlob
       this (bundle others') data
     = verifyArtifactSignature pem_fromDER createPublicKey crypto_hash
         verifyBlob this (bundle others) data.
Proof.
  intros envelope bundle firstSignatureCheck.
  assert (Hfirst : forall k,
             verifyDSSESignature verifyBlob (envelope others) k
             = firstSignatureCheck k).
  { intros k. unfold verifyDSSESignature, envelope, firstSignatureCheck.
    cbn [signatures Types.payload Types.payloadType].
    rewrite dssePreAuthEncoding_PAE.
    now destruct (verifyBlob _ k (sig first)). }
  split; [apply Hfirst|]. split; [|split; [|split]].
  - unfold verifyArtifactSignature.
    destruct (getPublicKey pem_fromDER createPublicKey this (bundle others))
      as [selected|e]; [|reflexivity].
    unfold bundle. cbn [content]. apply Hfirst.
  - intros text ->. apply low_bytes_lit.
  - reflexivity.
  - unfold verifyArtifactSignature, bundle, getPublicKey.
    cbn [verificationMaterial content].
    reflexivity.
Qed.

(** C7 (amended): on a message-signature bundle verified without artifact
    data, [verifyArtifactSignature] (and with it [verify]) never returns: it
    throws whatever the selection of the public key throws, and otherwise the
    [VerificationError] no data provided for message signature verification.
    The outcome is fixed without the digest or the signature check. *)
Theorem message_signature_without_data
  (this : Verifier) (bundle : Bundle) (m : MessageSignature)
  (options : RequiredArtifactVerificationOptions) :
  content bundle = Some (messageSignature m) ->
  verifyArtifactSignature pem_fromDER createPublicKey crypto_hash verifyBlob
    this bundle None
  = match getPublicKey pem_fromDER createPublicKey this bundle with
    | Throw e => Throw e
    | Return _ =>
        Throw (VerificationError
                 "no data provided for message signature verification")
    end
  /\ verify verifyTLogBody verifyTLogSET x509Certificate_parse Date_of_seconds
       pem_fromDER createPublicKey crypto_hash verifyBlob
       ca_verifySigningCertificate this bundle options None
     = verifyArtifactSignature pem_fromDER createPublicKey crypto_hash
         verifyBlob this bundle None
  /\ verifyArtifactSignature pem_fromDER createPublicKey crypto_hash verifyBlob
       this bundle None <> Return tt.
Proof.
  intros Hm.
  assert (E : verifyArtifactSignature pem_fromDER createPublicKey crypto_hash
                verifyBlob this bundle None
              = match getPublicKey pem_fromDER createPublicKey this bundle with
                | Throw e => Throw e
                | Return _ =>
                    Throw (VerificationError
                      "no data provided for message signature verification")
                end).
  { unfold verifyArtifactSignature. rewrite Hm.
    now destruct (getPublicKey _ _ this bundle). }
  split; [exact E|]. split.
  - unfold verify. rewrite E.
    now destruct (getPublicKey _ _ this bundle).
  - rewrite E. now destruct (getPublicKey _ _ this bundle).
Qed.

(** C9: a leaf certificate that [crypto.createPublicKey] cannot read makes
    [verify] end with the collaborator's own exception, unwrapped, whereas
    the same failure on the key-hint path is wrapped into the
    [VerificationError] invalid public key. *)
Theorem unreadable_leaf_certificate_is_not_wrapped
  (this : Verifier) (mediaType : jsstring) (first : X509Certificate)
  (others : list X509Certificate) (entries : list TransparencyLogEntry)
  (timestamps : option TimestampVerificationData)
  (content : option BundleContent)
  (options : RequiredArtifactVerificationOptions) (data : option Buffer)
  (e : exn) (id : PublicKeyIdentifier) (selector : KeySelector)
  (key : KeyInput) :
  createPublicKey (inl (pem_fromDER (rawBytes first))) = Throw e ->
  verify verifyTLogBody verifyTLogSET x509Certificate_parse Date_of_seconds
    pem_fromDER createPublicKey crypto_hash verifyBlob
    ca_verifySigningCertificate this
    {| mediaType := mediaType;
       verificationMaterial :=
         Some {| materialContent :=
                   Some (x509CertificateChain
                           {| certificates := first :: others |});
                 tlogEntries := entries;
                 timestampVerificationData := timestamps |};
       content := content |}
    options data
  = Throw e
  /\ (selector (hint id) = Return (Some key) -> key <> inl [] ->
      createPublicKey key = Throw e ->
      getPublicKeyFromHint createPublicKey id selector
      = Throw (VerificationError "invalid public key")).
Proof.
  intros He. split.
  - unfold verify, verifyArtifactSignature, getPublicKey,
      getPublicKeyFromCertificateChain.
    cbn [verificationMaterial materialContent certificates]. now rewrite He.
  - intros Hsel Hkey Hthrow. unfold getPublicKeyFromHint. rewrite Hsel.
    destruct key as [[|c s]|b]; [now destruct Hkey| |]; now rewrite Hthrow.
Qed.

End Verify_facts.





(** C7, as the specification words it, fails: for a message-signature bundle
    that names its key by a hint the key selector does not know, verification
    without artifact data throws the error of the key selection, not the
    no-data error: the key is selected first. *)
Lemma key_selection_fails_before_the_data_check :
  content bundle_unknown_hint = Some example_signature
  /\ example_verify example_verifier bundle_unknown_hint (example_options 1)
       None
     = Throw (VerificationError
                "no public key found for signature verification")
  /\ example_verify example_verifier bundle_unknown_hint (example_options 1)
       None
     <> Throw (VerificationError
                 "no data provided for message signature verification").
Proof.
  split; [reflexivity|]. split; [vm_compute; reflexivity|].
  vm_compute. discriminate.
Qed.

Lemma message_signature_without_data_witness :
  example_verify example_verifier bundle_one_entry (example_options 1) None
  = Throw (VerificationError
             "no data provided for message signature verification").
Proof.
  unfold example_verify.
  destruct (message_signature_without_data example_body example_SET
              example_parse example_seconds example_pem
              example_createPublicKey example_hash example_verifyBlob
              example_ca example_verifier bundle_one_entry
              {| messageDigest :=
                   Some {| algorithm := SHA2_256;
                           digest := example_hash artifact |};
                 signature := leaf_der ++ artifact |}
              (example_options 1) eq_refl) as (Hsig & Hverify & _).
  rewrite Hverify, Hsig. vm_compute. reflexivity.
Defined.

Lemma unreadable_leaf_certificate_witness :
  example_verify example_verifier bundle_unreadable_leaf (example_options 1)
    (Some artifact)
  = Throw (Error "unsupported").
Proof.
  apply (proj1 (unreadable_leaf_certificate_is_not_wrapped example_body
                  example_SET example_parse example_seconds example_pem
                  example_createPublicKey example_hash example_verifyBlob
                  example_ca example_verifier example_media
                  {| rawBytes := bytes "FOO" |} [] [entry_in_window] None
                  (Some example_signature) (example_options 1)
                  (Some artifact) (Error "unsupported")
                  {| hint := lit "unknown" |} (fun _ => Return None)
                  (inr (bytes "FOO")) ltac:(vm_compute; reflexivity))).
Defined.

End Client_theorems.

(* ================================================================== *)
(** * The serialization round trip *)
(* ================================================================== *)

Section BundleJSON_theorems.
Import Types BundleJSON.

Lemma bytesFromJSON_encode (field : string) (b : Buffer) :
  bytesFromJSON field (Base64.encode b) = Return b.
Proof. unfold bytesFromJSON. now rewrite decode_encode. Qed.

Lemma traverse_map {A B} (f : A -> result B) (g : B -> A) (l : list B) :
  (forall b, f (g b) = Return b) -> traverse f (map g l) = Return l.
Proof.
  intros H. induction l as [|b l IH]; [reflexivity|].
  cbn [map traverse]. rewrite H. cbn [bind]. rewrite IH. reflexivity.
Qed.

Lemma optionally_map {A B} (f : A -> result B) (g : B -> A) (o : option B) :
  (forall b, f (g b) = Return b) -> optionally f (option_map g o) = Return o.
Proof.
  intros H. destruct o as [b|]; [|reflexivity].
  cbn [option_map optionally]. now rewrite H.
Qed.

Lemma hashAlgorithm_roundtrip (a : HashAlgorithm) :
  hashAlgorithmFromJSON (hashAlgorithmToJSON a) = Return a.
Proof. now destruct a. Qed.

Lemma inclusionProof_roundtrip (p : InclusionProof) :
  inclusionProofFromJSON (inclusionProofToJSON p) = Return p.
Proof.
  unfold inclusionProofFromJSON, inclusionProofToJSON.
  cbn [s_rootHash s_hashes s_proofLogIndex s_treeSize s_checkpoint].
  rewrite bytesFromJSON_encode. cbn [bind].
  rewrite traverse_map by (intros; apply bytesFromJSON_encode).
  now destruct p.
Qed.

Lemma tlogEntry_roundtrip (e : TransparencyLogEntry) :
  tlogEntryFromJSON (tlogEntryToJSON e) = Return e.
Proof.
  unfold tlogEntryFromJSON, tlogEntryToJSON.
  cbn [s_logId s_inclusionPromise s_inclusionProof s_canonicalizedBody
       s_logIndex s_kindVersion s_integratedTime].
  rewrite (optionally_map _ (fun l => {| s_keyId := Base64.encode (keyId l) |}))
    by (intros [k]; cbn -[bytesFromJSON Base64.encode];
        now rewrite bytesFromJSON_encode).
  cbn [bind].
  rewrite (optionally_map _
             (fun p => {| s_signedEntryTimestamp :=
                            Base64.encode (signedEntryTimestamp p) |}))
    by (intros [t]; cbn -[bytesFromJSON Base64.encode];
        now rewrite bytesFromJSON_encode).
  cbn [bind].
  rewrite optionally_map by apply inclusionProof_roundtrip.
  cbn [bind]. rewrite bytesFromJSON_encode. now destruct e.
Qed.

Lemma certificate_roundtrip (c : X509Certificate) :
  certificateFromJSON (certificateToJSON c) = Return c.
Proof.
  destruct c as [raw]. unfold certificateFromJSON, certificateToJSON.
  cbn -[bytesFromJSON Base64.encode]. now rewrite bytesFromJSON_encode.
Qed.

Lemma timestamps_roundtrip (t : TimestampVerificationData) :
  timestampsFromJSON (timestampsToJSON t) = Return t.
Proof.
  destruct t as [ts]. unfold timestampsFromJSON, timestampsToJSON.
  cbn [s_rfc3161Timestamps rfc3161Timestamps].
  rewrite (traverse_map _
             (fun ts => {| s_signedTimestamp :=
                             Base64.encode (signedTimestamp ts) |}))
    by (intros [b]; cbn -[bytesFromJSON Base64.encode];
        now rewrite bytesFromJSON_encode).
  reflexivity.
Qed.

Lemma material_roundtrip (vm : VerificationMaterial)
  (c : VerificationMaterialContent) :
  materialContent vm = Some c ->
  materialFromJSON (materialToJSON vm) = Return vm.
Proof.
  destruct vm as [mc entries ts]. cbn [materialContent]. intros ->.
  unfold materialFromJSON, materialToJSON.
  cbn [s_tlogEntries s_timestampVerificationData Types.materialContent
       Types.tlogEntries Types.timestampVerificationData].
  assert (Hc : materialContentFromJSON
                 {| s_x509CertificateChain :=
                      match Some c with
                      | Some (x509CertificateChain chain) =>
                          Some (map certificateToJSON (certificates chain))
                      | _ => None
                      end;
                    s_publicKey :=
                      match Some c with
                      | Some (publicKey id) => Some id
                      | _ => None
                      end;
                    s_certificate :=
                      match Some c with
                      | Some (certificate c) => Some (certificateToJSON c)
                      | _ => None
                      end;
                    s_tlogEntries := map tlogEntryToJSON entries;
                    s_timestampVerificationData :=
                      option_map timestampsToJSON ts |}
               = Return c).
  { unfold materialContentFromJSON.
    destruct c as [[chain]|id|cert];
      cbn [s_x509CertificateChain s_publicKey s_certificate certificates].
    - rewrite traverse_map by apply certificate_roundtrip. reflexivity.
    - reflexivity.
    - now rewrite certificate_roundtrip. }
  rewrite Hc. cbn [bind].
  rewrite traverse_map by apply tlogEntry_roundtrip. cbn [bind].
  rewrite optionally_map by apply timestamps_roundtrip. reflexivity.
Qed.

Lemma messageSignature_roundtrip (m : MessageSignature) :
  messageSignatureFromJSON (messageSignatureToJSON m) = Return m.
Proof.
  destruct m as [d s]. unfold messageSignatureFromJSON, messageSignatureToJSON.
  cbn [s_messageDigest s_signature messageDigest signature].
  rewrite (optionally_map _
             (fun h => {| s_algorithm := hashAlgorithmToJSON (algorithm h);
                          s_digest := Base64.encode (digest h) |})).
  - cbn [bind]. now rewrite bytesFromJSON_encode.
  - intros [a b]. cbn [s_algorithm s_digest algorithm digest].
    rewrite hashAlgorithm_roundtrip. cbn [bind].
    now rewrite bytesFromJSON_encode.
Qed.

Lemma envelope_roundtrip (e : Envelope) :
  envelopeFromJSON (envelopeToJSON e) = Return e.
Proof.
  destruct e as [p t ss]. unfold envelopeFromJSON, envelopeToJSON.
  cbn [s_payload s_payloadType s_signatures payload payloadType signatures].
  rewrite bytesFromJSON_encode. cbn [bind].
  rewrite (traverse_map _
             (fun s => {| s_sig := Base64.encode (sig s);
                          s_keyid := keyid s |}))
    by (intros [b k]; cbn -[bytesFromJSON Base64.encode];
        now rewrite bytesFromJSON_encode).
  reflexivity.
Qed.

Lemma content_roundtrip (b : Bundle) (c : BundleContent) :
  content b = Some c -> contentFromJSON (bundleToJSON b) = Return c.
Proof.
  intros Hc. unfold contentFromJSON, bundleToJSON.
  cbn [s_dsseEnvelope s_messageSignature]. rewrite Hc.
  destruct c as [m|e].
  - now rewrite messageSignature_roundtrip.
  - now rewrite envelope_roundtrip.
Qed.

(** C8: for every well-formed bundle of schema version v0.1, v0.2 or v0.3,
    reading the serialized form of the bundle gives the bundle back:
    [bundleFromJSON (bundleToJSON b)] returns [b]. *)
Theorem bundle_roundtrip (b : Bundle) :
  wellFormed b = true -> bundleFromJSON (bundleToJSON b) = Return b.
Proof.
  intros Hwf. pose proof Hwf as Hparts. unfold wellFormed in Hparts.
  destruct (versionOf (mediaType b)) as [v|]; [|discriminate].
  destruct (verificationMaterial b) as [vm|] eqn:Hvm; [|discriminate].
  destruct (content b) as [c|] eqn:Hc; [|discriminate].
  destruct (materialContent vm) as [mc|] eqn:Hmc; [|discriminate].
  unfold bundleFromJSON.
  replace (s_verificationMaterial (bundleToJSON b))
    with (Some (materialToJSON vm))
    by (unfold bundleToJSON; cbn [s_verificationMaterial]; now rewrite Hvm).
  cbn [required bind].
  rewrite (material_roundtrip vm mc Hmc). cbn [bind].
  rewrite (content_roundtrip b c Hc). cbn [bind].
  replace {| mediaType := s_mediaType (bundleToJSON b);
             verificationMaterial := Some vm; content := Some c |}
    with b by (destruct b; cbn in *; congruence).
  now rewrite Hwf.
Qed.

Lemma bundle_roundtrip_witness :
  bundleFromJSON (bundleToJSON bundle_v01) = Return bundle_v01
  /\ bundleFromJSON (bundleToJSON bundle_v02) = Return bundle_v02
  /\ bundleFromJSON (bundleToJSON bundle_v03) = Return bundle_v03.
Proof.
  split; [|split].
  - apply (bundle_roundtrip bundle_v01). vm_compute. reflexivity.
  - apply (bundle_roundtrip bundle_v02). vm_compute. reflexivity.
  - apply (bundle_roundtrip bundle_v03). vm_compute. reflexivity.
Defined.

End BundleJSON_theorems.

(* ================================================================== *)
(** * Duplicate transparency-log entries *)
(* ================================================================== *)

Section Orchestrator_theorems.
Import Types Orchestrator.





Section Duplicates.
Variable normalize :
  Bundle -> option Buffer -> completion failure SignatureMaterial.
Variable verifySignature : SignedEntity -> bool.
Variable verifySET : TransparencyLogEntry -> bool.
Variable verifyInclusionProof : TransparencyLogEntry -> bool.
Variable verifyRFC3161 : RFC3161SignedTimestamp -> Buffer -> bool.
Variable verifyKeyTrust :
  Config -> SignedEntity -> list Timestamp -> completion failure unit.
Variable verifyLogBody : SignedEntity -> TransparencyLogEntry -> bool.
Variable verifyPolicy : SignedEntity -> completion failure unit.



End Duplicates.



End Orchestrator_theorems.

(* ================================================================== *)
(** * Further properties of the pre-authentication encoding *)
(* ================================================================== *)

Section Dsse_encoding.
Import Dsse.

Lemma to_N_byte_of_N (n : N) : Byte.to_N (byte_of_N n) = (n mod 256)%N.
Proof.
  unfold byte_of_N. destruct (Byte.of_N (n mod 256)) as [b|] eqn:Hb.
  - now apply Byte.to_of_N.
  - apply Byte.of_N_None_iff in Hb.
    pose proof (N.mod_upper_bound n 256). lia.
Qed.

Lemma byte_of_N_inj (n m : N) :
  (n < 256)%N -> (m < 256)%N -> byte_of_N n = byte_of_N m -> n = m.
Proof.
  intros Hn Hm H. apply (f_equal Byte.to_N) in H.
  now rewrite !to_N_byte_of_N, !N.mod_small in H.
Qed.

Lemma Buffer_from_ascii_inj (s t : jsstring) :
  latin1 s = true -> latin1 t = true ->
  Buffer_from_ascii s = Buffer_from_ascii t -> s = t.
Proof.
  unfold Buffer_from_ascii, latin1.
  revert t. induction s as [|c s IH]; intros [|d t]; cbn [map forallb];
    try discriminate; [reflexivity|].
  intros Hs Ht [= Hcd Hst].
  apply andb_true_iff in Hs, Ht. destruct Hs as [Hc Hs], Ht as [Hd Ht].
  apply N.ltb_lt in Hc, Hd.
  f_equal; [now apply byte_of_N_inj | now apply IH].
Qed.

Lemma latin1_lit (s : string) : latin1 (lit s) = true.
Proof.
  unfold latin1, lit. apply forallb_forall. intros c Hc.
  apply in_map_iff in Hc. destruct Hc as (a & <- & _).
  apply N.ltb_lt, N_ascii_bounded.
Qed.

Lemma lit_inj (s t : string) : lit s = lit t -> s = t.
Proof.
  unfold lit. intros H.
  rewrite <- (string_of_list_ascii_of_string s),
          <- (string_of_list_ascii_of_string t).
  f_equal. revert H.
  generalize (list_ascii_of_string s) (list_ascii_of_string t).
  induction l as [|a l IH]; intros [|b l']; cbn [map]; try discriminate;
    [reflexivity|].
  intros [= Hab Hl]. f_equal; [|now apply IH].
  now rewrite <- (ascii_N_embedding a), <- (ascii_N_embedding b), Hab.
Qed.

Lemma to_uint_nonnil (n : nat) : Nat.to_uint n <> Decimal.Nil.
Proof.
  pose proof (Unsigned.to_of (Nat.to_uint n)) as H.
  rewrite Unsigned.of_to in H. rewrite H. apply unorm_nonnil.
Qed.

(** The decimal text of a length determines the length. *)
Lemma Number_toString_inj (n m : nat) :
  Buffer_from_ascii (Number_toString n) = Buffer_from_ascii (Number_toString m)
  -> n = m.
Proof.
  unfold Number_toString. intros H.
  apply Buffer_from_ascii_inj in H; try apply latin1_lit.
  apply lit_inj in H. apply Unsigned.to_uint_inj.
  pose proof (NilZero.usu _ (to_uint_nonnil n)) as Hn.
  pose proof (NilZero.usu _ (to_uint_nonnil m)) as Hm.
  rewrite H in Hn. congruence.
Qed.

Lemma string_of_uint_digits (d : Decimal.uint) :
  Forall (fun b => b <> x20)
         (Buffer_from_ascii (lit (NilEmpty.string_of_uint d))).
Proof.
  induction d; cbn; constructor; try assumption; discriminate.
Qed.

(** The decimal text of a length holds no space. *)
Lemma Number_toString_no_space (n : nat) :
  Forall (fun b => b <> x20) (Buffer_from_ascii (Number_toString n)).
Proof.
  unfold Number_toString, NilZero.string_of_uint.
  pose proof (to_uint_nonnil n) as Hn.
  destruct (Nat.to_uint n) eqn:E; try apply string_of_uint_digits.
  now destruct Hn.
Qed.

Lemma split_at_space (a b r1 r2 : Buffer) :
  Forall (fun c => c <> x20) a -> Forall (fun c => c <> x20) b ->
  a ++ x20 :: r1 = b ++ x20 :: r2 -> a = b /\ r1 = r2.
Proof.
  intros Ha. revert b. induction Ha as [|x a Hx Ha IH]; intros b Hb.
  - destruct Hb as [|y b Hy Hb]; cbn [app].
    + now intros [= ->].
    + intros [= H _]. now destruct Hy.
  - destruct Hb as [|y b Hy Hb]; cbn [app].
    + intros [= H _]. now destruct Hx.
    + intros [= -> H]. destruct (IH b Hb H) as [-> ->]. now split.
Qed.

Lemma app_inj_length {A} (a b c d : list A) :
  length a = length b -> a ++ c = b ++ d -> a = b /\ c = d.
Proof.
  revert b. induction a as [|x a IH]; intros [|y b]; cbn; try discriminate.
  - now split.
  - intros [= Hlen] [= -> H]. destruct (IH b Hlen H) as [-> ->]. now split.
Qed.

(** The fields of the encoding, one after the other. *)
Lemma dssePreAuthEncoding_parts (payloadType : jsstring) (payload : Buffer) :
  dssePreAuthEncoding payloadType payload
  = bytes "DSSEv1 "
    ++ Buffer_from_ascii (Number_toString (length payloadType))
    ++ x20 :: Buffer_from_ascii payloadType
    ++ x20 :: Buffer_from_ascii (Number_toString (length payload))
    ++ x20 :: payload.
Proof.
  unfold dssePreAuthEncoding, Buffer_from_ascii.
  rewrite !map_app, <- !app_assoc. reflexivity.
Qed.

(** X1: the pre-authentication encoding is unambiguous on payload types
    whose code units are all below 256: two pairs of payload type and
    payload with the same encoding are the same pair. The length fields make
    it so, whatever spaces and digits the type and the payload hold. *)
Theorem dssePreAuthEncoding_injective
  (payloadType payloadType' : jsstring) (payload payload' : Buffer) :
  latin1 payloadType = true -> latin1 payloadType' = true ->
  dssePreAuthEncoding payloadType payload
  = dssePreAuthEncoding payloadType' payload' ->
  payloadType = payloadType' /\ payload = payload'.
Proof.
  intros Hl Hl' H. rewrite !dssePreAuthEncoding_parts in H.
  apply app_inv_head in H.
  apply split_at_space in H; try apply Number_toString_no_space.
  destruct H as [Hlen H]. apply Number_toString_inj in Hlen.
  apply app_inj_length in H.
  2:{ unfold Buffer_from_ascii. now rewrite !length_map. }
  destruct H as [Htype H]. injection H as H.
  apply split_at_space in H; try apply Number_toString_no_space.
  destruct H as [_ ->].
  split; [now apply Buffer_from_ascii_inj | reflexivity].
Qed.

(** X2: the encoding keeps only the low byte of every code unit of the
    payload type (the prefix is written with the 'ascii' encoding): two
    payload types of the same length whose code units agree modulo 256 have
    the same encoding with every payload. *)
Theorem dssePreAuthEncoding_low_bytes
  (payloadType payloadType' : jsstring) (payload : Buffer) :
  Forall2 (fun c c' => (c mod 256 = c' mod 256)%N) payloadType payloadType' ->
  dssePreAuthEncoding payloadType payload
  = dssePreAuthEncoding payloadType' payload.
Proof.
  intros H. rewrite !dssePreAuthEncoding_parts.
  assert (Hlen : length payloadType = length payloadType')
    by (induction H; cbn; congruence).
  assert (Hbytes : Buffer_from_ascii payloadType
                   = Buffer_from_ascii payloadType').
  { unfold Buffer_from_ascii. induction H as [|c c' s s' Hc _ IH];
      [reflexivity|]. cbn [map]. unfold byte_of_N at 1 3.
    rewrite Hc. f_equal. apply IH. now injection Hlen. }
  now rewrite Hlen, Hbytes.
Qed.

Lemma dssePreAuthEncoding_injective_witness :
  (lit "text/plain" = lit "text/plain" /\ bytes "payload" = bytes "payload")
  /\ dssePreAuthEncoding (lit "a") (bytes " 1 b")
     <> dssePreAuthEncoding (lit "a 1") (bytes "b").
Proof.
  split.
  - apply (dssePreAuthEncoding_injective (lit "text/plain") (lit "text/plain")
             (bytes "payload") (bytes "payload") eq_refl eq_refl eq_refl).
  - intros H.
    destruct (dssePreAuthEncoding_injective (lit "a") (lit "a 1")
                (bytes " 1 b") (bytes "b") eq_refl eq_refl H) as [Htype _].
    discriminate Htype.
Defined.

Lemma dssePreAuthEncoding_low_bytes_witness :
  dssePreAuthEncoding [321%N] (bytes "payload")
  = dssePreAuthEncoding [65%N] (bytes "payload").
Proof.
  apply (dssePreAuthEncoding_low_bytes [321%N] [65%N] (bytes "payload")).
  constructor; [reflexivity|constructor].
Defined.

End Dsse_encoding.

(* ================================================================== *)
(** * Further properties of checkpoint parsing and verification *)
(* ================================================================== *)

Section Checkpoint_text.
Import Types Checkpoint.

(** ** The matcher on signature lines *)

Lemma matchAll_from_skip (a rest : jsstring) :
  matchAll_from (length a) (a ++ rest) = matchAll_from 0 rest.
Proof.
  induction a as [|c a IH]; [reflexivity|]. exact IH.
Qed.

Lemma matchAll_signature_line (name signature rest : jsstring) :
  is_token name = true -> is_token signature = true ->
  matchAll (signature_line name signature ++ rest)
  = (name, signature) :: matchAll rest.
Proof.
  intros Hn Hs. unfold matchAll.
  pose proof (exec_here_complete name signature rest Hn Hs) as E.
  remember (signature_line name signature) as line eqn:Hline.
  destruct line as [|c line]; [discriminate Hline|].
  cbn [app matchAll_from]. cbn [app] in E. rewrite E.
  cbn [length]. rewrite Nat.sub_succ, Nat.sub_0_r.
  f_equal. apply matchAll_from_skip.
Qed.

Lemma matchAll_signature_lines (lines : list (jsstring * jsstring)) :
  Forall (fun m => is_token (fst m) = true /\ is_token (snd m) = true) lines ->
  matchAll (signature_lines lines) = lines.
Proof.
  induction 1 as [|[name signature] lines [Hn Hs] _ IH]; [reflexivity|].
  unfold signature_lines. cbn [map concat fst snd].
  rewrite (matchAll_signature_line _ _ _ Hn Hs). f_equal. exact IH.
Qed.

(** Every match is a signature line of the text. *)
Lemma matchAll_from_sound (s : jsstring) (skip : nat)
  (name signature : jsstring) :
  In (name, signature) (matchAll_from skip s) ->
  is_token name = true /\ is_token signature = true
  /\ exists pre post, s = pre ++ signature_line name signature ++ post.
Proof.
  revert skip. induction s as [|c s IH]; intros skip; [intros []|].
  cbn [matchAll_from]. destruct skip as [|k].
  - destruct (exec_here (c :: s)) as [[[n sg] len]|] eqn:E.
    + intros [[= <- <-]|Hin].
      * apply exec_here_sound in E. destruct E as (Hn & Hs & _ & rest & E).
        split; [exact Hn|]. split; [exact Hs|]. now exists [], rest.
      * destruct (IH _ Hin) as (Hn & Hs & pre & post & ->).
        split; [exact Hn|]. split; [exact Hs|]. now exists (c :: pre), post.
    + intros Hin. destruct (IH _ Hin) as (Hn & Hs & pre & post & ->).
      split; [exact Hn|]. split; [exact Hs|]. now exists (c :: pre), post.
  - intros Hin. destruct (IH _ Hin) as (Hn & Hs & pre & post & ->).
    split; [exact Hn|]. split; [exact Hs|]. now exists (c :: pre), post.
Qed.

(** ** Searching and slicing at the separator *)

Lemma startsWith_prefix (p s : jsstring) : startsWith p (p ++ s) = true.
Proof.
  induction p as [|c p IH]; [reflexivity|].
  cbn [app startsWith]. now rewrite N.eqb_refl, IH.
Qed.

Lemma search_occurrence (p pre post : jsstring) :
  search p (pre ++ p ++ post) <> None.
Proof.
  induction pre as [|c pre IH].
  - cbn [app]. pose proof (startsWith_prefix p post) as H.
    destruct (p ++ post); cbn [search]; now rewrite H.
  - cbn [app search]. destruct (startsWith p (c :: pre ++ p ++ post));
      [discriminate|].
    destruct (search p (pre ++ p ++ post)); [discriminate|now destruct IH].
Qed.

(** [s.includes(p)] holds exactly when [p] occurs in [s]. *)
Lemma includes_occurrence (p s : jsstring) :
  includes p s = true <-> exists pre post, s = pre ++ p ++ post.
Proof.
  unfold includes. split.
  - destruct (search p s) as [i|] eqn:Hi; [|discriminate].
    intros _. destruct (search_Some _ _ _ Hi) as [_ Hs]. eauto.
  - intros (pre & post & ->).
    pose proof (search_occurrence p pre post).
    now destruct (search p (pre ++ p ++ post)).
Qed.

(** The first separator of [body ++ "\n\n" ++ rest] stands after [body] when
    [body ++ "\n"] holds none. *)
Lemma search_separator (body rest : jsstring) :
  includes CHECKPOINT_SEPARATOR (body ++ [NEWLINE]) = false ->
  search CHECKPOINT_SEPARATOR (body ++ NEWLINE :: NEWLINE :: rest)
  = Some (length body).
Proof.
  unfold includes. induction body as [|c body IH]; [reflexivity|].
  cbn [app search length].
  destruct (startsWith CHECKPOINT_SEPARATOR (c :: body ++ [NEWLINE])) eqn:Hhead;
    [discriminate|].
  destruct (search CHECKPOINT_SEPARATOR (body ++ [NEWLINE])) eqn:Htail;
    [discriminate|].
  intros _. rewrite IH by reflexivity.
  replace (startsWith CHECKPOINT_SEPARATOR
             (c :: body ++ NEWLINE :: NEWLINE :: rest)) with false;
    [reflexivity|].
  destruct body as [|d body];
    cbn [app startsWith CHECKPOINT_SEPARATOR] in Hhead |- *.
  - unfold NEWLINE in *. rewrite N.eqb_refl in *.
    destruct (10 =? c)%N; [discriminate Hhead|reflexivity].
  - destruct (10 =? c)%N, (10 =? d)%N; try reflexivity. discriminate Hhead.
Qed.

(** The text up to the first separator, with its first newline, holds no
    separator. *)
Lemma search_note (envelope : jsstring) (i : nat) :
  search CHECKPOINT_SEPARATOR envelope = Some i ->
  search CHECKPOINT_SEPARATOR (firstn i envelope ++ [NEWLINE]) = None.
Proof.
  revert i. induction envelope as [|c s IH]; intros i; [discriminate|].
  cbn [search].
  destruct (startsWith CHECKPOINT_SEPARATOR (c :: s)) eqn:Hhead.
  - intros [= <-]. reflexivity.
  - destruct (search CHECKPOINT_SEPARATOR s) as [j|] eqn:Hj; [|discriminate].
    intros [= <-]. cbn [firstn app search]. rewrite (IH j eq_refl).
    replace (startsWith CHECKPOINT_SEPARATOR (c :: firstn j s ++ [NEWLINE]))
      with false; [reflexivity|].
    destruct s as [|d s]; [discriminate Hj|].
    cbn [startsWith CHECKPOINT_SEPARATOR] in Hhead |- *.
    destruct j as [|j]; cbn [firstn app].
    + cbn [search] in Hj.
      destruct (startsWith CHECKPOINT_SEPARATOR (d :: s)) eqn:Hd.
      * cbn [startsWith CHECKPOINT_SEPARATOR] in Hd.
        destruct (10 =? d)%N; [|discriminate Hd].
        destruct (10 =? c)%N; [discriminate Hhead|reflexivity].
      * destruct (search CHECKPOINT_SEPARATOR s); discriminate Hj.
    + destruct (10 =? c)%N, (10 =? d)%N; try reflexivity. discriminate Hhead.
Qed.

Lemma slice_head (i : nat) (s : jsstring) :
  i <= length s -> slice 0 (Z.of_nat i) s = firstn i s.
Proof.
  intros Hi. unfold slice, slice_index. cbn [Z.ltb Z.compare Z.to_nat Nat.min].
  replace (Z.of_nat i <? 0)%Z with false by (symmetry; apply Z.ltb_ge; lia).
  rewrite Nat2Z.id, Nat.min_l, Nat.sub_0_r by exact Hi. reflexivity.
Qed.

Lemma sliceFrom_tail (i : nat) (s : jsstring) :
  i <= length s -> sliceFrom (Z.of_nat i) s = skipn i s.
Proof.
  intros Hi. unfold sliceFrom, slice_index.
  replace (Z.of_nat i <? 0)%Z with false by (symmetry; apply Z.ltb_ge; lia).
  now rewrite Nat2Z.id, Nat.min_l by exact Hi.
Qed.

(** The two slices [SignedNote.fromString] takes at the first separator. *)
Lemma fromString_slices (envelope : jsstring) (i : nat) :
  search CHECKPOINT_SEPARATOR envelope = Some i ->
  slice 0 (indexOf CHECKPOINT_SEPARATOR envelope + 1) envelope
  = firstn i envelope ++ [NEWLINE]
  /\ signatureSection envelope = skipn (i + 2) envelope
  /\ envelope
     = firstn i envelope ++ NEWLINE :: NEWLINE :: skipn (i + 2) envelope.
Proof.
  intros Hi. destruct (search_Some _ _ _ Hi) as [Hle Hs].
  change (length CHECKPOINT_SEPARATOR) with 2 in Hs.
  change (CHECKPOINT_SEPARATOR ++ skipn (i + 2) envelope)
    with (NEWLINE :: NEWLINE :: skipn (i + 2) envelope) in Hs.
  assert (Hlen : i + 2 <= length envelope).
  { apply (f_equal (@length _)) in Hs.
    rewrite length_app, length_firstn, Nat.min_l in Hs by exact Hle.
    cbn [length] in Hs. lia. }
  unfold signatureSection, indexOf. rewrite Hi.
  change (Z.of_nat (length CHECKPOINT_SEPARATOR)) with 2%Z.
  replace (Z.of_nat i + 1)%Z with (Z.of_nat (i + 1)) by lia.
  replace (Z.of_nat i + 2)%Z with (Z.of_nat (i + 2)) by lia.
  rewrite slice_head, sliceFrom_tail by lia.
  split; [|split; [reflexivity|exact Hs]].
  rewrite Hs at 1.
  rewrite firstn_app, length_firstn, Nat.min_l by exact Hle.
  rewrite firstn_all2 by (rewrite length_firstn; lia).
  replace (i + 1 - i) with 1 by lia. reflexivity.
Qed.

(** ** [Array.from] with a callback that may throw *)

Lemma Forall2_In_r {A B} (R : A -> B -> Prop) (l : list A) (bs : list B)
  (b : B) :
  Forall2 R l bs -> In b bs -> exists a, In a l /\ R a b.
Proof.
  induction 1 as [|a b' l bs Hab _ IH]; [intros []|].
  intros [<-|Hin].
  - exists a. split; [now left|exact Hab].
  - destruct (IH Hin) as (x & Hx & Hxb). exists x. split; [now right|exact Hxb].
Qed.

Lemma Array_from_Return {E A B} (f : A -> completion E B) (l : list A)
  (bs : list B) :
  Array_from f l = Return bs -> Forall2 (fun a b => f a = Return b) l bs.
Proof.
  revert bs. induction l as [|a l IH]; intros bs; cbn [Array_from].
  - intros [= <-]. constructor.
  - destruct (f a) as [b|e] eqn:Hb; [|discriminate].
    destruct (Array_from f l) as [bs'|e]; [|discriminate].
    intros [= <-]. constructor; [exact Hb|now apply IH].
Qed.

Lemma Array_from_map {E A B} (f : A -> completion E B) (g : A -> B)
  (l : list A) :
  Forall (fun a => f a = Return (g a)) l ->
  Array_from f l = @Return E _ (map g l).
Proof.
  induction 1 as [|a l Ha _ IH]; [reflexivity|].
  cbn [Array_from map]. now rewrite Ha, IH.
Qed.

Lemma Array_from_Throw_inv {E A B} (f : A -> completion E B) (l : list A) (e : E) :
  Array_from f l = Throw e -> exists a, In a l /\ f a = Throw e.
Proof.
  induction l as [|a l IH]; cbn [Array_from]; [discriminate|].
  destruct (f a) as [b|e'] eqn:Ha.
  - destruct (Array_from f l) as [bs|e'']; [discriminate|].
    intros [= <-]. destruct (IH eq_refl) as (x & Hin & Hx).
    exists x. split; [now right|exact Hx].
  - intros [= <-]. exists a. split; [now left|exact Ha].
Qed.

(** ** The checkpoint body *)

Lemma trimEnd_spaces (ws : jsstring) :
  forallb is_space ws = true -> trimEnd ws = [].
Proof.
  induction ws as [|c ws IH]; [reflexivity|]. cbn [forallb trimEnd].
  intros H. apply andb_true_iff in H. destruct H as [Hc Hws].
  now rewrite (IH Hws), Hc.
Qed.

Lemma trimEnd_app_spaces (s ws : jsstring) :
  forallb is_space ws = true -> trimEnd (s ++ ws) = trimEnd s.
Proof.
  intros Hws. induction s as [|c s IH].
  - now apply trimEnd_spaces.
  - cbn [app trimEnd]. now rewrite IH.
Qed.

Lemma trimEnd_last_nonspace (s : jsstring) :
  is_space (last s SPACE) = false -> trimEnd s = s.
Proof.
  induction s as [|c s IH]; [discriminate|].
  cbn [last trimEnd]. destruct s as [|d s].
  - intros Hc. cbn. now rewrite Hc.
  - intros H. now rewrite (IH H).
Qed.

Lemma split_lines_line (line : jsstring) :
  newline_free line = true -> split_lines line = [line].
Proof.
  induction line as [|c line IH]; [reflexivity|].
  cbn [newline_free forallb split_lines]. intros H.
  apply andb_true_iff in H. destruct H as [Hc Hline].
  apply negb_true_iff in Hc. rewrite Hc. now rewrite (IH Hline).
Qed.

Lemma split_lines_cons (line rest : jsstring) :
  newline_free line = true ->
  split_lines (line ++ NEWLINE :: rest) = line :: split_lines rest.
Proof.
  induction line as [|c line IH].
  - intros _. cbn [app split_lines]. now rewrite N.eqb_refl.
  - cbn [newline_free forallb app split_lines]. intros H.
    apply andb_true_iff in H. destruct H as [Hc Hline].
    apply negb_true_iff in Hc. rewrite Hc. now rewrite (IH Hline).
Qed.

(** Splitting the joined text of newline-free lines gives the lines back. *)
Lemma split_join_lines (lines : list jsstring) :
  lines <> [] -> Forall (fun line => newline_free line = true) lines ->
  split_lines (join_lines lines) = lines.
Proof.
  intros Hne Hall. induction Hall as [|line lines Hline Hall IH];
    [now destruct Hne|].
  destruct lines as [|line' lines].
  - now apply split_lines_line.
  - cbn [join_lines]. rewrite (split_lines_cons _ _ Hline).
    f_equal. apply IH. discriminate.
Qed.

(** [split('\n')] gives one line more than the text has newlines. *)
Lemma length_split_lines (s : jsstring) :
  length (split_lines s) = S (count_newlines s).
Proof.
  unfold count_newlines. induction s as [|c s IH]; [reflexivity|].
  cbn [split_lines filter]. destruct (c =? NEWLINE)%N.
  - cbn [length]. now rewrite IH.
  - destruct (split_lines s); [discriminate IH|exact IH].
Qed.

(** ** [SignedNote.fromString] *)

Section Note.
Variable Buffer_from_base64 : jsstring -> Buffer.

Lemma parseSignature_Return (m : jsstring * jsstring) (s : TLogSignature) :
  parseSignature Buffer_from_base64 m = Return s <->
  5 <= length (Buffer_from_base64 (snd m))
  /\ s = signatureOf Buffer_from_base64 m.
Proof.
  destruct m as [name signature]. unfold parseSignature, signatureOf.
  cbn [fst snd].
  destruct (length (Buffer_from_base64 signature) <? 5) eqn:Hlen.
  - apply Nat.ltb_lt in Hlen. split; [discriminate|]. intros [H _]. lia.
  - apply Nat.ltb_ge in Hlen. split.
    + intros [= <-]. now split.
    + intros [_ ->]. reflexivity.
Qed.

(** What [SignedNote.fromString] returning a note tells. *)
Lemma fromString_Return (envelope : jsstring) (signedNote : SignedNote) :
  SignedNote_fromString Buffer_from_base64 envelope = Return signedNote ->
  exists i,
    search CHECKPOINT_SEPARATOR envelope = Some i
    /\ note signedNote = firstn i envelope ++ [NEWLINE]
    /\ signatures signedNote <> []
    /\ Forall2 (fun m s => parseSignature Buffer_from_base64 m = Return s)
         (matchAll (signatureSection envelope)) (signatures signedNote).
Proof.
  intros H.
  destruct (includes CHECKPOINT_SEPARATOR envelope) eqn:Hsep.
  2:{ rewrite (fromString_missing_separator _ _ Hsep) in H. discriminate. }
  rewrite (SignedNote_fromString_data _ _ Hsep) in H.
  unfold includes in Hsep.
  destruct (search CHECKPOINT_SEPARATOR envelope) as [i|] eqn:Hi;
    [|discriminate].
  destruct (fromString_slices _ _ Hi) as (Hnote & _ & _).
  destruct (Array_from _ _) as [sigs|e] eqn:Hsigs; [|discriminate].
  destruct (length sigs =? 0) eqn:Hlen; [discriminate|].
  injection H as <-. cbn [note signatures]. exists i.
  split; [reflexivity|]. split; [exact Hnote|].
  split; [intros ->; discriminate Hlen|]. now apply Array_from_Return.
Qed.

(** Every exception of [SignedNote.fromString] is a [VerificationError] with
    the code of the inclusion proof. *)
Lemma fromString_throws (envelope : jsstring) (e : exn) :
  SignedNote_fromString Buffer_from_base64 envelope = Throw e ->
  exists message,
    e = VerificationError TLOG_INCLUSION_PROOF_ERROR message
    /\ (message = "missing checkpoint separator"%string
        -> includes CHECKPOINT_SEPARATOR envelope = false).
Proof.
  unfold SignedNote_fromString.
  destruct (includes CHECKPOINT_SEPARATOR envelope); cbn [negb].
  - destruct (Array_from _ _) as [sigs|e'] eqn:Hsigs.
    + destruct (length sigs =? 0); [|discriminate]. intros [= <-].
      eexists. split; [reflexivity|discriminate].
    + intros [= <-]. apply Array_from_Throw_inv in Hsigs.
      destruct Hsigs as (m & _ & Hm).
      destruct (parseSignature_cases Buffer_from_base64 m) as [[t Ht]|Ht];
        rewrite Ht in Hm; [discriminate|]. injection Hm as <-.
      eexists. split; [reflexivity|discriminate].
  - intros [= <-]. eexists. split; reflexivity.
Qed.

(** X3: [SignedNote.fromString] reads a well-formed envelope back into its
    parts. For a body that holds no blank line and does not end in a
    newline, followed by an empty line and one or more signature lines
    (em dash, space, name, space, base64 token, newline, with name and token
    free of white space and the token decoding to five bytes or more), the
    result is the note made of the body and its newline, with one signature
    for every line, in order: the name, the first four decoded bytes as key
    hint and the remaining bytes as signature. *)
Theorem fromString_parses_signed_note (body : jsstring)
  (lines : list (jsstring * jsstring)) :
  includes CHECKPOINT_SEPARATOR (body ++ [NEWLINE]) = false ->
  lines <> [] ->
  Forall (fun m => is_token (fst m) = true /\ is_token (snd m) = true
                   /\ 5 <= length (Buffer_from_base64 (snd m))) lines ->
  SignedNote_fromString Buffer_from_base64
    (body ++ NEWLINE :: NEWLINE :: signature_lines lines)
  = Return {| note := body ++ [NEWLINE];
              signatures := map (signatureOf Buffer_from_base64) lines |}.
Proof.
  intros Hbody Hlines Hall.
  pose proof (search_separator body (signature_lines lines) Hbody) as Hi.
  assert (Hsep : includes CHECKPOINT_SEPARATOR
                   (body ++ NEWLINE :: NEWLINE :: signature_lines lines) = true)
    by (unfold includes; now rewrite Hi).
  rewrite (SignedNote_fromString_data _ _ Hsep).
  destruct (fromString_slices _ _ Hi) as (Hnote & Hdata & _).
  rewrite Hnote, Hdata.
  rewrite firstn_app, Nat.sub_diag, firstn_all, app_nil_r.
  replace (skipn (length body + 2)
             (body ++ NEWLINE :: NEWLINE :: signature_lines lines))
    with (signature_lines lines).
  2:{ rewrite skipn_app, skipn_all2 by lia.
      replace (length body + 2 - length body) with 2 by lia. reflexivity. }
  rewrite matchAll_signature_lines.
  2:{ eapply Forall_impl; [|exact Hall]. cbn. tauto. }
  rewrite (Array_from_map _ (signatureOf Buffer_from_base64)).
  2:{ eapply Forall_impl; [|exact Hall]. cbn. intros m (_ & _ & Hlen).
      now apply parseSignature_Return. }
  rewrite length_map. destruct lines; [now destruct Hlines|reflexivity].
Qed.

(** X4: what every note returned by [SignedNote.fromString] satisfies. The
    envelope is the note, a newline and the signature section; the note ends
    in a newline and holds no blank line; there is at least one signature;
    and every signature has a key hint of exactly four bytes and a signature
    of at least one byte, which together are the decoded token of a
    signature line of the signature section that carries its name. *)
Theorem fromString_signed_note_invariant (envelope : jsstring)
  (signedNote : SignedNote) :
  SignedNote_fromString Buffer_from_base64 envelope = Return signedNote ->
  envelope = note signedNote ++ NEWLINE :: signatureSection envelope
  /\ (exists body, note signedNote = body ++ [NEWLINE])
  /\ includes CHECKPOINT_SEPARATOR (note signedNote) = false
  /\ signatures signedNote <> []
  /\ (forall s, In s (signatures signedNote) ->
        length (keyHint s) = 4 /\ 1 <= length (signature s)
        /\ exists token pre post,
             is_token (name s) = true /\ is_token token = true
             /\ signatureSection envelope
                = pre ++ signature_line (name s) token ++ post
             /\ keyHint s ++ signature s = Buffer_from_base64 token).
Proof.
  intros H.
  destruct (fromString_Return _ _ H) as (i & Hi & Hnote & Hne & Hsigs).
  destruct (fromString_slices _ _ Hi) as (_ & Hdata & Henv).
  rewrite Hnote.
  split; [rewrite Hdata, <- app_assoc; exact Henv|].
  split; [eauto|].
  split; [unfold includes; now rewrite (search_note _ _ Hi)|].
  split; [exact Hne|].
  intros s Hs.
  destruct (Forall2_In_r _ _ _ _ Hsigs Hs) as ([n token] & Hin & Hm).
  apply parseSignature_Return in Hm. destruct Hm as [Hm ->].
  unfold signatureOf. cbn [keyHint signature name fst snd] in *.
  rewrite length_firstn, length_skipn, firstn_skipn.
  split; [lia|]. split; [lia|].
  destruct (matchAll_from_sound _ _ _ _ Hin) as (Hn & Ht & pre & post & E).
  exists token, pre, post. now repeat split.
Qed.

(** X5: [SignedNote.fromString] throws the missing-separator error exactly
    for the envelopes in which no two newlines follow each other. *)
Theorem fromString_missing_separator_iff (envelope : jsstring) :
  SignedNote_fromString Buffer_from_base64 envelope
  = Throw (VerificationError TLOG_INCLUSION_PROOF_ERROR
             "missing checkpoint separator")
  <-> (forall pre post, envelope <> pre ++ NEWLINE :: NEWLINE :: post).
Proof.
  split.
  - intros H pre post E.
    destruct (fromString_throws _ _ H) as (message & [= <-] & Hsep).
    specialize (Hsep eq_refl).
    assert (Hin : includes CHECKPOINT_SEPARATOR envelope = true)
      by (apply includes_occurrence; now exists pre, post).
    congruence.
  - intros H. apply fromString_missing_separator.
    destruct (includes CHECKPOINT_SEPARATOR envelope) eqn:Hsep; [|reflexivity].
    apply includes_occurrence in Hsep. destruct Hsep as (pre & post & ->).
    now destruct (H pre post).
Qed.

End Note.

(** ** [LogCheckpoint.fromString] and [verifyCheckpoint] *)

Section Body.
Variable Buffer_from_base64 : jsstring -> Buffer.
Variable Buffer_from_utf8 : jsstring -> Buffer.
Variable BigInt : jsstring -> option Z.
Variable crypto_verify : Buffer -> KeyObject -> Buffer -> bool.
Variable filterTLogAuthorities : list TLogAuthority -> Date -> list TLogAuthority.
Variable Date_of_seconds : jsstring -> Date.

(** X6: [LogCheckpoint.fromString] reads the lines of a checkpoint body.
    For a text made of an origin line, a size line, a root-hash line and any
    further lines, joined by newlines, that does not end in white space, and
    followed by any white space (the final newline of a note), the result has
    the first line as origin, [BigInt] of the second as size, the decoded
    third as root hash and the further lines as rest; when [BigInt] rejects
    the size line the call ends with its SyntaxError. *)
Theorem LogCheckpoint_fromString_reads_lines
  (origin size hash : jsstring) (rest : list jsstring) (trailing : jsstring) :
  Forall (fun line => newline_free line = true)
         (origin :: size :: hash :: rest) ->
  is_space (last (join_lines (origin :: size :: hash :: rest)) SPACE) = false ->
  forallb is_space trailing = true ->
  LogCheckpoint_fromString Buffer_from_base64 BigInt
    (join_lines (origin :: size :: hash :: rest) ++ trailing)
  = match BigInt size with
    | Some logSize =>
        Return {| origin := origin; logSize := logSize;
                  logHash := Buffer_from_base64 hash; rest := rest |}
    | None => Throw SyntaxError
    end.
Proof.
  intros Hfree Hlast Htrailing.
  unfold LogCheckpoint_fromString.
  rewrite (trimEnd_app_spaces _ _ Htrailing).
  rewrite (trimEnd_last_nonspace _ Hlast).
  rewrite split_join_lines by (exact Hfree || discriminate).
  reflexivity.
Qed.

(** X7: [LogCheckpoint.fromString] throws the too-few-lines error exactly
    for the notes that, with their trailing white space removed, hold fewer
    than two newlines. *)
Theorem too_few_lines_iff (note : jsstring) :
  LogCheckpoint_fromString Buffer_from_base64 BigInt note
  = Throw (VerificationError TLOG_INCLUSION_PROOF_ERROR
             "too few lines in checkpoint header")
  <-> count_newlines (trimEnd note) < 2.
Proof.
  unfold LogCheckpoint_fromString.
  pose proof (length_split_lines (trimEnd note)) as Hlen.
  destruct (length (split_lines (trimEnd note)) <? 3) eqn:H3.
  - apply Nat.ltb_lt in H3. split; [lia|reflexivity].
  - apply Nat.ltb_ge in H3. split; [|lia].
    destruct (BigInt _); discriminate.
Qed.

Lemma LogCheckpoint_fromString_throws (note : jsstring) (e : exn) :
  LogCheckpoint_fromString Buffer_from_base64 BigInt note = Throw e ->
  e = SyntaxError
  \/ e = VerificationError TLOG_INCLUSION_PROOF_ERROR
           "too few lines in checkpoint header".
Proof.
  unfold LogCheckpoint_fromString.
  destruct (length (split_lines (trimEnd note)) <? 3).
  - intros [= <-]. now right.
  - destruct (BigInt _); [discriminate|]. intros [= <-]. now left.
Qed.

(** The two checks [verifyCheckpoint] makes once the envelope and the note
    are parsed. *)
Lemma verifyCheckpoint_parsed (entry : TLogEntryWithInclusionProof)
  (tlogs : list TLogAuthority) (signedNote : SignedNote)
  (checkpoint : LogCheckpoint) :
  SignedNote_fromString Buffer_from_base64 (checkpointEnvelope entry)
  = Return signedNote ->
  LogCheckpoint_fromString Buffer_from_base64 BigInt (note signedNote)
  = Return checkpoint ->
  (verifyCheckpoint Buffer_from_base64 Buffer_from_utf8 BigInt crypto_verify
     filterTLogAuthorities Date_of_seconds entry tlogs
   = Return tt
   <-> (forall s, In s (signatures signedNote) ->
        backed crypto_verify (Buffer_from_utf8 (note signedNote))
          (filterTLogAuthorities tlogs
             (Date_of_seconds (integratedTime entry))) s)
       /\ logHash checkpoint = proofRootHash entry)
  /\ (verifyCheckpoint Buffer_from_base64 Buffer_from_utf8 BigInt crypto_verify
        filterTLogAuthorities Date_of_seconds entry tlogs
      = Throw (VerificationError TLOG_INCLUSION_PROOF_ERROR
                 "root hash mismatch")
      <-> (forall s, In s (signatures signedNote) ->
           backed crypto_verify (Buffer_from_utf8 (note signedNote))
             (filterTLogAuthorities tlogs
                (Date_of_seconds (integratedTime entry))) s)
          /\ logHash checkpoint <> proofRootHash entry).
Proof.
  intros Hnote Hcp. unfold verifyCheckpoint. rewrite Hnote, Hcp.
  rewrite <- (verifySignedNote_every Buffer_from_utf8 crypto_verify).
  rewrite <- (bufferEqual_spec (logHash checkpoint) (proofRootHash entry)).
  destruct (verifySignedNote _ _ signedNote _), (bufferEqual _ _);
    cbn [negb]; split; split; try discriminate; try tauto;
    try (intros [H1 H2]; congruence);
    try (intros _; split; [reflexivity|discriminate]).
Qed.

(** X8: what acceptance by [verifyCheckpoint] means. The call returns
    normally exactly when the envelope parses into a signed note, the note
    parses into a checkpoint, every signature of the note is backed by a
    trusted log valid at the integrated time of the entry, and the root hash
    of the checkpoint equals the root hash of the inclusion proof. *)
Theorem verifyCheckpoint_accepts_iff (entry : TLogEntryWithInclusionProof)
  (tlogs : list TLogAuthority) :
  verifyCheckpoint Buffer_from_base64 Buffer_from_utf8 BigInt crypto_verify
    filterTLogAuthorities Date_of_seconds entry tlogs
  = Return tt
  <-> exists signedNote checkpoint,
        SignedNote_fromString Buffer_from_base64 (checkpointEnvelope entry)
        = Return signedNote
        /\ LogCheckpoint_fromString Buffer_from_base64 BigInt (note signedNote)
           = Return checkpoint
        /\ (forall s, In s (signatures signedNote) ->
            backed crypto_verify (Buffer_from_utf8 (note signedNote))
              (filterTLogAuthorities tlogs
                 (Date_of_seconds (integratedTime entry))) s)
        /\ logHash checkpoint = proofRootHash entry.
Proof.
  split.
  - intros H.
    destruct (SignedNote_fromString Buffer_from_base64
                (checkpointEnvelope entry)) as [signedNote|e] eqn:Hnote.
    2:{ unfold verifyCheckpoint in H. rewrite Hnote in H. discriminate H. }
    destruct (LogCheckpoint_fromString Buffer_from_base64 BigInt
                (note signedNote)) as [checkpoint|e] eqn:Hcp.
    2:{ unfold verifyCheckpoint in H. rewrite Hnote, Hcp in H.
        discriminate H. }
    exists signedNote, checkpoint.
    split; [reflexivity|]. split; [exact Hcp|].
    now apply (proj1 (verifyCheckpoint_parsed entry tlogs _ _ Hnote Hcp)).
  - intros (signedNote & checkpoint & Hnote & Hcp & H).
    now apply (proj1 (verifyCheckpoint_parsed entry tlogs _ _ Hnote Hcp)).
Qed.

(** X9: the root hash is compared last. [verifyCheckpoint] throws the
    root-hash-mismatch error exactly when the envelope and the note parse,
    every signature of the note is backed by a trusted log valid at the
    integrated time, and the root hash of the checkpoint differs from the
    root hash of the inclusion proof: a failure of parsing or of a signature
    is reported first. *)
Theorem root_hash_mismatch_iff (entry : TLogEntryWithInclusionProof)
  (tlogs : list TLogAuthority) :
  verifyCheckpoint Buffer_from_base64 Buffer_from_utf8 BigInt crypto_verify
    filterTLogAuthorities Date_of_seconds entry tlogs
  = Throw (VerificationError TLOG_INCLUSION_PROOF_ERROR "root hash mismatch")
  <-> exists signedNote checkpoint,
        SignedNote_fromString Buffer_from_base64 (checkpointEnvelope entry)
        = Return signedNote
        /\ LogCheckpoint_fromString Buffer_from_base64 BigInt (note signedNote)
           = Return checkpoint
        /\ (forall s, In s (signatures signedNote) ->
            backed crypto_verify (Buffer_from_utf8 (note signedNote))
              (filterTLogAuthorities tlogs
                 (Date_of_seconds (integratedTime entry))) s)
        /\ logHash checkpoint <> proofRootHash entry.
Proof.
  split.
  - intros H.
    destruct (SignedNote_fromString Buffer_from_base64
                (checkpointEnvelope entry)) as [signedNote|e] eqn:Hnote.
    2:{ unfold verifyCheckpoint in H. rewrite Hnote in H. injection H as ->.
        unfold SignedNote_fromString in Hnote.
        destruct (negb (includes _ _)); [discriminate|].
        destruct (Array_from _ _) as [sigs|e'] eqn:Hsigs.
        - destruct (length sigs =? 0); discriminate.
        - apply Array_from_Throw_inv in Hsigs. destruct Hsigs as (m & _ & Hm).
          destruct (parseSignature_cases Buffer_from_base64 m) as [[t Ht]|Ht];
            rewrite Ht in Hm; [discriminate|]. injection Hm as <-.
          discriminate. }
    destruct (LogCheckpoint_fromString Buffer_from_base64 BigInt
                (note signedNote)) as [checkpoint|e] eqn:Hcp.
    2:{ unfold verifyCheckpoint in H. rewrite Hnote, Hcp in H.
        injection H as ->.
        destruct (LogCheckpoint_fromString_throws _ _ Hcp); discriminate. }
    exists signedNote, checkpoint.
    split; [reflexivity|]. split; [exact Hcp|].
    now apply (proj2 (verifyCheckpoint_parsed entry tlogs _ _ Hnote Hcp)).
  - intros (signedNote & checkpoint & Hnote & Hcp & H).
    now apply (proj2 (verifyCheckpoint_parsed entry tlogs _ _ Hnote Hcp)).
Qed.

(** X10: no checkpoint is accepted without a trusted log. When no trusted
    log is valid at the integrated time of the entry, [verifyCheckpoint]
    never returns normally, and for an envelope and a note that parse it
    throws the invalid-checkpoint-signature error: a parsed note carries at
    least one signature, and no signature is backed by an empty list of
    logs. *)
Theorem no_trusted_log_no_checkpoint (entry : TLogEntryWithInclusionProof)
  (tlogs : list TLogAuthority) :
  filterTLogAuthorities tlogs (Date_of_seconds (integratedTime entry)) = [] ->
  verifyCheckpoint Buffer_from_base64 Buffer_from_utf8 BigInt crypto_verify
    filterTLogAuthorities Date_of_seconds entry tlogs
  <> Return tt
  /\ (forall signedNote checkpoint,
        SignedNote_fromString Buffer_from_base64 (checkpointEnvelope entry)
        = Return signedNote ->
        LogCheckpoint_fromString Buffer_from_base64 BigInt (note signedNote)
        = Return checkpoint ->
        verifyCheckpoint Buffer_from_base64 Buffer_from_utf8 BigInt
          crypto_verify filterTLogAuthorities Date_of_seconds entry tlogs
        = Throw (VerificationError TLOG_INCLUSION_PROOF_ERROR
                   "invalid checkpoint signature")).
Proof.
  intros Hnone.
  assert (Hsig : forall signedNote checkpoint,
             SignedNote_fromString Buffer_from_base64 (checkpointEnvelope entry)
             = Return signedNote ->
             LogCheckpoint_fromString Buffer_from_base64 BigInt
               (note signedNote) = Return checkpoint ->
             verifyCheckpoint Buffer_from_base64 Buffer_from_utf8 BigInt
               crypto_verify filterTLogAuthorities Date_of_seconds entry tlogs
             = Throw (VerificationError TLOG_INCLUSION_PROOF_ERROR
                        "invalid checkpoint signature")).
  { intros signedNote checkpoint Hnote Hcp.
    unfold verifyCheckpoint. rewrite Hnote, Hcp, Hnone.
    destruct (fromString_Return Buffer_from_base64 _ _ Hnote)
      as (_ & _ & _ & Hne & _).
    unfold verifySignedNote.
    destruct (signatures signedNote) as [|s sigs]; [now destruct Hne|].
    reflexivity. }
  split; [|exact Hsig].
  intros H. unfold verifyCheckpoint in H.
  destruct (SignedNote_fromString _ _) as [signedNote|e] eqn:Hnote;
    [|discriminate].
  destruct (LogCheckpoint_fromString _ _ _) as [checkpoint|e] eqn:Hcp;
    [|discriminate].
  pose proof (Hsig _ _ eq_refl Hcp) as Hthrow.
  unfold verifyCheckpoint in Hthrow. rewrite Hnote, Hcp in Hthrow.
  rewrite Hthrow in H. discriminate H.
Qed.

(** X11: the exceptions of [verifyCheckpoint]. Whatever it throws is a
    [VerificationError] with the code TLOG_INCLUSION_PROOF_ERROR, or the
    SyntaxError of [BigInt]; and the SyntaxError is thrown exactly when the
    envelope parses, the note has three lines or more and [BigInt] rejects
    its second line, whether or not the signatures verify. *)
Theorem verifyCheckpoint_exceptions (entry : TLogEntryWithInclusionProof)
  (tlogs : list TLogAuthority) :
  (forall e,
     verifyCheckpoint Buffer_from_base64 Buffer_from_utf8 BigInt crypto_verify
       filterTLogAuthorities Date_of_seconds entry tlogs
     = Throw e ->
     e = SyntaxError
     \/ exists message,
          e = VerificationError TLOG_INCLUSION_PROOF_ERROR message)
  /\ (verifyCheckpoint Buffer_from_base64 Buffer_from_utf8 BigInt crypto_verify
        filterTLogAuthorities Date_of_seconds entry tlogs
      = Throw SyntaxError
      <-> exists signedNote,
            SignedNote_fromString Buffer_from_base64 (checkpointEnvelope entry)
            = Return signedNote
            /\ 2 <= count_newlines (trimEnd (note signedNote))
            /\ BigInt (nth 1 (split_lines (trimEnd (note signedNote))) [])
               = None).
Proof.
  split.
  - intros e. unfold verifyCheckpoint.
    destruct (SignedNote_fromString _ _) as [signedNote|e'] eqn:Hnote.
    2:{ intros [= <-]. right.
        destruct (fromString_throws _ _ _ Hnote) as (message & -> & _).
        eauto. }
    destruct (LogCheckpoint_fromString _ _ _) as [checkpoint|e'] eqn:Hcp.
    2:{ intros [= <-].
        destruct (LogCheckpoint_fromString_throws _ _ Hcp) as [->| ->];
          [now left|right; eauto]. }
    destruct (negb (verifySignedNote _ _ _ _)); [intros [= <-]; right; eauto|].
    destruct (negb (bufferEqual _ _)); [intros [= <-]; right; eauto|].
    discriminate.
  - split.
    + intros H. unfold verifyCheckpoint in H.
      destruct (SignedNote_fromString Buffer_from_base64
                  (checkpointEnvelope entry)) as [signedNote|e'] eqn:Hnote.
      2:{ injection H as ->.
          destruct (fromString_throws _ _ _ Hnote) as (message & [=] & _). }
      exists signedNote. split; [reflexivity|].
      unfold LogCheckpoint_fromString in H.
      pose proof (length_split_lines (trimEnd (note signedNote))) as Hlen.
      destruct (length (split_lines (trimEnd (note signedNote))) <? 3) eqn:H3;
        [discriminate H|].
      apply Nat.ltb_ge in H3. split; [lia|].
      destruct (BigInt _); [|reflexivity].
      destruct (negb (verifySignedNote _ _ _ _)); [discriminate H|].
      destruct (negb (bufferEqual _ _)); discriminate H.
    + intros (signedNote & Hnote & H2 & Hsize).
      unfold verifyCheckpoint, LogCheckpoint_fromString. rewrite Hnote.
      pose proof (length_split_lines (trimEnd (note signedNote))) as Hlen.
      replace (length (split_lines (trimEnd (note signedNote))) <? 3)
        with false by (symmetry; apply Nat.ltb_ge; lia).
      now rewrite Hsize.
Qed.

(** X12: the first log with the key hint decides. A signature is checked
    with the key of the first trusted log whose log ID starts with its key
    hint, and with no other: the logs that follow it, one with the same
    four bytes and a key under which the signature verifies included, play
    no role. *)
Theorem first_matching_log_decides (data : Buffer)
  (before after : list TLogAuthority) (tlog : TLogAuthority)
  (s : TLogSignature) :
  (forall t, In t before -> firstn 4 (logID t) <> keyHint s) ->
  firstn 4 (logID tlog) = keyHint s ->
  signatureVerifies crypto_verify data (before ++ tlog :: after) s
  = crypto_verify data (publicKey tlog) (signature s).
Proof.
  intros Hbefore Htlog. unfold signatureVerifies.
  induction before as [|t before IH]; cbn [app find].
  - rewrite Htlog, bufferEqual_refl. reflexivity.
  - destruct (bufferEqual (firstn 4 (logID t)) (keyHint s)) eqn:Ht.
    + apply bufferEqual_spec in Ht. now destruct (Hbefore t (or_introl eq_refl)).
    + apply IH. intros t' Hin. apply Hbefore. now right.
Qed.

End Body.

Lemma fromString_parses_witness :
  SignedNote_fromString example_base64
    (note_body ++ NEWLINE :: NEWLINE :: signature_lines example_lines)
  = Return {| note := note_body ++ [NEWLINE];
              signatures := map (signatureOf example_base64) example_lines |}.
Proof.
  apply (fromString_parses_signed_note example_base64 note_body example_lines).
  - vm_compute. reflexivity.
  - discriminate.
  - constructor; [|constructor].
    split; [vm_compute; reflexivity|]. split; [vm_compute; reflexivity|].
    vm_compute. lia.
Defined.

Lemma fromString_invariant_witness :
  checkpointEnvelope entry_one_signature
  = note note_one_signature
    ++ NEWLINE :: signatureSection (checkpointEnvelope entry_one_signature)
  /\ (exists body, note note_one_signature = body ++ [NEWLINE])
  /\ includes CHECKPOINT_SEPARATOR (note note_one_signature) = false
  /\ signatures note_one_signature <> []
  /\ (forall s, In s (signatures note_one_signature) ->
        length (keyHint s) = 4 /\ 1 <= length (signature s)
        /\ exists token pre post,
             is_token (name s) = true /\ is_token token = true
             /\ signatureSection (checkpointEnvelope entry_one_signature)
                = pre ++ signature_line (name s) token ++ post
             /\ keyHint s ++ signature s = example_base64 token).
Proof.
  apply (fromString_signed_note_invariant example_base64
           (checkpointEnvelope entry_one_signature) note_one_signature).
  vm_compute. reflexivity.
Defined.

Lemma LogCheckpoint_fromString_witness :
  LogCheckpoint_fromString example_base64 example_BigInt
    (join_lines [lit "rekor.example"; lit "1"; lit "AAAA"; extension_line]
     ++ [NEWLINE])
  = Return checkpoint_with_extension.
Proof.
  apply (LogCheckpoint_fromString_reads_lines example_base64 example_BigInt
           (lit "rekor.example") (lit "1") (lit "AAAA") [extension_line]
           [NEWLINE]).
  - repeat constructor.
  - vm_compute. reflexivity.
  - reflexivity.
Defined.

Lemma no_trusted_log_witness :
  example_verifyCheckpoint entry_one_signature []
  = Throw (VerificationError TLOG_INCLUSION_PROOF_ERROR
             "invalid checkpoint signature").
Proof.
  apply (proj2 (no_trusted_log_no_checkpoint example_base64 Buffer_from_ascii
                  example_BigInt example_verify example_filter example_date
                  entry_one_signature [] eq_refl)
           note_one_signature example_checkpoint);
    vm_compute; reflexivity.
Defined.

Lemma first_matching_log_witness :
  signatureVerifies example_verify (Buffer_from_ascii example_note)
    ([other_log] ++ example_log :: [shadowed_log]) one_signature
  = example_verify (Buffer_from_ascii example_note) (publicKey example_log)
      (signature one_signature).
Proof.
  apply (first_matching_log_decides example_verify
           (Buffer_from_ascii example_note) [other_log] [shadowed_log]
           example_log one_signature).
  - intros t [<-|[]]. vm_compute. discriminate.
  - reflexivity.
Defined.

Lemma verifyCheckpoint_exceptions_witness :
  example_verifyCheckpoint entry_bad_size [example_log] = Throw SyntaxError.
Proof.
  apply (proj2 (proj2 (verifyCheckpoint_exceptions example_base64
                         Buffer_from_ascii example_BigInt example_verify
                         example_filter example_date entry_bad_size
                         [example_log]))).
  eexists. split; [vm_compute; reflexivity|].
  split; [vm_compute; lia | vm_compute; reflexivity].
Defined.

End Checkpoint_text.

(* ================================================================== *)
(** * Further properties of the client verifier *)
(* ================================================================== *)

Section Client_verifier.
Import Types Client.

(** ** Counting the transparency-log entries *)

Section Entries.
Variable verifyTLogBody :
  TransparencyLogEntry -> option BundleContent -> completion exn bool.
Variable verifyTLogSET :
  TransparencyLogEntry -> list TransparencyLogInstance -> completion exn bool.
Variable x509Certificate_parse : Buffer -> completion exn x509Certificate.
Variable Date_of_seconds : jsstring -> Date.

Lemma verificationMaterial_with_tlogEntries bundle vm entries :
  verificationMaterial bundle = Some vm ->
  verificationMaterial (with_tlogEntries bundle entries)
  = Some {| materialContent := materialContent vm;
            tlogEntries := entries;
            timestampVerificationData := timestampVerificationData vm |}.
Proof. intros H. unfold with_tlogEntries. cbn. now rewrite H. Qed.

(** The count decides once every check has returned. *)
Lemma count_accepts (check : TransparencyLogEntry -> completion exn bool)
  (entries : list TransparencyLogEntry) (threshold : Z) :
  match Array_filter check entries with
  | Throw e => Throw e
  | Return verifiedEntries =>
      if (Z.of_nat (length verifiedEntries) <? threshold)%Z
      then Throw (VerificationError "tlog verification failed")
      else Return tt
  end = Return tt
  <-> (forall entry, In entry entries -> returns (check entry) = true)
      /\ (threshold
          <= Z.of_nat
               (length (filter (fun entry => passes (check entry)) entries)))%Z.
Proof.
  split.
  - destruct (Array_filter check entries) as [kept|e] eqn:Hkept;
      [|discriminate].
    destruct (Array_filter_Return _ _ _ Hkept) as [Hall ->].
    destruct (Z.ltb_spec
                (Z.of_nat
                   (length (filter (fun entry => passes (check entry))
                              entries))) threshold); [discriminate|].
    intros _. now split.
  - intros [Hall Hcount]. rewrite (Array_filter_returns _ _ Hall).
    apply Z.ltb_ge in Hcount. now rewrite Hcount.
Qed.

(** What [verifyTLogEntries] returning normally tells. *)
Lemma verifyTLogEntries_Return bundle root options :
  verifyTLogEntries verifyTLogBody verifyTLogSET x509Certificate_parse
    Date_of_seconds bundle root options = Return tt ->
  performOnlineVerification options = false
  /\ exists vm cert,
       verificationMaterial bundle = Some vm
       /\ signingCertificate x509Certificate_parse bundle = Return cert
       /\ (forall entry, In entry (tlogEntries vm) ->
             returns (verifyTLogEntryOffline verifyTLogBody verifyTLogSET
                        Date_of_seconds entry (content bundle) (tlogs root)
                        cert) = true)
       /\ (threshold options
           <= Z.of_nat
                (length
                   (filter
                      (fun entry =>
                         passes
                           (verifyTLogEntryOffline verifyTLogBody
                              verifyTLogSET Date_of_seconds entry
                              (content bundle) (tlogs root) cert))
                      (tlogEntries vm))))%Z.
Proof.
  unfold verifyTLogEntries.
  destruct (performOnlineVerification options); [discriminate|].
  destruct (signingCertificate x509Certificate_parse bundle) as [cert|e];
    [|discriminate].
  destruct (verificationMaterial bundle) as [vm|]; [|discriminate].
  intros H. apply count_accepts in H. destruct H as [Hall Hcount].
  split; [reflexivity|]. exists vm, cert. now repeat split.
Qed.

(** The outcome for a replaced list of entries. *)
Lemma verifyTLogEntries_with bundle vm root options cert entries :
  performOnlineVerification options = false ->
  verificationMaterial bundle = Some vm ->
  signingCertificate x509Certificate_parse bundle = Return cert ->
  verifyTLogEntries verifyTLogBody verifyTLogSET x509Certificate_parse
    Date_of_seconds (with_tlogEntries bundle entries) root options
  = match Array_filter
            (fun entry =>
               verifyTLogEntryOffline verifyTLogBody verifyTLogSET
                 Date_of_seconds entry (content bundle) (tlogs root) cert)
            entries with
    | Throw e => Throw e
    | Return verifiedEntries =>
        if (Z.of_nat (length verifiedEntries) <? threshold options)%Z
        then Throw (VerificationError "tlog verification failed")
        else Return tt
    end.
Proof.
  intros Hon Hvm Hcert.
  rewrite (verifyTLogEntries_count verifyTLogBody verifyTLogSET
             x509Certificate_parse Date_of_seconds
             (with_tlogEntries bundle entries) _ root options cert Hon
             (verificationMaterial_with_tlogEntries bundle vm entries Hvm)).
  - reflexivity.
  - now rewrite signingCertificate_with_tlogEntries.
Qed.

Lemma filter_nothing {A} (f : A -> bool) (l : list A) :
  (forall x, In x l -> f x = false) -> filter f l = [].
Proof.
  induction l as [|a l IH]; intros H; [reflexivity|].
  cbn [filter]. rewrite (H a (or_introl eq_refl)).
  apply IH. intros x Hx. apply H. now right.
Qed.

(** The check of an entry without an inclusion promise ends with the body
    check: it throws what the body check throws and answers [false]
    otherwise. *)
Lemma entryOffline_without_promise entry bundleContent tlogs cert :
  inclusionPromise entry = None ->
  verifyTLogEntryOffline verifyTLogBody verifyTLogSET Date_of_seconds entry
    bundleContent tlogs cert
  = match verifyTLogBody entry bundleContent with
    | Throw e => Throw e
    | Return _ => Return false
    end.
Proof.
  intros Hnone.
  unfold verifyTLogEntryOffline, isTransparencyLogEntryWithInclusionPromise.
  rewrite Hnone. now destruct (verifyTLogBody entry bundleContent) as [[|]|e].
Qed.

(** X13: an entry without an inclusion promise never counts. When no entry
    of the bundle carries an inclusion promise (a signed entry timestamp),
    online verification is off and the threshold is one or more,
    [verifyTLogEntries] never returns normally: it throws the
    tlog-verification-failed error when the body check of every entry
    returns, whatever it answers, and when the body check of an entry
    throws, the body checks of the entries before it having returned, it
    throws that exception. *)
Theorem entries_without_promise_do_not_count
  (bundle : Bundle) (vm : VerificationMaterial) (root : TrustedRoot)
  (options : ArtifactVerificationOptions_TlogOptions)
  (cert : option x509Certificate) :
  performOnlineVerification options = false ->
  verificationMaterial bundle = Some vm ->
  signingCertificate x509Certificate_parse bundle = Return cert ->
  (forall entry, In entry (tlogEntries vm) -> inclusionPromise entry = None) ->
  (0 < threshold options)%Z ->
  verifyTLogEntries verifyTLogBody verifyTLogSET x509Certificate_parse
    Date_of_seconds bundle root options
  <> Return tt
  /\ ((forall entry, In entry (tlogEntries vm) ->
         returns (verifyTLogBody entry (content bundle)) = true) ->
      verifyTLogEntries verifyTLogBody verifyTLogSET x509Certificate_parse
        Date_of_seconds bundle root options
      = Throw (VerificationError "tlog verification failed"))
  /\ (forall before entry after e,
        tlogEntries vm = before ++ entry :: after ->
        (forall x, In x before ->
           returns (verifyTLogBody x (content bundle)) = true) ->
        verifyTLogBody entry (content bundle) = Throw e ->
        verifyTLogEntries verifyTLogBody verifyTLogSET x509Certificate_parse
          Date_of_seconds bundle root options
        = Throw e).
Proof.
  intros Hon Hvm Hcert Hnone Hpos.
  assert (Hnever : forall entry, In entry (tlogEntries vm) ->
             passes (verifyTLogEntryOffline verifyTLogBody verifyTLogSET
                       Date_of_seconds entry (content bundle) (tlogs root)
                       cert) = false).
  { intros entry Hin.
    rewrite (entryOffline_without_promise entry _ _ _ (Hnone entry Hin)).
    now destruct (verifyTLogBody entry (content bundle)). }
  assert (Hempty : filter
                     (fun entry =>
                        passes
                          (verifyTLogEntryOffline verifyTLogBody verifyTLogSET
                             Date_of_seconds entry (content bundle)
                             (tlogs root) cert))
                     (tlogEntries vm) = []).
  { now apply filter_nothing. }
  split; [|split].
  - intros H. apply verifyTLogEntries_Return in H.
    destruct H as (_ & vm' & cert' & Hvm' & Hcert' & _ & Hcount).
    rewrite Hvm in Hvm'. injection Hvm' as <-.
    rewrite Hcert in Hcert'. injection Hcert' as <-.
    rewrite Hempty in Hcount. cbn [length] in Hcount. lia.
  - intros Hreturn.
    rewrite (verifyTLogEntries_count verifyTLogBody verifyTLogSET
               x509Certificate_parse Date_of_seconds bundle vm root options
               cert Hon Hvm Hcert).
    rewrite Array_filter_returns, Hempty.
    + cbn [length Z.of_nat]. apply Z.ltb_lt in Hpos. now rewrite Hpos.
    + intros entry Hin.
      rewrite (entryOffline_without_promise entry _ _ _ (Hnone entry Hin)).
      specialize (Hreturn entry Hin).
      now destruct (verifyTLogBody entry (content bundle)).
  - intros before entry after e Hentries Hbefore Hentry.
    apply (verifyTLogEntries_throws verifyTLogBody verifyTLogSET
             x509Certificate_parse Date_of_seconds bundle vm root options cert
             before entry after e Hon Hvm Hcert Hentries).
    + intros x Hx.
      rewrite (entryOffline_without_promise x _ _ _
                 (Hnone x ltac:(rewrite Hentries; apply in_or_app; now left))).
      specialize (Hbefore x Hx).
      now destruct (verifyTLogBody x (content bundle)).
    + rewrite (entryOffline_without_promise entry _ _ _
                 (Hnone entry
                    ltac:(rewrite Hentries; apply in_or_app; right; now left))).
      now rewrite Hentry.
Qed.

(** X14: further entries and a lower threshold keep an accepted bundle
    accepted, unless a check of a further entry throws. When
    [verifyTLogEntries] returns normally for a bundle, then under any
    options with online verification off and a threshold that is not
    higher, it returns normally for the bundle with further entries
    appended whose checks return; and when the check of a further entry
    throws, the checks of the further entries before it having returned, it
    throws that exception. *)
Theorem further_entries_keep_acceptance
  (bundle : Bundle) (vm : VerificationMaterial) (root : TrustedRoot)
  (options options' : ArtifactVerificationOptions_TlogOptions)
  (cert : option x509Certificate) (further : list TransparencyLogEntry) :
  verificationMaterial bundle = Some vm ->
  signingCertificate x509Certificate_parse bundle = Return cert ->
  performOnlineVerification options' = false ->
  (threshold options' <= threshold options)%Z ->
  verifyTLogEntries verifyTLogBody verifyTLogSET x509Certificate_parse
    Date_of_seconds bundle root options = Return tt ->
  ((forall entry, In entry further ->
      returns (verifyTLogEntryOffline verifyTLogBody verifyTLogSET
                 Date_of_seconds entry (content bundle) (tlogs root) cert)
      = true) ->
   verifyTLogEntries verifyTLogBody verifyTLogSET x509Certificate_parse
     Date_of_seconds (with_tlogEntries bundle (tlogEntries vm ++ further))
     root options' = Return tt)
  /\ (forall before entry after e,
        further = before ++ entry :: after ->
        (forall x, In x before ->
           returns (verifyTLogEntryOffline verifyTLogBody verifyTLogSET
                      Date_of_seconds x (content bundle) (tlogs root) cert)
           = true) ->
        verifyTLogEntryOffline verifyTLogBody verifyTLogSET Date_of_seconds
          entry (content bundle) (tlogs root) cert = Throw e ->
        verifyTLogEntries verifyTLogBody verifyTLogSET x509Certificate_parse
          Date_of_seconds (with_tlogEntries bundle (tlogEntries vm ++ further))
          root options' = Throw e).
Proof.
  intros Hvm Hcert Hon Hle H.
  apply verifyTLogEntries_Return in H.
  destruct H as (_ & vm' & cert' & Hvm' & Hcert' & Hall & Hcount).
  rewrite Hvm in Hvm'. injection Hvm' as <-.
  rewrite Hcert in Hcert'. injection Hcert' as <-.
  rewrite (verifyTLogEntries_with bundle vm root options' cert _ Hon Hvm Hcert).
  split.
  - intros Hfurther. apply count_accepts. split.
    + intros entry Hin. apply in_app_or in Hin.
      destruct Hin as [Hin|Hin]; [now apply Hall | now apply Hfurther].
    + rewrite filter_app, length_app. lia.
  - intros before entry after e -> Hbefore Hentry.
    rewrite app_assoc.
    rewrite (Array_filter_throws _ (tlogEntries vm ++ before) after entry e);
      [reflexivity| |exact Hentry].
    intros x Hx. apply in_app_or in Hx.
    destruct Hx as [Hx|Hx]; [now apply Hall | now apply Hbefore].
Qed.

Lemma Permutation_filter_length {A} (f : A -> bool) (l l' : list A) :
  Permutation l l' -> length (filter f l) = length (filter f l').
Proof.
  induction 1 as [|a l l' _ IH|a b l|l l' l'' _ IH1 _ IH2]; cbn [filter].
  - reflexivity.
  - destruct (f a); cbn [length]; now rewrite IH.
  - destruct (f a), (f b); reflexivity.
  - now rewrite IH1.
Qed.

(** X15: the order of the entries is irrelevant to acceptance, and to the
    whole outcome when no check throws. [verifyTLogEntries] returns
    normally for a bundle exactly when it does for the bundle with its
    entries in another order; and when the check of every entry returns, the
    two outcomes are equal. (When checks throw, the exception of the first
    entry whose check throws is the outcome, and that depends on the
    order.) *)
Theorem entry_order_is_irrelevant
  (bundle : Bundle) (root : TrustedRoot)
  (options : ArtifactVerificationOptions_TlogOptions)
  (entries entries' : list TransparencyLogEntry) :
  Permutation entries entries' ->
  (verifyTLogEntries verifyTLogBody verifyTLogSET x509Certificate_parse
     Date_of_seconds (with_tlogEntries bundle entries) root options
   = Return tt
   <-> verifyTLogEntries verifyTLogBody verifyTLogSET x509Certificate_parse
         Date_of_seconds (with_tlogEntries bundle entries') root options
       = Return tt)
  /\ (forall cert,
        signingCertificate x509Certificate_parse bundle = Return cert ->
        (forall entry, In entry entries ->
           returns (verifyTLogEntryOffline verifyTLogBody verifyTLogSET
                      Date_of_seconds entry (content bundle) (tlogs root)
                      cert) = true) ->
        verifyTLogEntries verifyTLogBody verifyTLogSET x509Certificate_parse
          Date_of_seconds (with_tlogEntries bundle entries) root options
        = verifyTLogEntries verifyTLogBody verifyTLogSET
            x509Certificate_parse Date_of_seconds
            (with_tlogEntries bundle entries') root options).
Proof.
  intros Hperm.
  assert (Hshape : forall l,
             verifyTLogEntries verifyTLogBody verifyTLogSET
               x509Certificate_parse Date_of_seconds
               (with_tlogEntries bundle l) root options
             = if performOnlineVerification options then
                 Throw (VerificationError "Online verification not implemented")
               else
                 match signingCertificate x509Certificate_parse bundle with
                 | Throw e => Throw e
                 | Return cert =>
                     match verificationMaterial bundle with
                     | None => Throw TypeError
                     | Some _ =>
                         match Array_filter
                                 (fun entry =>
                                    verifyTLogEntryOffline verifyTLogBody
                                      verifyTLogSET Date_of_seconds entry
                                      (content bundle) (tlogs root) cert)
                                 l with
                         | Throw e => Throw e
                         | Return verifiedEntries =>
                             if (Z.of_nat (length verifiedEntries)
                                 <? threshold options)%Z
                             then Throw (VerificationError
                                           "tlog verification failed")
                             else Return tt
                         end
                     end
                 end).
  { intros l. unfold verifyTLogEntries.
    rewrite signingCertificate_with_tlogEntries.
    unfold with_tlogEntries. cbn [verificationMaterial content].
    destruct (performOnlineVerification options); [reflexivity|].
    destruct (signingCertificate x509Certificate_parse bundle); [|reflexivity].
    now destruct (verificationMaterial bundle). }
  rewrite !Hshape. split.
  - destruct (performOnlineVerification options); [tauto|].
    destruct (signingCertificate x509Certificate_parse bundle) as [cert|e];
      [|tauto].
    destruct (verificationMaterial bundle); [|tauto].
    rewrite !count_accepts.
    rewrite (Permutation_filter_length _ _ _ Hperm).
    split; intros [Hall Hcount]; (split; [|exact Hcount]);
      intros entry Hin; apply Hall.
    + now apply (Permutation_in _ (Permutation_sym Hperm)).
    + now apply (Permutation_in _ Hperm).
  - intros cert Hcert Hall. rewrite Hcert.
    destruct (performOnlineVerification options); [reflexivity|].
    destruct (verificationMaterial bundle); [|reflexivity].
    rewrite !Array_filter_returns.
    + now rewrite (Permutation_filter_length _ _ _ Hperm).
    + intros entry Hin. apply Hall.
      now apply (Permutation_in _ (Permutation_sym Hperm)).
    + exact Hall.
Qed.

(** X16: the entries are counted, not told apart. One entry that passes
    offline verification, listed n times, meets every threshold up to n:
    [verifyTLogEntries] does not look for duplicates. *)
Theorem repeated_entry_meets_threshold
  (bundle : Bundle) (vm : VerificationMaterial) (root : TrustedRoot)
  (options : ArtifactVerificationOptions_TlogOptions)
  (cert : option x509Certificate) (entry : TransparencyLogEntry) (n : nat) :
  performOnlineVerification options = false ->
  verificationMaterial bundle = Some vm ->
  signingCertificate x509Certificate_parse bundle = Return cert ->
  verifyTLogEntryOffline verifyTLogBody verifyTLogSET Date_of_seconds entry
    (content bundle) (tlogs root) cert = Return true ->
  (threshold options <= Z.of_nat n)%Z ->
  verifyTLogEntries verifyTLogBody verifyTLogSET x509Certificate_parse
    Date_of_seconds (with_tlogEntries bundle (repeat entry n)) root options
  = Return tt.
Proof.
  intros Hon Hvm Hcert Hentry Hn.
  rewrite (verifyTLogEntries_with bundle vm root options cert _ Hon Hvm Hcert).
  apply count_accepts. split.
  - intros x Hx. apply repeat_spec in Hx. subst x. now rewrite Hentry.
  - replace (filter _ (repeat entry n)) with (repeat entry n).
    + now rewrite repeat_length.
    + clear Hn. induction n as [|n IH]; [reflexivity|]. cbn [repeat filter].
      rewrite Hentry. cbn [passes]. f_equal. exact IH.
Qed.

End Entries.

(** ** The steps of [Verifier#verify] *)

Section Steps.
Variable verifyTLogBody :
  TransparencyLogEntry -> option BundleContent -> completion exn bool.
Variable verifyTLogSET :
  TransparencyLogEntry -> list TransparencyLogInstance -> completion exn bool.
Variable x509Certificate_parse : Buffer -> completion exn x509Certificate.
Variable Date_of_seconds : jsstring -> Date.
Variable pem_fromDER : Buffer -> jsstring.
Variable createPublicKey : KeyInput -> completion exn KeyObject.
Variable crypto_hash : Buffer -> Buffer.
Variable verifyBlob : Buffer -> option KeyObject -> Buffer -> bool.
Variable ca_verifySigningCertificate :
  Bundle -> TrustedRoot -> RequiredArtifactVerificationOptions ->
  completion exn unit.

(** [verify] returns when its three steps do. *)
Lemma verify_Return this bundle options data :
  verify verifyTLogBody verifyTLogSET x509Certificate_parse Date_of_seconds
    pem_fromDER createPublicKey crypto_hash verifyBlob
    ca_verifySigningCertificate this bundle options data = Return tt
  <-> verifyArtifactSignature pem_fromDER createPublicKey crypto_hash
        verifyBlob this bundle data = Return tt
      /\ (isBundleWithCertificateChain bundle = true ->
          isCAVerificationOptions options = true
          /\ ca_verifySigningCertificate bundle (trustedRoot this) options
             = Return tt)
      /\ (disable (tlogOptions options) = false ->
          verifyTLogEntries verifyTLogBody verifyTLogSET x509Certificate_parse
            Date_of_seconds bundle (trustedRoot this) (tlogOptions options)
          = Return tt).
Proof.
  unfold verify, verifySigningCertificate.
  destruct (verifyArtifactSignature _ _ _ _ this bundle data) as [[]|e].
  2:{ split; [discriminate|]. intros [[=] _]. }
  destruct (isBundleWithCertificateChain bundle).
  - destruct (isCAVerificationOptions options); cbn [negb].
    + destruct (ca_verifySigningCertificate _ _ _) as [[]|e].
      * destruct (disable (tlogOptions options)); cbn [negb].
        -- split; [|reflexivity]. intros _. split; [reflexivity|].
           split; [now split|discriminate].
        -- split; [|intros (_ & _ & H); now apply H].
           intros H. split; [reflexivity|]. split; [now split|].
           intros _. exact H.
      * split; [discriminate|]. intros (_ & H & _).
        destruct (H eq_refl) as [_ [=]].
    + split; [discriminate|]. intros (_ & H & _).
      destruct (H eq_refl) as [[=] _].
  - destruct (disable (tlogOptions options)); cbn [negb].
    + split; [|reflexivity]. intros _. split; [reflexivity|].
      split; discriminate.
    + split; [|intros (_ & _ & H); now apply H].
      intros H. split; [reflexivity|]. split; [discriminate|].
      intros _. exact H.
Qed.

(** The key selection returns [undefined] exactly for a bundle whose
    verification material names neither a certificate chain nor a key
    hint. *)
Lemma getPublicKey_undefined (this : Verifier) (bundle : Bundle) :
  getPublicKey pem_fromDER createPublicKey this bundle = Return None
  <-> match verificationMaterial bundle with
      | Some vm =>
          match materialContent vm with
          | Some (x509CertificateChain _) | Some (publicKey _) => False
          | _ => True
          end
      | None => True
      end.
Proof.
  unfold getPublicKey.
  destruct (verificationMaterial bundle) as [vm|]; [|tauto].
  destruct (materialContent vm) as [[chain|id|cert]|]; try tauto.
  - destruct (getPublicKeyFromCertificateChain _ _ chain);
      split; (discriminate || tauto).
  - destruct (getPublicKeyFromHint _ id (keySelector this));
      split; (discriminate || tauto).
Qed.

(** X17: what acceptance of a message-signature bundle means.
    [Verifier#verify] returns normally exactly when artifact data is given,
    the key selection returns, the digest of the bundle is present and
    equals the hash of the data, [crypto.verifyBlob] accepts the signature
    of the bundle over the data with what the key selection returned, the
    certificate chain (if the bundle has one) passes the CA verification
    under CA verification options, and (unless the tlog options disable it)
    the transparency-log step returns normally. What the key selection
    returns is [undefined] exactly when the verification material names
    neither a certificate chain nor a key hint; so when [crypto.verifyBlob]
    accepts nothing with an undefined key, an accepted bundle has a selected
    public key and names a certificate chain or a key hint. *)
Theorem verify_accepts_message_signature_iff
  (this : Verifier) (bundle : Bundle) (m : MessageSignature)
  (options : RequiredArtifactVerificationOptions) (data : option Buffer) :
  content bundle = Some (messageSignature m) ->
  (verify verifyTLogBody verifyTLogSET x509Certificate_parse Date_of_seconds
     pem_fromDER createPublicKey crypto_hash verifyBlob
     ca_verifySigningCertificate this bundle options data = Return tt
  <-> (exists artifact key expected,
         data = Some artifact
         /\ getPublicKey pem_fromDER createPublicKey this bundle = Return key
         /\ messageDigest m = Some expected
         /\ crypto_hash artifact = digest expected
         /\ verifyBlob artifact key (signature m) = true)
      /\ (isBundleWithCertificateChain bundle = true ->
          isCAVerificationOptions options = true
          /\ ca_verifySigningCertificate bundle (trustedRoot this) options
             = Return tt)
      /\ (disable (tlogOptions options) = false ->
          verifyTLogEntries verifyTLogBody verifyTLogSET x509Certificate_parse
            Date_of_seconds bundle (trustedRoot this) (tlogOptions options)
          = Return tt))
  /\ (getPublicKey pem_fromDER createPublicKey this bundle = Return None
      <-> match verificationMaterial bundle with
          | Some vm =>
              match materialContent vm with
              | Some (x509CertificateChain _) | Some (publicKey _) => False
              | _ => True
              end
          | None => True
          end)
  /\ ((forall d s, verifyBlob d None s = false) ->
      verify verifyTLogBody verifyTLogSET x509Certificate_parse
        Date_of_seconds pem_fromDER createPublicKey crypto_hash verifyBlob
        ca_verifySigningCertificate this bundle options data = Return tt ->
      exists k vm,
        getPublicKey pem_fromDER createPublicKey this bundle
        = Return (Some k)
        /\ verificationMaterial bundle = Some vm
        /\ ((exists chain,
               materialContent vm = Some (x509CertificateChain chain))
            \/ (exists id, materialContent vm = Some (publicKey id)))).
Proof.
  intros Hm.
  assert (Hiff :
    verify verifyTLogBody verifyTLogSET x509Certificate_parse Date_of_seconds
      pem_fromDER createPublicKey crypto_hash verifyBlob
      ca_verifySigningCertificate this bundle options data = Return tt
    <-> (exists artifact key expected,
           data = Some artifact
           /\ getPublicKey pem_fromDER createPublicKey this bundle
              = Return key
           /\ messageDigest m = Some expected
           /\ crypto_hash artifact = digest expected
           /\ verifyBlob artifact key (signature m) = true)
        /\ (isBundleWithCertificateChain bundle = true ->
            isCAVerificationOptions options = true
            /\ ca_verifySigningCertificate bundle (trustedRoot this) options
               = Return tt)
        /\ (disable (tlogOptions options) = false ->
            verifyTLogEntries verifyTLogBody verifyTLogSET
              x509Certificate_parse Date_of_seconds bundle (trustedRoot this)
              (tlogOptions options)
            = Return tt)).
  2:{ split; [exact Hiff|]. split; [apply getPublicKey_undefined|].
      intros Hundefined Haccept. apply Hiff in Haccept.
      destruct Haccept as ((a & key & x & _ & Hkey & _ & _ & Hsig) & _).
      destruct key as [k|]; [|now rewrite Hundefined in Hsig].
      revert Hkey. unfold getPublicKey.
      destruct (verificationMaterial bundle) as [vm|]; [|discriminate].
      destruct (materialContent vm) as [[chain|id|cert]|] eqn:Hcontent;
        try discriminate.
      - destruct (getPublicKeyFromCertificateChain _ _ chain) as [k'|];
          [|discriminate].
        intros [= ->]. exists k, vm. split; [reflexivity|].
        split; [reflexivity|]. left. now exists chain.
      - destruct (getPublicKeyFromHint _ id (keySelector this)) as [k'|];
          [|discriminate].
        intros [= ->]. exists k, vm. split; [reflexivity|].
        split; [reflexivity|]. right. now exists id. }
  rewrite verify_Return.
  apply and_iff_compat_r.
  unfold verifyArtifactSignature, verifyMessageSignature. rewrite Hm.
  destruct (getPublicKey _ _ this bundle) as [key|e].
  2:{ split; [discriminate|]. intros (a & k & x & _ & [=] & _). }
  destruct data as [artifact|].
  2:{ split; [discriminate|]. intros (a & k & x & [=] & _). }
  destruct (messageDigest m) as [expected|].
  2:{ split; [discriminate|]. intros (a & k & x & _ & _ & [=] & _). }
  pose proof (bufferEqual_spec (crypto_hash artifact) (digest expected))
    as Hdigest.
  destruct (bufferEqual _ _); cbn [negb].
  - destruct (verifyBlob artifact key (signature m)) eqn:Hsig; cbn [negb].
    + split; [|reflexivity]. intros _. exists artifact, key, expected.
      split; [reflexivity|]. split; [reflexivity|]. split; [reflexivity|].
      split; [now apply Hdigest|exact Hsig].
    + split; [discriminate|].
      intros (a & k & x & [= <-] & [= <-] & _ & _ & H). congruence.
  - split; [discriminate|].
    intros (a & k & x & [= <-] & _ & [= <-] & H & _).
    apply Hdigest in H. discriminate H.
Qed.

(** X18: what acceptance of a DSSE bundle means. [Verifier#verify] returns
    normally exactly when the key selection returns, the envelope has a
    first signature that [crypto.verifyBlob] accepts, with what the key
    selection returned, over the bytes
    "DSSEv1 " len(payloadType) " " payloadType " " len(payload) " " payload
    (the lengths in decimal, the payload type by the low bytes of its code
    units), and the certificate and transparency-log steps pass as for any
    bundle. The artifact data plays no role: the outcome is the one of the
    call without data. When [crypto.verifyBlob] accepts nothing with an
    undefined key, an accepted bundle has a selected public key. *)
Theorem verify_accepts_dsse_iff
  (this : Verifier) (bundle : Bundle) (envelope : Envelope)
  (options : RequiredArtifactVerificationOptions) (data : option Buffer) :
  content bundle = Some (dsseEnvelope envelope) ->
  (verify verifyTLogBody verifyTLogSET x509Certificate_parse Date_of_seconds
     pem_fromDER createPublicKey crypto_hash verifyBlob
     ca_verifySigningCertificate this bundle options data = Return tt
   <-> (exists key first others,
          getPublicKey pem_fromDER createPublicKey this bundle = Return key
          /\ signatures envelope = first :: others
          /\ verifyBlob
               (Dsse.PAE_spec (Dsse.low_bytes (payloadType envelope))
                  (payload envelope))
               key (sig first) = true)
       /\ (isBundleWithCertificateChain bundle = true ->
           isCAVerificationOptions options = true
           /\ ca_verifySigningCertificate bundle (trustedRoot this) options
              = Return tt)
       /\ (disable (tlogOptions options) = false ->
           verifyTLogEntries verifyTLogBody verifyTLogSET
             x509Certificate_parse Date_of_seconds bundle (trustedRoot this)
             (tlogOptions options)
           = Return tt))
  /\ verify verifyTLogBody verifyTLogSET x509Certificate_parse Date_of_seconds
       pem_fromDER createPublicKey crypto_hash verifyBlob
       ca_verifySigningCertificate this bundle options data
     = verify verifyTLogBody verifyTLogSET x509Certificate_parse
         Date_of_seconds pem_fromDER createPublicKey crypto_hash verifyBlob
         ca_verifySigningCertificate this bundle options None
  /\ ((forall d s, verifyBlob d None s = false) ->
      verify verifyTLogBody verifyTLogSET x509Certificate_parse
        Date_of_seconds pem_fromDER createPublicKey crypto_hash verifyBlob
        ca_verifySigningCertificate this bundle options data = Return tt ->
      exists k,
        getPublicKey pem_fromDER createPublicKey this bundle
        = Return (Some k)).
Proof.
  intros He.
  assert (Hiff :
    verify verifyTLogBody verifyTLogSET x509Certificate_parse Date_of_seconds
      pem_fromDER createPublicKey crypto_hash verifyBlob
      ca_verifySigningCertificate this bundle options data = Return tt
    <-> (exists key first others,
           getPublicKey pem_fromDER createPublicKey this bundle = Return key
           /\ signatures envelope = first :: others
           /\ verifyBlob
                (Dsse.PAE_spec (Dsse.low_bytes (payloadType envelope))
                   (payload envelope))
                key (sig first) = true)
        /\ (isBundleWithCertificateChain bundle = true ->
            isCAVerificationOptions options = true
            /\ ca_verifySigningCertificate bundle (trustedRoot this) options
               = Return tt)
        /\ (disable (tlogOptions options) = false ->
            verifyTLogEntries verifyTLogBody verifyTLogSET
              x509Certificate_parse Date_of_seconds bundle (trustedRoot this)
              (tlogOptions options)
            = Return tt)).
  { rewrite verify_Return. apply and_iff_compat_r.
    unfold verifyArtifactSignature, verifyDSSESignature. rewrite He.
    rewrite dssePreAuthEncoding_PAE.
    destruct (getPublicKey _ _ this bundle) as [key|e].
    2:{ split; [discriminate|]. intros (k & f & o & [=] & _). }
    destruct (signatures envelope) as [|first others].
    { split; [discriminate|]. intros (k & f & o & _ & [=] & _). }
    destruct (verifyBlob _ key (sig first)) eqn:Hsig; cbn [negb].
    + split; [|reflexivity]. intros _. exists key, first, others.
      split; [reflexivity|]. split; [reflexivity|exact Hsig].
    + split; [discriminate|].
      intros (k & f & o & [= <-] & [= <- <-] & H). congruence. }
  split; [exact Hiff|]. split.
  - unfold verify, verifyArtifactSignature. now rewrite He.
  - intros Hundefined Haccept. apply Hiff in Haccept.
    destruct Haccept as ((key & f & o & Hkey & _ & Hsig) & _).
    destruct key as [k|]; [|now rewrite Hundefined in Hsig].
    now exists k.
Qed.

(** X19: the failures of the message-signature step, in their order. For a
    message-signature bundle verified with artifact data and a selected key,
    [Verifier#verify] throws the message-digest error when the hash of the
    data differs from the digest of the bundle, whatever the signature; the
    artifact-signature error when the digest matches and the signature does
    not verify over the data; and the engine's TypeError when the bundle
    carries no digest. *)
Theorem message_signature_failures
  (this : Verifier) (bundle : Bundle) (m : MessageSignature)
  (options : RequiredArtifactVerificationOptions) (artifact : Buffer)
  (key : option KeyObject) :
  content bundle = Some (messageSignature m) ->
  getPublicKey pem_fromDER createPublicKey this bundle = Return key ->
  (messageDigest m = None ->
   verify verifyTLogBody verifyTLogSET x509Certificate_parse Date_of_seconds
     pem_fromDER createPublicKey crypto_hash verifyBlob
     ca_verifySigningCertificate this bundle options (Some artifact)
   = Throw TypeError)
  /\ (forall expected,
        messageDigest m = Some expected ->
        crypto_hash artifact <> digest expected ->
        verify verifyTLogBody verifyTLogSET x509Certificate_parse
          Date_of_seconds pem_fromDER createPublicKey crypto_hash verifyBlob
          ca_verifySigningCertificate this bundle options (Some artifact)
        = Throw (VerificationError "message digest verification failed"))
  /\ (forall expected,
        messageDigest m = Some expected ->
        crypto_hash artifact = digest expected ->
        verifyBlob artifact key (signature m) = false ->
        verify verifyTLogBody verifyTLogSET x509Certificate_parse
          Date_of_seconds pem_fromDER createPublicKey crypto_hash verifyBlob
          ca_verifySigningCertificate this bundle options (Some artifact)
        = Throw (VerificationError "artifact signature verification failed")).
Proof.
  intros Hm Hkey.
  unfold verify, verifyArtifactSignature, verifyMessageSignature.
  rewrite Hm, Hkey. split; [|split].
  - intros ->. reflexivity.
  - intros expected -> Hdigest.
    destruct (bufferEqual (crypto_hash artifact) (digest expected)) eqn:E;
      [|reflexivity].
    apply bufferEqual_spec in E. now destruct Hdigest.
  - intros expected -> -> Hsig.
    now rewrite bufferEqual_refl, Hsig.
Qed.

(** X20: the outcomes of the key selection by hint. The key selector is
    called outside the [try] block, so what it throws leaves
    [getPublicKeyFromHint] unchanged. The call returns a key exactly when
    the selector answers the hint with a key other than the empty string
    and [crypto.createPublicKey] reads it. It throws the no-public-key
    error exactly when the selector answers nothing or the empty string, or
    throws that very error itself; and the invalid-public-key error exactly
    when [crypto.createPublicKey] throws on the answer, whatever it throws,
    or the selector throws that very error itself. Every exception of the
    call is the one the selector threw or, the selector having returned, one
    of these two [VerificationError]s. *)
Theorem getPublicKeyFromHint_outcomes
  (id : PublicKeyIdentifier) (selector : KeySelector) :
  (forall k,
     getPublicKeyFromHint createPublicKey id selector = Return k
     <-> exists key,
           selector (hint id) = Return (Some key) /\ key <> inl []
           /\ createPublicKey key = Return k)
  /\ (forall e,
        selector (hint id) = Throw e ->
        getPublicKeyFromHint createPublicKey id selector = Throw e)
  /\ (getPublicKeyFromHint createPublicKey id selector
      = Throw (VerificationError
                 "no public key found for signature verification")
      <-> selector (hint id) = Return None
          \/ selector (hint id) = Return (Some (inl []))
          \/ selector (hint id)
             = Throw (VerificationError
                        "no public key found for signature verification"))
  /\ (getPublicKeyFromHint createPublicKey id selector
      = Throw (VerificationError "invalid public key")
      <-> (exists key e,
             selector (hint id) = Return (Some key) /\ key <> inl []
             /\ createPublicKey key = Throw e)
          \/ selector (hint id)
             = Throw (VerificationError "invalid public key"))
  /\ (forall e,
        getPublicKeyFromHint createPublicKey id selector = Throw e ->
        selector (hint id) = Throw e
        \/ ((exists answer, selector (hint id) = Return answer)
            /\ (e = VerificationError
                      "no public key found for signature verification"
                \/ e = VerificationError "invalid public key"))).
Proof.
  unfold getPublicKeyFromHint.
  destruct (selector (hint id)) as [[[[|c s]|b]|]|thrown];
    cbv beta iota zeta.
  - split; [|split; [|split; [|split]]].
    + intros k. split; [discriminate|]. intros (key & [= <-] & H & _).
      now destruct H.
    + discriminate.
    + split; [now right; left|reflexivity].
    + split; [discriminate|].
      intros [(key & e & [= <-] & H & _)|[=]]. now destruct H.
    + intros e [= <-]. right. split; [eauto|now left].
  - destruct (createPublicKey _) as [k'|e'] eqn:Hk;
      (split; [|split; [|split; [|split]]]).
    + intros k. split.
      * intros [= <-]. exists (inl (c :: s)).
        split; [reflexivity|]. split; [discriminate|exact Hk].
      * intros (key & [= <-] & _ & H). congruence.
    + discriminate.
    + split; [discriminate|]. intros [[=]|[[=]|[=]]].
    + split; [discriminate|].
      intros [(key & e & [= <-] & _ & H)|[=]]. congruence.
    + discriminate.
    + intros k. split; [discriminate|].
      intros (key & [= <-] & _ & H). congruence.
    + discriminate.
    + split; [discriminate|]. intros [[=]|[[=]|[=]]].
    + split; [|reflexivity]. intros _. left. exists (inl (c :: s)), e'.
      split; [reflexivity|]. split; [discriminate|exact Hk].
    + intros e [= <-]. right. split; [eauto|now right].
  - destruct (createPublicKey _) as [k'|e'] eqn:Hk;
      (split; [|split; [|split; [|split]]]).
    + intros k. split.
      * intros [= <-]. exists (inr b).
        split; [reflexivity|]. split; [discriminate|exact Hk].
      * intros (key & [= <-] & _ & H). congruence.
    + discriminate.
    + split; [discriminate|]. intros [[=]|[[=]|[=]]].
    + split; [discriminate|].
      intros [(key & e & [= <-] & _ & H)|[=]]. congruence.
    + discriminate.
    + intros k. split; [discriminate|].
      intros (key & [= <-] & _ & H). congruence.
    + discriminate.
    + split; [discriminate|]. intros [[=]|[[=]|[=]]].
    + split; [|reflexivity]. intros _. left. exists (inr b), e'.
      split; [reflexivity|]. split; [discriminate|exact Hk].
    + intros e [= <-]. right. split; [eauto|now right].
  - split; [|split; [|split; [|split]]].
    + intros k. split; [discriminate|]. intros (key & [=] & _).
    + discriminate.
    + split; [now left|reflexivity].
    + split; [discriminate|]. intros [(key & e & [=] & _)|[=]].
    + intros e [= <-]. right. split; [eauto|now left].
  - split; [|split; [|split; [|split]]].
    + intros k. split; [discriminate|]. intros (key & [=] & _).
    + intros e [= <-]. reflexivity.
    + split.
      * intros [= ->]. now right; right.
      * intros [[=]|[[=]|[= ->]]]. reflexivity.
    + split.
      * intros [= ->]. now right.
      * intros [(key & e & [=] & _)|[= ->]]. reflexivity.
    + intros e [= <-]. now left.
Qed.

(** X21: a certificate chain is never accepted without CA verification
    options. For a bundle with a certificate chain and options that are not
    CA verification options, [Verifier#verify] throws what the signature
    step throws, and otherwise the no-trusted-certificates error; the CA
    verification and the transparency-log step are not reached. *)
Theorem certificate_chain_needs_ca_options
  (this : Verifier) (bundle : Bundle)
  (options : RequiredArtifactVerificationOptions) (data : option Buffer) :
  isBundleWithCertificateChain bundle = true ->
  isCAVerificationOptions options = false ->
  verify verifyTLogBody verifyTLogSET x509Certificate_parse Date_of_seconds
    pem_fromDER createPublicKey crypto_hash verifyBlob
    ca_verifySigningCertificate this bundle options data
  = match verifyArtifactSignature pem_fromDER createPublicKey crypto_hash
            verifyBlob this bundle data with
    | Throw e => Throw e
    | Return _ =>
        Throw (VerificationError
                 "no trusted certificates provided for verification")
    end.
Proof.
  intros Hchain Hca. unfold verify, verifySigningCertificate.
  rewrite Hchain, Hca. cbn [negb].
  now destruct (verifyArtifactSignature _ _ _ _ this bundle data).
Qed.

(** X22: an empty certificate chain ends in a TypeError. For a bundle whose
    verification material is a certificate chain without certificates,
    [Verifier#verify] ends with the engine's TypeError (the first
    certificate is read from an empty array), not with a
    [VerificationError], whatever the content, the options and the data; so
    does [verifyTLogEntries] on its own when online verification is off. *)
Theorem empty_certificate_chain_type_error
  (this : Verifier) (bundle : Bundle) (chain : X509CertificateChain)
  (options : RequiredArtifactVerificationOptions) (data : option Buffer) :
  certificateChain bundle = Some chain ->
  certificates chain = [] ->
  verify verifyTLogBody verifyTLogSET x509Certificate_parse Date_of_seconds
    pem_fromDER createPublicKey crypto_hash verifyBlob
    ca_verifySigningCertificate this bundle options data
  = Throw TypeError
  /\ (performOnlineVerification (tlogOptions options) = false ->
      verifyTLogEntries verifyTLogBody verifyTLogSET x509Certificate_parse
        Date_of_seconds bundle (trustedRoot this) (tlogOptions options)
      = Throw TypeError).
Proof.
  intros Hchain Hempty. split.
  - unfold verify, verifyArtifactSignature, getPublicKey,
      getPublicKeyFromCertificateChain.
    unfold certificateChain in Hchain.
    destruct (verificationMaterial bundle) as [vm|]; [|discriminate].
    destruct (materialContent vm) as [[c| |]|]; try discriminate.
    injection Hchain as ->. now rewrite Hempty.
  - intros Hon. unfold verifyTLogEntries, signingCertificate.
    now rewrite Hon, Hchain, Hempty.
Qed.

(** X23: a DSSE envelope without signatures ends in a TypeError. For a DSSE
    bundle whose envelope has an empty list of signatures, [Verifier#verify]
    throws what the key selection throws, and otherwise the engine's
    TypeError (the first signature is read from an empty array), not a
    [VerificationError]. *)
Theorem dsse_without_signatures_type_error
  (this : Verifier) (bundle : Bundle) (envelope : Envelope)
  (options : RequiredArtifactVerificationOptions) (data : option Buffer) :
  content bundle = Some (dsseEnvelope envelope) ->
  signatures envelope = [] ->
  verify verifyTLogBody verifyTLogSET x509Certificate_parse Date_of_seconds
    pem_fromDER createPublicKey crypto_hash verifyBlob
    ca_verifySigningCertificate this bundle options data
  = match getPublicKey pem_fromDER createPublicKey this bundle with
    | Throw e => Throw e
    | Return _ => Throw TypeError
    end.
Proof.
  intros He Hempty.
  unfold verify, verifyArtifactSignature, verifyDSSESignature.
  rewrite He, Hempty. now destruct (getPublicKey _ _ this bundle).
Qed.

(** X24: a verifier built without a key selector accepts no bundle that
    names its key by a hint. The constructor puts a selector that answers
    nothing in its place, so for verification material of the public-key
    case [Verifier#verify] throws the no-public-key error, whatever the
    hint, the content, the options and the data. *)
Theorem verifier_without_selector_rejects_key_hints
  (root : TrustedRoot) (bundle : Bundle) (vm : VerificationMaterial)
  (id : PublicKeyIdentifier)
  (options : RequiredArtifactVerificationOptions) (data : option Buffer) :
  verificationMaterial bundle = Some vm ->
  materialContent vm = Some (publicKey id) ->
  verify verifyTLogBody verifyTLogSET x509Certificate_parse Date_of_seconds
    pem_fromDER createPublicKey crypto_hash verifyBlob
    ca_verifySigningCertificate (Verifier_new root None) bundle options data
  = Throw (VerificationError "no public key found for signature verification").
Proof.
  intros Hvm Hid.
  unfold verify, verifyArtifactSignature, getPublicKey, getPublicKeyFromHint.
  rewrite Hvm, Hid. reflexivity.
Qed.

End Steps.

Lemma entries_without_promise_witness :
  example_verifyTLogEntries bundle_proof_only example_root
    (tlog_options 1 false)
  = Throw (VerificationError "tlog verification failed")
  /\ verifyTLogEntries parsing_body example_SET example_parse example_seconds
       bundle_proof_only example_root (tlog_options 1 false)
     = Throw (Error "Unexpected token b in JSON at position 0").
Proof.
  split.
  - apply (proj1 (proj2 (entries_without_promise_do_not_count example_body
                           example_SET example_parse example_seconds
                           bundle_proof_only
                           (chain_material leaf_der [entry_proof_only])
                           example_root (tlog_options 1 false)
                           (Some example_window) eq_refl eq_refl eq_refl
                           ltac:(intros entry [<-|[]]; reflexivity)
                           eq_refl))).
    intros entry [<-|[]]. reflexivity.
  - apply (proj2 (proj2 (entries_without_promise_do_not_count parsing_body
                           example_SET example_parse example_seconds
                           bundle_proof_only
                           (chain_material leaf_der [entry_proof_only])
                           example_root (tlog_options 1 false)
                           (Some example_window) eq_refl eq_refl eq_refl
                           ltac:(intros entry [<-|[]]; reflexivity)
                           eq_refl))
             [] entry_proof_only []
             (Error "Unexpected token b in JSON at position 0") eq_refl).
    + intros x [].
    + reflexivity.
Defined.

Lemma further_entries_witness :
  example_verifyTLogEntries
    (with_tlogEntries bundle_one_entry
       (tlogEntries (chain_material leaf_der [entry_in_window])
        ++ [entry_late; entry_proof_only]))
    example_root (tlog_options 1 false)
  = Return tt
  /\ verifyTLogEntries parsing_body example_SET example_parse example_seconds
       (with_tlogEntries bundle_braced
          (tlogEntries (chain_material leaf_der [entry_braced])
           ++ [entry_braced; entry_proof_only; entry_late]))
       example_root (tlog_options 1 false)
     = Throw (Error "Unexpected token b in JSON at position 0").
Proof.
  split.
  - apply (proj1 (further_entries_keep_acceptance example_body example_SET
                    example_parse example_seconds bundle_one_entry
                    (chain_material leaf_der [entry_in_window]) example_root
                    (tlog_options 1 false) (tlog_options 1 false)
                    (Some example_window) [entry_late; entry_proof_only]
                    eq_refl eq_refl eq_refl
                    ltac:(vm_compute; discriminate) eq_refl)).
    intros entry [<-|[<-|[]]]; reflexivity.
  - apply (proj2 (further_entries_keep_acceptance parsing_body example_SET
                    example_parse example_seconds bundle_braced
                    (chain_material leaf_der [entry_braced]) example_root
                    (tlog_options 1 false) (tlog_options 1 false)
                    (Some example_window)
                    [entry_braced; entry_proof_only; entry_late]
                    eq_refl eq_refl eq_refl
                    ltac:(vm_compute; discriminate) eq_refl)
             [entry_braced] entry_proof_only [entry_late]
             (Error "Unexpected token b in JSON at position 0") eq_refl).
    + intros x [<-|[]]. reflexivity.
    + reflexivity.
Defined.

Lemma entry_order_witness :
  example_verifyTLogEntries
    (with_tlogEntries bundle_one_entry [entry_in_window; entry_late])
    example_root (tlog_options 1 false)
  = example_verifyTLogEntries
      (with_tlogEntries bundle_one_entry [entry_late; entry_in_window])
      example_root (tlog_options 1 false).
Proof.
  apply (proj2 (entry_order_is_irrelevant example_body example_SET
                  example_parse example_seconds bundle_one_entry example_root
                  (tlog_options 1 false) [entry_in_window; entry_late]
                  [entry_late; entry_in_window]
                  ltac:(apply perm_swap))
           (Some example_window) eq_refl).
  intros entry [<-|[<-|[]]]; reflexivity.
Defined.

Lemma repeated_entry_witness :
  example_verifyTLogEntries
    (with_tlogEntries bundle_one_entry (repeat entry_in_window 3))
    example_root (tlog_options 3 false)
  = Return tt.
Proof.
  apply (repeated_entry_meets_threshold example_body example_SET
           example_parse example_seconds bundle_one_entry
           (chain_material leaf_der [entry_in_window]) example_root
           (tlog_options 3 false) (Some example_window) entry_in_window 3
           eq_refl eq_refl eq_refl).
  - vm_compute. reflexivity.
  - vm_compute. discriminate.
Defined.

Lemma verify_accepts_message_signature_witness :
  example_verify example_verifier bundle_one_entry (example_options 1)
    (Some artifact)
  = Return tt.
Proof.
  apply (proj2 (proj1 (verify_accepts_message_signature_iff example_body
                         example_SET example_parse example_seconds
                         example_pem example_createPublicKey example_hash
                         example_verifyBlob example_ca example_verifier
                         bundle_one_entry
                         {| messageDigest :=
                              Some {| algorithm := SHA2_256;
                                      digest := example_hash artifact |};
                            signature := leaf_der ++ artifact |}
                         (example_options 1) (Some artifact) eq_refl))).
  split; [|split].
  - exists artifact, (Some leaf_der),
      {| algorithm := SHA2_256; digest := example_hash artifact |}.
    split; [reflexivity|]. split; [vm_compute; reflexivity|].
    split; [reflexivity|]. split; [reflexivity|vm_compute; reflexivity].
  - intros _. split; reflexivity.
  - intros _. vm_compute. reflexivity.
Defined.

Lemma verify_accepts_dsse_witness :
  example_verify example_verifier (bundle_dsse [envelope_signature])
    (example_options 1) None
  = Return tt.
Proof.
  apply (proj2 (proj1 (verify_accepts_dsse_iff example_body example_SET
                         example_parse example_seconds example_pem
                         example_createPublicKey example_hash
                         example_verifyBlob example_ca example_verifier
                         (bundle_dsse [envelope_signature])
                         (example_envelope [envelope_signature])
                         (example_options 1) None eq_refl))).
  split; [|split].
  - exists (Some leaf_der), envelope_signature, [].
    split; [vm_compute; reflexivity|]. split; [reflexivity|].
    vm_compute. reflexivity.
  - intros _. split; reflexivity.
  - intros _. vm_compute. reflexivity.
Defined.

Lemma message_signature_failures_witness :
  example_verify example_verifier bundle_one_entry (example_options 1)
    (Some (bytes "tampered"))
  = Throw (VerificationError "message digest verification failed").
Proof.
  apply (proj1 (proj2 (message_signature_failures example_body example_SET
                         example_parse example_seconds example_pem
                         example_createPublicKey example_hash
                         example_verifyBlob example_ca example_verifier
                         bundle_one_entry
                         {| messageDigest :=
                              Some {| algorithm := SHA2_256;
                                      digest := example_hash artifact |};
                            signature := leaf_der ++ artifact |}
                         (example_options 1) (bytes "tampered")
                         (Some leaf_der) eq_refl
                         ltac:(vm_compute; reflexivity)))
           {| algorithm := SHA2_256; digest := example_hash artifact |}
           eq_refl).
  vm_compute. discriminate.
Defined.

Lemma certificate_chain_needs_ca_options_witness :
  example_verify example_verifier bundle_one_entry options_without_ca
    (Some artifact)
  = Throw (VerificationError
             "no trusted certificates provided for verification").
Proof.
  unfold example_verify.
  rewrite (certificate_chain_needs_ca_options example_body example_SET
             example_parse example_seconds example_pem example_createPublicKey
             example_hash example_verifyBlob example_ca example_verifier
             bundle_one_entry options_without_ca (Some artifact)
             eq_refl eq_refl).
  vm_compute. reflexivity.
Defined.

Lemma empty_certificate_chain_witness :
  example_verify example_verifier bundle_empty_chain (example_options 1)
    (Some artifact)
  = Throw TypeError.
Proof.
  apply (proj1 (empty_certificate_chain_type_error example_body example_SET
                  example_parse example_seconds example_pem
                  example_createPublicKey example_hash example_verifyBlob
                  example_ca example_verifier bundle_empty_chain
                  {| certificates := [] |} (example_options 1)
                  (Some artifact) eq_refl eq_refl)).
Defined.

Lemma dsse_without_signatures_witness :
  example_verify example_verifier (bundle_dsse []) (example_options 1) None
  = Throw TypeError.
Proof.
  unfold example_verify.
  rewrite (dsse_without_signatures_type_error example_body example_SET
             example_parse example_seconds example_pem example_createPublicKey
             example_hash example_verifyBlob example_ca example_verifier
             (bundle_dsse []) (example_envelope []) (example_options 1) None
             eq_refl eq_refl).
  vm_compute. reflexivity.
Defined.

Lemma verifier_without_selector_witness :
  example_verify (Verifier_new example_root None) bundle_unknown_hint
    (example_options 1) (Some artifact)
  = Throw (VerificationError "no public key found for signature verification").
Proof.
  apply (verifier_without_selector_rejects_key_hints example_body example_SET
           example_parse example_seconds example_pem example_createPublicKey
           example_hash example_verifyBlob example_ca example_root
           bundle_unknown_hint
           {| materialContent := Some (publicKey {| hint := lit "unknown" |});
              tlogEntries := [entry_in_window];
              timestampVerificationData := None |}
           {| hint := lit "unknown" |} (example_options 1) (Some artifact)
           eq_refl eq_refl).
Defined.

End Client_verifier.
